(** * horizon_contrib.tables.base: model tables and their pagination

    A shallow embedding of [horizon_contrib/tables/base.py]:
    - [ModelTableMetaclass.__new__], which gathers the declared columns and
      actions of a table class,
    - [ModelTable.__init__] and its [_model_class] property, which add the
      columns derived from the bound model,
    - [PaginationMixin], the adapter around Django's [Paginator].

    Python exceptions are values of [exn]; a computation that may raise
    returns [result A]; a method that also updates [self] is a function from
    the object's state to a result and the new state. *)

From Stdlib Require Import String Ascii ZArith List Bool Lia.
From Stdlib Require Import Permutation Sorted OrdersEx.
Import ListNotations.

Local Open Scope string_scope.
Local Open Scope Z_scope.

(* ===================================================================== *)
(** ** Python values, exceptions and the error monad *)
(* ===================================================================== *)

(** The exceptions that the modelled code raises or lets through. The
    string carried by an exception is its message with the class name
    already substituted. *)
Inductive exn : Type :=
| ValueError (msg : string)
| NotImplementedError (msg : string)
| RuntimeError (msg : string)
| Exception (msg : string)
| KeyError (key : string)
| AttributeError (msg : string)
| UnboundLocalError (var : string)
| ZeroDivisionError
| OverflowError (msg : string)
| EmptyPage (msg : string)
| PageNotAnInteger (msg : string).

Definition result (A : Type) : Type := (exn + A)%type.

Definition ok {A} (a : A) : result A := inr a.
Definition raise {A} (e : exn) : result A := inl e.

Definition rbind {A B} (r : result A) (k : A -> result B) : result B :=
  match r with
  | inl e => inl e
  | inr a => k a
  end.

Declare Scope result_scope.
Delimit Scope result_scope with result.
Notation "x <- r ;; k" := (rbind r (fun x => k))
  (at level 61, r at next level, right associativity) : result_scope.

(** A method that reads and writes the attributes of [self]: the state is
    returned also when the method raises, as the assignments made before
    the exception stay. *)
Definition method (S A : Type) : Type := S -> result A * S.

Definition mret {S A} (a : A) : method S A := fun s => (inr a, s).
Definition mraise {S A} (e : exn) : method S A := fun s => (inl e, s).
Definition mbind {S A B} (m : method S A) (k : A -> method S B) : method S B :=
  fun s =>
    match m s with
    | (inl e, s') => (inl e, s')
    | (inr a, s') => k a s'
    end.
Definition mget {S} : method S S := fun s => (inr s, s).
Definition mput {S} (s : S) : method S unit := fun _ => (inr tt, s).
Definition mlift {S A} (r : result A) : method S A := fun s => (r, s).

Declare Scope method_scope.
Delimit Scope method_scope with method.
Notation "x <- m ;; k" := (mbind m (fun x => k))
  (at level 61, m at next level, right associativity) : method_scope.
Notation "m ;;; k" := (mbind m (fun _ => k))
  (at level 61, right associativity) : method_scope.

(** A page token or a page size: a string, as in the class attributes
    [page = "1"] and [PAGINATION_COUNT = "25"], or an integer, as the
    [num_pages] that [get_page_data] hands back to the paginator. *)
Inductive pyval : Type :=
| PyStr (s : string)
| PyInt (z : Z).

(** [if page:] *)
Definition truthy (v : pyval) : bool :=
  match v with
  | PyStr s => negb (String.eqb s "")
  | PyInt z => negb (Z.eqb z 0)
  end.

(** [self.page == "all"] *)
Definition pyval_eq_str (v : pyval) (s : string) : bool :=
  match v with
  | PyStr s' => String.eqb s' s
  | PyInt _ => false
  end.

(** *** [int(x)] on a string: optional blanks around an optional sign and
    one or more decimal digits. *)

Definition is_space (c : ascii) : bool :=
  existsb (Ascii.eqb c)
    [" "%char; "009"%char; "010"%char; "011"%char; "012"%char; "013"%char].

Definition digit_of (c : ascii) : option Z :=
  let n := Z.of_nat (nat_of_ascii c) in
  if (48 <=? n) && (n <=? 57) then Some (n - 48) else None.

Fixpoint lstrip (s : string) : string :=
  match s with
  | String c s' => if is_space c then lstrip s' else s
  | EmptyString => EmptyString
  end.

Fixpoint rev_string (acc s : string) : string :=
  match s with
  | EmptyString => acc
  | String c s' => rev_string (String c acc) s'
  end.

Definition strip (s : string) : string :=
  rev_string "" (lstrip (rev_string "" (lstrip s))).

Fixpoint digits (acc : Z) (s : string) : option Z :=
  match s with
  | EmptyString => Some acc
  | String c s' =>
      match digit_of c with
      | Some d => digits (10 * acc + d) s'
      | None => None
      end
  end.

Definition unsigned_literal (s : string) : option Z :=
  match s with
  | EmptyString => None
  | _ => digits 0 s
  end.

Definition int_of_string (s : string) : option Z :=
  match strip s with
  | String "-"%char s' => option_map Z.opp (unsigned_literal s')
  | String "+"%char s' => unsigned_literal s'
  | s' => unsigned_literal s'
  end.

(** [int(v)]: [None] stands for the [ValueError] of an invalid literal. *)
Definition py_int (v : pyval) : option Z :=
  match v with
  | PyStr s => int_of_string s
  | PyInt z => Some z
  end.

(** *** The [ValueError] of [int(s)]

    Its message ends in [repr] of the string. CPython 2.7 writes the
    [repr] of a byte string between single quotes, or between double
    quotes when the string holds a single quote and no double quote; the
    quote in use and the backslash are escaped, tab, newline and carriage
    return are written [\t], [\n] and [\r], and any other character
    outside the printable ASCII range as [\x] and two hexadecimal
    digits. *)

Definition single_quote : ascii := "039"%char.
Definition double_quote : ascii := "034"%char.
Definition backslash : ascii := "092"%char.

Definition has_char (c : ascii) (s : string) : bool :=
  existsb (Ascii.eqb c) (list_ascii_of_string s).

Definition hex_digit (n : nat) : ascii :=
  nth n (list_ascii_of_string "0123456789abcdef") "0"%char.

Definition repr_char (quote c : ascii) : string :=
  let n := nat_of_ascii c in
  if Ascii.eqb c quote || Ascii.eqb c backslash then String backslash (String c "")
  else if Ascii.eqb c "009"%char then String backslash "t"
  else if Ascii.eqb c "010"%char then String backslash "n"
  else if Ascii.eqb c "013"%char then String backslash "r"
  else if (n <? 32)%nat || (127 <=? n)%nat
  then String backslash
         (String "x"%char
            (String (hex_digit (n / 16)%nat) (String (hex_digit (n mod 16)%nat) "")))
  else String c "".

Fixpoint repr_chars (quote : ascii) (s : string) : string :=
  match s with
  | EmptyString => String quote ""
  | String c s' => repr_char quote c ++ repr_chars quote s'
  end.

Definition py_repr (s : string) : string :=
  let quote :=
    if has_char single_quote s && negb (has_char double_quote s)
    then double_quote else single_quote in
  String quote (repr_chars quote s).

(** The exception of [int(s)] for a string [s] that is no integer
    literal, as [int_new] and [PyInt_FromString] of CPython 2.7 make it: a
    string that holds a null byte is shown whole; any other is shown from
    its first character that is no blank, and at most 200 characters of
    it. *)
Definition invalid_literal (s : string) : exn :=
  let shown :=
    if has_char "000"%char s then s else substring 0 200 (lstrip s) in
  ValueError ("invalid literal for int() with base 10: " ++ py_repr shown).

(** [int(v)] as a computation that may raise. *)
Definition int_or_raise (v : pyval) : result Z :=
  match v with
  | PyInt z => ok z
  | PyStr s =>
      match int_of_string s with
      | Some z => ok z
      | None => raise (invalid_literal s)
      end
  end.

(** [l[lo:hi]] with Python's rules for negative and out-of-range bounds. *)
Definition clip_index (len i : Z) : Z :=
  let i' := if i <? 0 then i + len else i in
  Z.max 0 (Z.min len i').

Definition py_slice {A} (l : list A) (lo hi : Z) : list A :=
  let len := Z.of_nat (length l) in
  let lo' := clip_index len lo in
  let hi' := clip_index len hi in
  firstn (Z.to_nat (hi' - lo')) (skipn (Z.to_nat lo') l).

(* ===================================================================== *)
(** ** Django's [Paginator], as [PaginationMixin] uses it *)
(* ===================================================================== *)

(** [django.core.paginator] is a library the table imports. Its
    [Paginator] is written here after its source: the constructor keeps
    [int(per_page)]; [num_pages] is
    [int(ceil(max(1, count - orphans) / float(per_page)))];
    [validate_number] raises [PageNotAnInteger] when [int(number)] fails
    and [EmptyPage] when the number is below 1 or above [num_pages];
    [page] slices the object list. [PageNotAnInteger] and [EmptyPage] are
    two different subclasses of [InvalidPage]. *)

Record Paginator (A : Type) : Type := mkPaginator {
  object_list : list A;
  per_page : Z;
  orphans : Z;
  allow_empty_first_page : bool
}.
Arguments mkPaginator {A}.
Arguments object_list {A}.
Arguments per_page {A}.
Arguments orphans {A}.
Arguments allow_empty_first_page {A}.

(** A page of a paginator: [Page(object_list, number, paginator)]. *)
Record Page (A : Type) : Type := mkPage {
  page_object_list : list A;
  number : Z;
  page_paginator : Paginator A
}.
Arguments mkPage {A}.
Arguments page_object_list {A}.
Arguments number {A}.
Arguments page_paginator {A}.

Module DjangoPaginator.
Section Paginator.
Context {A : Type}.
Local Open Scope result_scope.

(** [Paginator(object_list, per_page)], with the defaults [orphans=0] and
    [allow_empty_first_page=True]. *)
Definition init (data : list A) (per_page : pyval) : result (Paginator A) :=
  n <- int_or_raise per_page ;;
  ok (mkPaginator data n 0 true).

Definition count (p : Paginator A) : Z := Z.of_nat (length (object_list p)).

(** [float(n)] of an integer is the nearest double, ties to even; from
    [2**1024 - 2**970] on, in absolute value, that is beyond the largest
    double and [float] raises [OverflowError]. *)
Definition float_overflow : Z := 2 ^ 1024 - 2 ^ 970.

(** [hits / float(per_page)] is a division of doubles. With fewer than
    [2**53] hits, as any list that fits into memory has, the ceiling of the
    rounded quotient is the ceiling of the exact one, which is what is
    written here. *)
Definition num_pages (p : Paginator A) : result Z :=
  if (count p =? 0) && negb (allow_empty_first_page p) then ok 0
  else
    let hits := Z.max 1 (count p - orphans p) in
    if float_overflow <=? Z.abs (per_page p)
    then raise (OverflowError "long int too large to convert to float")
    else if per_page p =? 0 then raise ZeroDivisionError
    else ok (- ((- hits) / per_page p)).

Definition validate_number (number : pyval) (p : Paginator A) : result Z :=
  match py_int number with
  | None => raise (PageNotAnInteger "That page number is not an integer")
  | Some n =>
      if n <? 1 then raise (EmptyPage "That page number is less than 1")
      else
        np <- num_pages p ;;
        if n >? np then
          if (n =? 1) && allow_empty_first_page p then ok n
          else raise (EmptyPage "That page contains no results")
        else ok n
  end.

Definition page (number : pyval) (p : Paginator A) : result (Page A) :=
  n <- validate_number number p ;;
  let bottom := (n - 1) * per_page p in
  let top := bottom + per_page p in
  let top := if top + orphans p >=? count p then count p else top in
  ok (mkPage (py_slice (object_list p) bottom top) n p).
End Paginator.
End DjangoPaginator.

(* ===================================================================== *)
(** ** [PaginationMixin] *)
(* ===================================================================== *)

(** What [get_page_data] returns: a [Page] of the paginator, or, for the
    token ["all"], the value of [get_paginator_data()] itself. *)
Inductive page_data (A : Type) : Type :=
| PageOf (p : Page A)
| Dataset (l : list A).
Arguments PageOf {A}.
Arguments Dataset {A}.

(** The records a [page_data] holds. *)
Definition records {A} (d : page_data A) : list A :=
  match d with
  | PageOf p => page_object_list p
  | Dataset l => l
  end.

(** The attributes of a table that the mixin reads and writes.
    [get_paginator_data] is the table's data-fetch method: its outcome for
    this table, a dataset or the exception it raises. *)
Record PaginationMixin (A : Type) : Type := mkPagination {
  page : pyval;
  show_all_url : bool;
  PAGINATION_COUNT : pyval;
  _paginator : option (Paginator A);
  get_paginator_data : result (list A)
}.
Arguments mkPagination {A}.
Arguments page {A}.
Arguments show_all_url {A}.
Arguments PAGINATION_COUNT {A}.
Arguments _paginator {A}.
Arguments get_paginator_data {A}.

(** The class attributes of [PaginationMixin] for a table whose data-fetch
    method yields [data]. *)
Definition new_pagination {A} (data : result (list A)) : PaginationMixin A :=
  mkPagination (PyStr "1") true (PyStr "25") None data.

Section Mixin.
Context {A : Type}.
Local Open Scope method_scope.

Definition set_page (v : pyval) : method (PaginationMixin A) unit :=
  fun self =>
    (inr tt, mkPagination v (show_all_url self) (PAGINATION_COUNT self)
               (_paginator self) (get_paginator_data self)).

Definition set_paginator (p : Paginator A) : method (PaginationMixin A) unit :=
  fun self =>
    (inr tt, mkPagination (page self) (show_all_url self)
               (PAGINATION_COUNT self) (Some p) (get_paginator_data self)).

(** [get_page]: [int(self.page)], or [None] when that fails. *)
Definition get_page (self : PaginationMixin A) : option Z :=
  py_int (page self).

(** The [paginator] property: built on first use, then cached. *)
Definition paginator : method (PaginationMixin A) (Paginator A) :=
  self <- mget ;;
  match _paginator self with
  | Some p => mret p
  | None =>
      data <- mlift (get_paginator_data self) ;;
      p <- mlift (DjangoPaginator.init data (PAGINATION_COUNT self)) ;;
      set_paginator p ;;;
      mret p
  end.

(** The body of the [try] of [get_page_data]: the value of the local
    [objects], [None] while it is unassigned. *)
Definition try_body : method (PaginationMixin A) (option (page_data A)) :=
  self <- mget ;;
  if negb (pyval_eq_str (page self) "all") then
    p <- paginator ;;
    pg <- mlift (DjangoPaginator.page (page self) p) ;;
    mret (Some (PageOf pg))
  else if show_all_url self then
    data <- mlift (get_paginator_data self) ;;
    mret (Some (Dataset data))
  else mret None.

(** [except EmptyPage:] *)
Definition except_EmptyPage : method (PaginationMixin A) (option (page_data A)) :=
  p <- paginator ;;
  p' <- paginator ;;
  np <- mlift (DjangoPaginator.num_pages p') ;;
  pg <- mlift (DjangoPaginator.page (PyInt np) p) ;;
  mret (Some (PageOf pg)).

(** A [Paginator] object defines neither [__len__] nor [__nonzero__]: it
    is always true. *)
Definition paginator_truthy (p : Paginator A) : bool := true.

Definition get_page_data (page : pyval) : method (PaginationMixin A) (page_data A) :=
  p <- paginator ;;
  (if negb (paginator_truthy p)
   then mraise (RuntimeError "missing paginator instance ")
   else mret tt) ;;;
  (if truthy page then set_page page else mret tt) ;;;
  objects <- (fun self =>
                match try_body self with
                | (inl (EmptyPage _), self') => except_EmptyPage self'
                | r => r
                end) ;;
  match objects with
  | Some o => mret o
  | None => mraise (UnboundLocalError "objects")
  end.

Definition previous_page_number (self : PaginationMixin A) : option Z :=
  match get_page self with
  | Some n => Some (n - 1)
  | None => None
  end.

Definition next_page_number (self : PaginationMixin A) : option Z :=
  match get_page self with
  | Some n => Some (n + 1)
  | None => None
  end.

Definition has_previous (self : PaginationMixin A) : bool :=
  match get_page self with
  | Some n => if n =? 1 then false else true
  | None => false
  end.

Definition has_next : method (PaginationMixin A) bool :=
  self <- mget ;;
  match get_page self with
  | Some n =>
      p <- paginator ;;
      np <- mlift (DjangoPaginator.num_pages p) ;;
      if n + 1 >? np then mret false else mret true
  | None => mret false
  end.

Definition has_more_data (self : PaginationMixin A) : bool := false.
End Mixin.

(* ===================================================================== *)
(** ** Containers: [SortedDict], [list.sort], [list.index] *)
(* ===================================================================== *)

(** Django's [SortedDict]: a dictionary that iterates in the order in which
    its keys were first inserted. It is kept as the list of its items. *)
Definition SortedDict (V : Type) : Type := list (string * V).

Section Dict.
Context {V : Type}.

Definition keys (d : SortedDict V) : list string := map fst d.
Definition values (d : SortedDict V) : list V := map snd d.

Fixpoint contains (k : string) (d : SortedDict V) : bool :=
  match d with
  | [] => false
  | (k', _) :: d' => String.eqb k k' || contains k d'
  end.

Fixpoint getitem (k : string) (d : SortedDict V) : option V :=
  match d with
  | [] => None
  | (k', v) :: d' => if String.eqb k k' then Some v else getitem k d'
  end.

(** [d[k] = v]: a key already there keeps its place, a new one goes last. *)
Fixpoint setitem (k : string) (v : V) (d : SortedDict V) : SortedDict V :=
  match d with
  | [] => [(k, v)]
  | (k', v') :: d' =>
      if String.eqb k k' then (k', v) :: d' else (k', v') :: setitem k v d'
  end.

Fixpoint delitem (k : string) (d : SortedDict V) : SortedDict V :=
  match d with
  | [] => []
  | (k', v') :: d' => if String.eqb k k' then d' else (k', v') :: delitem k d'
  end.

(** [d.update(items)], the items taken in the order given. *)
Definition update (d : SortedDict V) (items : list (string * V)) : SortedDict V :=
  fold_left (fun acc kv => setitem (fst kv) (snd kv) acc) items d.

(** [SortedDict(items)]: the place of a key is that of its first item, its
    value that of its last. *)
Definition SortedDict_of (items : list (string * V)) : SortedDict V :=
  update [] items.

(** [d.pop(k)] *)
Definition pop (k : string) (d : SortedDict V) : result (V * SortedDict V) :=
  match getitem k d with
  | Some v => ok (v, delitem k d)
  | None => raise (KeyError k)
  end.
End Dict.

Section Sort.
Context {X : Type}.
Variable leb : X -> X -> bool.

(** [list.sort] is stable: an element goes before the first one that is
    not smaller, and elements are inserted from the last to the first. *)
Fixpoint insert_sorted (x : X) (l : list X) : list X :=
  match l with
  | [] => [x]
  | y :: l' => if leb x y then x :: l else y :: insert_sorted x l'
  end.

Fixpoint stable_sort (l : list X) : list X :=
  match l with
  | [] => []
  | x :: l' => insert_sorted x (stable_sort l')
  end.
End Sort.

(** [l.sort(key=f)] *)
Definition sort_by {X K} (leb : K -> K -> bool) (f : X -> K) (l : list X) : list X :=
  stable_sort (fun a b => leb (f a) (f b)) l.

Section ListOps.
Context {X : Type}.
Variable eqb : X -> X -> bool.

(** [l.index(x)] *)
Fixpoint index (x : X) (l : list X) : option nat :=
  match l with
  | [] => None
  | y :: l' => if eqb x y then Some O else option_map S (index x l')
  end.

(** [x in l] *)
Definition py_in (x : X) (l : list X) : bool := existsb (eqb x) l.

(** [l.pop(i)] for an index in range. *)
Fixpoint pop_at (i : nat) (l : list X) : list X :=
  match l, i with
  | [], _ => []
  | _ :: l', O => l'
  | y :: l', S i' => y :: pop_at i' l'
  end.
End ListOps.

(* ===================================================================== *)
(** ** Columns, actions and table options *)
(* ===================================================================== *)

(** [horizon_contrib.tables.filters]: the filter attached to columns of
    many-to-many fields. *)
Inductive filter : Type := filter_m2m.

(** A form field as [fields_for_model] yields it. [label] is what
    [getattr(field, "label", name)] finds: [Some] label of a form field,
    [None] for an object without that attribute. *)
Record Field : Type := mkField {
  field_id : nat;
  label : option string
}.

(** A Horizon [Column], with the attributes this module reads or writes.
    [creation_counter] is the number Horizon gives each column when it is
    created; it tells two column objects apart. The classes that Horizon
    itself adds are not tracked. *)
Record Column : Type := mkColumn {
  name : string;
  verbose_name : string;
  auto : option string;
  classes : list string;
  filters : list filter;
  form_field : option Field;
  creation_counter : Z
}.

Definition set_name (n : string) (c : Column) : Column :=
  mkColumn n (verbose_name c) (auto c) (classes c) (filters c) (form_field c)
    (creation_counter c).

(** [column.classes.append(cls)] *)
Definition add_class (cls : string) (c : Column) : Column :=
  mkColumn (name c) (verbose_name c) (auto c) (classes c ++ [cls]) (filters c)
    (form_field c) (creation_counter c).

Definition filter_eqb (a b : filter) : bool := true.

Definition Field_eqb (a b : Field) : bool :=
  Nat.eqb (field_id a) (field_id b)
  && match label a, label b with
     | Some x, Some y => String.eqb x y
     | None, None => true
     | _, _ => false
     end.

Definition option_eqb {X} (eqb : X -> X -> bool) (a b : option X) : bool :=
  match a, b with
  | Some x, Some y => eqb x y
  | None, None => true
  | _, _ => false
  end.

Fixpoint list_eqb {X} (eqb : X -> X -> bool) (a b : list X) : bool :=
  match a, b with
  | [], [] => true
  | x :: a', y :: b' => eqb x y && list_eqb eqb a' b'
  | _, _ => false
  end.

(** Columns define no [__eq__]: two columns are equal when they are the
    same object, that is the same record. *)
Definition Column_eqb (a b : Column) : bool :=
  String.eqb (name a) (name b)
  && String.eqb (verbose_name a) (verbose_name b)
  && option_eqb String.eqb (auto a) (auto b)
  && list_eqb String.eqb (classes a) (classes b)
  && list_eqb filter_eqb (filters a) (filters b)
  && option_eqb Field_eqb (form_field a) (form_field b)
  && Z.eqb (creation_counter a) (creation_counter b).

(** Equality of the tuples [(attr_name, column)]. *)
Definition item_eqb (a b : string * Column) : bool :=
  String.eqb (fst a) (fst b) && Column_eqb (snd a) (snd b).

(** An action class: [action_id] stands for the class object, [action_name]
    is its [name] attribute, [is_filter] tells a subclass of
    [FilterAction]. *)
Record ActionClass : Type := mkActionClass {
  action_id : nat;
  action_name : string;
  is_filter : bool
}.

Definition ActionClass_eqb (a b : ActionClass) : bool :=
  Nat.eqb (action_id a) (action_id b)
  && String.eqb (action_name a) (action_name b)
  && Bool.eqb (is_filter a) (is_filter b).

(** An instance [action()] of an action class: [serial] numbers the
    constructor calls. *)
Record Action : Type := mkAction {
  action_class : ActionClass;
  serial : nat
}.

(** A Django model, as far as the table looks into it: [many_to_many] are
    the names of [model._meta.many_to_many]. *)
Record Model : Type := mkModel {
  model_id : string;
  many_to_many : list string
}.

(** The values that [model_class] and the data-fetch attributes of a table
    class may hold. *)
Inductive pyobj : Type :=
| ONone
| OStr (s : string)
| OModel (m : Model)
| OCallable
| OPlain.

(** [bool(o)]; [OPlain] is a true object that is not callable. *)
Definition obj_truthy (o : pyobj) : bool :=
  match o with
  | ONone => false
  | OStr s => negb (String.eqb s "")
  | _ => true
  end.

(** [callable(o)]: functions, methods and classes. *)
Definition callable (o : pyobj) : bool :=
  match o with
  | OCallable | OModel _ => true
  | _ => false
  end.

(** The inner class [Meta] of a table: each attribute is [None] when
    [Meta] does not define it. *)
Record Meta : Type := mkMeta {
  Meta_model_class : option pyobj;
  Meta_order_by : option string;
  Meta_columns : option (list string);
  Meta_browser_table : option string;
  Meta_table_actions : option (list ActionClass);
  Meta_row_actions : option (list ActionClass);
  Meta_actions_column : option bool;
  Meta_multi_select : option bool
}.

(** [ModelTableOptions]: the options of Horizon's [DataTableOptions] that
    the metaclass reads, and the two this module adds. *)
Record ModelTableOptions : Type := mkOptions {
  model_class : pyobj;
  order_by : string;
  opt_columns : option (list string);
  browser_table : option string;
  table_actions : list ActionClass;
  row_actions : list ActionClass;
  actions_column : bool;
  multi_select : bool;
  _filter_action : option ActionClass
}.

Definition getattr {X} (attribute : option X) (default : X) : X :=
  match attribute with
  | Some x => x
  | None => default
  end.

(** [DataTableOptions.__init__] of Horizon, for the options above: the
    actions column is on by default when there are row actions, the
    multi-select column when there are table actions; one filter action is
    allowed. *)
Definition DataTableOptions_init (options : option Meta) (model_class : pyobj)
    (order_by : string) : result ModelTableOptions :=
  let get {X} (f : Meta -> option X) : option X :=
    match options with Some m => f m | None => None end in
  let table_actions := getattr (get Meta_table_actions) [] in
  let row_actions := getattr (get Meta_row_actions) [] in
  let filter_actions := List.filter is_filter table_actions in
  if (1 <? length filter_actions)%nat
  then raise (NotImplementedError
                "Multiple filter actions is not currently supported.")
  else
    ok (mkOptions model_class order_by
          (get Meta_columns)
          (get Meta_browser_table)
          table_actions row_actions
          (getattr (get Meta_actions_column) (0 <? length row_actions)%nat)
          (getattr (get Meta_multi_select) (0 <? length table_actions)%nat)
          (match filter_actions with [a] => Some a | _ => None end)).

Definition ModelTableOptions_init (options : option Meta) : result ModelTableOptions :=
  let get {X} (f : Meta -> option X) : option X :=
    match options with Some m => f m | None => None end in
  let model_class := getattr (get Meta_model_class) ONone in
  let order_by := getattr (get Meta_order_by) "-id" in
  DataTableOptions_init options model_class order_by.

(* ===================================================================== *)
(** ** [ModelTableMetaclass.__new__] *)
(* ===================================================================== *)

(** What is shared by all classes and objects: the counter
    [Column.creation_counter] of Horizon, and the record of the action
    classes instantiated so far, the latest last. *)
Record runtime : Type := mkRuntime {
  Column_creation_counter : Z;
  instantiated : list ActionClass
}.

(** Horizon's [Column(transform, verbose_name=..., auto=..., filters=...,
    form_field=...)] for a string [transform]: the column takes the current
    creation counter and increments it. *)
Definition Column_init (transform verbose_name : string) (auto : option string)
    (filters : list filter) (form_field : option Field) : method runtime Column :=
  fun rt =>
    (inr (mkColumn transform verbose_name auto [] filters form_field
            (Column_creation_counter rt)),
     mkRuntime (Column_creation_counter rt + 1) (instantiated rt)).

(** [action()] *)
Definition instantiate (a : ActionClass) : method runtime Action :=
  fun rt =>
    (inr (mkAction a (length (instantiated rt))),
     mkRuntime (Column_creation_counter rt) (instantiated rt ++ [a])%list).

Fixpoint mmap {S X Y} (f : X -> method S Y) (l : list X) : method S (list Y) :=
  match l with
  | [] => mret []
  | x :: l' => mbind (f x) (fun y => mbind (mmap f l') (fun ys => mret (y :: ys)))
  end.

Fixpoint rmap {X Y} (f : X -> result Y) (l : list X) : result (list Y) :=
  match l with
  | [] => ok []
  | x :: l' => rbind (f x) (fun y => rbind (rmap f l') (fun ys => ok (y :: ys)))
  end.

(** A value in the body of a table class. *)
Inductive class_attr : Type :=
| AttrColumn (c : Column)
| AttrValue (o : pyobj).

(** A base class, as the metaclass and attribute lookup see it:
    [base_columns_of] is its [base_columns] if it has one, [base_namespace]
    the attributes found on it and on its own bases, in the order of
    lookup. *)
Record Base : Type := mkBase {
  base_columns_of : option (SortedDict Column);
  base_namespace : list (string * pyobj)
}.

(** [opts._filter_action]: the class named in [Meta], then its instance. *)
Inductive filter_action : Type :=
| FilterClass (a : ActionClass)
| FilterInstance (a : Action).

(** The class made by the metaclass. [namespace] lists the attributes of
    the class that are not columns, followed by those of its bases. *)
Record TableClass : Type := mkTableClass {
  cls_name : string;
  namespace : list (string * pyobj);
  _meta : ModelTableOptions;
  meta_filter_action : option filter_action;
  base_columns : SortedDict Column;
  _columns : SortedDict Column;
  base_actions : SortedDict Action
}.

(** The loop over [attrs.items()]: a column takes the name of its
    attribute and the class [normal_column]. *)
Definition gather_columns (attrs : list (string * class_attr)) : list (string * Column) :=
  flat_map (fun item =>
              match snd item with
              | AttrColumn c =>
                  [(fst item, add_class "normal_column" (set_name (fst item) c))]
              | AttrValue _ => []
              end) attrs.

Definition plain_attrs (attrs : list (string * class_attr)) : list (string * pyobj) :=
  flat_map (fun item =>
              match snd item with
              | AttrColumn _ => []
              | AttrValue o => [(fst item, o)]
              end) attrs.

(** [for base in bases[::-1]: columns = base.base_columns.items() + columns] *)
Definition inherit_columns (bases : list Base) (columns : list (string * Column))
    : list (string * Column) :=
  fold_left (fun cols base =>
               match base_columns_of base with
               | Some bc => (bc ++ cols)%list
               | None => cols
               end) (rev bases) columns.

(** The width limits of a table in a [ResourceBrowser]. *)
Definition check_browser_limits (class_name : string) (opts : ModelTableOptions)
    (columns : list (string * Column)) : result unit :=
  if option_eqb String.eqb (browser_table opts) (Some "navigation")
     && (3 <? length columns)%nat
  then raise (ValueError ("You can only assign three column to " ++ class_name ++ "."))
  else if option_eqb String.eqb (browser_table opts) (Some "content")
          && (2 <? length columns)%nat
  then raise (ValueError ("You can only assign two columns to " ++ class_name ++ "."))
  else ok tt.

(** [if opts.columns:] and the two steps under it. *)
Definition remove_undeclared (allowed : list string) (columns : list (string * Column))
    : result (list (string * Column)) :=
  fold_left (fun acc column_data =>
               rbind acc (fun cols =>
                 if negb (py_in String.eqb (fst column_data) allowed) then
                   match index item_eqb column_data cols with
                   | Some i => ok (pop_at i cols)
                   | None => raise (ValueError "x is not in list")
                   end
                 else ok cols))
            columns (ok columns).

Definition reorder (allowed : list string) (columns : list (string * Column))
    : result (list (string * Column)) :=
  rbind (rmap (fun x => match index String.eqb (fst x) allowed with
                        | Some i => ok (i, x)
                        | None => raise (ValueError "x is not in list")
                        end) columns)
        (fun keyed => ok (map snd (sort_by Nat.leb fst keyed))).

Definition apply_allow_list (opts : ModelTableOptions) (columns : list (string * Column))
    : result (list (string * Column)) :=
  match opt_columns opts with
  | Some (a :: allowed) =>
      rbind (remove_undeclared (a :: allowed) columns) (reorder (a :: allowed))
  | _ => ok columns
  end.

Section Metaclass.
(** The order in which [list(set(...))] yields the elements of a set of
    classes is not fixed by the language. *)
Variable set_items : list ActionClass -> list ActionClass.

Local Open Scope method_scope.

(** [Add in our auto-generated columns] *)
Definition add_auto_columns (opts : ModelTableOptions) (columns : list (string * Column))
    : method runtime (list (string * Column)) :=
  columns <-
    (if multi_select opts
        && negb (option_eqb String.eqb (browser_table opts) (Some "navigation"))
     then
       multi_select <- Column_init "multi_select" "" (Some "multi_select") [] None ;;
       mret (("multi_select", add_class "multi_select_column" multi_select) :: columns)
     else mret columns) ;;
  if actions_column opts then
    actions_column <- Column_init "actions" "Actions" (Some "actions") [] None ;;
    mret (columns ++ [("actions", add_class "actions_column" actions_column)])%list
  else mret columns.

(** [Gather and register actions]: the set of the declared classes as a
    list, sorted by name. *)
Definition sorted_actions (opts : ModelTableOptions) : list ActionClass :=
  let actions := set_items (row_actions opts ++ table_actions opts)%list in
  sort_by String.leb action_name actions.

Definition register_actions (opts : ModelTableOptions) : method runtime (SortedDict Action) :=
  let actions := sorted_actions opts in
  instances <- mmap (fun action =>
                       a <- instantiate action ;;
                       mret (action_name action, a)) actions ;;
  mret (SortedDict_of instances).

Definition ModelTableMetaclass_new (name : string) (bases : list Base)
    (attrs : list (string * class_attr)) (Meta : option Meta)
    : method runtime TableClass :=
  let class_name := name in
  opts <- mlift (ModelTableOptions_init Meta) ;;
  let columns := gather_columns attrs in
  let columns := sort_by Z.leb (fun x => creation_counter (snd x)) columns in
  let columns := inherit_columns bases columns in
  let base_columns := SortedDict_of columns in
  mlift (check_browser_limits class_name opts columns) ;;;
  columns <- mlift (apply_allow_list opts columns) ;;
  columns <- add_auto_columns opts columns ;;
  let _columns := SortedDict_of columns in
  actions_dict <- register_actions opts ;;
  filter_action <-
    match _filter_action opts with
    | Some a =>
        match getitem (action_name a) actions_dict with
        | Some inst => mret (Some (FilterInstance inst))
        | None => mraise (KeyError (action_name a))
        end
    | None => mret None
    end ;;
  mret (mkTableClass name
          (plain_attrs attrs ++ flat_map base_namespace bases)%list
          opts filter_action base_columns _columns actions_dict).
End Metaclass.

(* ===================================================================== *)
(** ** [ModelTable] *)
(* ===================================================================== *)

(** A table object: [columns] is [self.columns]; [self_model_class] is the
    attribute [model_class] of the object itself, set when the model is
    found by its name. *)
Record ModelTable : Type := mkModelTable {
  columns : SortedDict Column;
  self_model_class : option pyobj
}.

(** The construction of a table reads and writes the table class, which all
    its objects share, and the runtime. *)
Record world : Type := mkWorld {
  world_runtime : runtime;
  world_class : TableClass
}.

Definition set_class_columns (cols : SortedDict Column) : method world unit :=
  fun w =>
    let c := world_class w in
    (inr tt,
     mkWorld (world_runtime w)
       (mkTableClass (cls_name c) (namespace c) (_meta c) (meta_filter_action c)
          (base_columns c) cols (base_actions c))).

Definition with_runtime {X} (m : method runtime X) : method world X :=
  fun w =>
    let '(r, rt) := m (world_runtime w) in
    (r, mkWorld rt (world_class w)).

Definition spaces (n : nat) : string := string_of_list_ascii (repeat " "%char n).
Definition dquote : string := String "034"%char "".

Definition missing_model_class : exn :=
  Exception ("Missing model_class or override one " ++ spaces 28
             ++ "of get_table_data, get_paginator_data").

Definition must_define (method_name : string) (gap : string) (cls_name : string) : exn :=
  NotImplementedError
    ("You must define either a model_class " ++ gap ++ dquote ++ method_name
     ++ dquote ++ " method on " ++ cls_name ++ ".").

(** [hasattr(self, attr)] and [getattr(self, attr, default)] for an
    attribute that is looked up on the class. *)
Definition class_attribute (c : TableClass) (attr : string) : option pyobj :=
  getitem attr (namespace c).

(** [self.model_class], if the object or its class has one. *)
Definition find_model_class (c : TableClass) (self : ModelTable) : option pyobj :=
  match self_model_class self with
  | Some o => Some o
  | None => class_attribute c "model_class"
  end.

Section Table.
(** [horizon_contrib.common.content_type.get_class]: the model class of a
    name, or the exception of a failed lookup. *)
Variable get_class : string -> result Model.

(** Django's [fields_for_model(model, fields=...)]: the form fields of the
    model by name. *)
Variable fields_for_model : Model -> option (list string) -> SortedDict Field.

(** The order in which a plain dictionary yields its keys, given the order
    in which they were inserted: the language does not fix it. *)
Variable dict_order : list string -> list string.

(** [d.iteritems()] for a plain dictionary [d], kept as the list of its
    items in the order of insertion. *)
Definition dict_items (d : list (string * Column)) : list (string * Column) :=
  flat_map (fun k => match getitem k d with
                     | Some v => [(k, v)]
                     | None => []
                     end) (dict_order (keys d)).

(** The keys of the dictionary [columns] of [ModelTable.__init__], in the
    order of insertion: the names of the fields, then ["actions"]. *)
Definition columns_keys (fields : SortedDict Field) : list string :=
  if contains "actions" fields then keys fields
  else (keys fields ++ ["actions"])%list.

Local Open Scope method_scope.

(** Horizon's [DataTable.__init__]: the object gets copies of the columns
    of its class. *)
Definition DataTable_init (self : ModelTable) : method world ModelTable :=
  w <- mget ;;
  mret (mkModelTable (_columns (world_class w)) (self_model_class self)).

(** The property [_model_class]. *)
Definition _model_class (self : ModelTable) : method world (pyobj * ModelTable) :=
  w <- mget ;;
  let mcs := model_class (_meta (world_class w)) in
  self <-
    match mcs with
    | OStr s =>
        m <- mlift (get_class s) ;;
        mret (mkModelTable (columns self) (Some (OModel m)))
    | _ => mret self
    end ;;
  let mcls := getattr (find_model_class (world_class w) self) mcs in
  if negb (obj_truthy mcls) then mraise missing_model_class
  else mret (mcls, self).

(** An object that is not a model class has no [_meta]. *)
Definition model_of (o : pyobj) : result Model :=
  match o with
  | OModel m => ok m
  | _ => raise (AttributeError "object has no attribute '_meta'")
  end.

(** The body of the loop over the fields. *)
Definition field_column (many : list string) (item : string * Field)
    : method world (string * Column) :=
  let '(name, field) := item in
  let verbose_name := getattr (label field) name in
  let filters := if py_in String.eqb name many then [filter_m2m] else [] in
  column <- with_runtime (Column_init name verbose_name None filters (Some field)) ;;
  mret (name, column).

(** [ModelTable.__init__]. The calls that leave the modelled attributes as
    they are, [column.table = self] and [self._populate_data_cache()], are
    left out. [self._columns] is the dictionary of the class: what is
    popped from it and merged into it is so for all tables of the class. *)
Definition ModelTable_init : method world ModelTable :=
  self <- DataTable_init (mkModelTable [] None) ;;
  (* get fields and makes columns *)
  r <- _model_class self ;;
  let '(mcls, self) := r in
  model <- mlift (model_of mcls) ;;
  w <- mget ;;
  let fields := fields_for_model model (opt_columns (_meta (world_class w))) in
  r <- _model_class self ;;
  let '(mcls, self) := r in
  model <- mlift (model_of mcls) ;;
  let many := many_to_many model in
  synthesized <- mmap (field_column many) fields ;;
  let columns_dict := SortedDict_of synthesized in
  w <- mget ;;
  r <- mlift (pop "actions" (_columns (world_class w))) ;;
  let '(actions, class_columns) := r in
  set_class_columns class_columns ;;;
  let columns_dict := setitem "actions" actions columns_dict in
  set_class_columns (update class_columns (dict_items columns_dict)) ;;;
  let self := mkModelTable (update (columns self) (dict_items columns_dict))
                (self_model_class self) in
  self <- DataTable_init self ;;
  w <- mget ;;
  let cls := world_class w in
  let has_get_table_data :=
    match class_attribute cls "get_table_data" with
    | Some f => callable f
    | None => false
    end in
  if negb has_get_table_data
     && negb (match find_model_class cls self with Some _ => true | None => false end)
  then mraise (must_define "get_table_data" ("or" ++ spaces 38) (cls_name cls))
  else mret self.

(** [mcls.objects]: a model class has a manager; of the other values that
    [_model_class] may return none has an attribute [objects]. The message
    of the [AttributeError] begins with the type of the value, which is not
    tracked here. *)
Definition objects_of (o : pyobj) : result Model :=
  match o with
  | OModel m => ok m
  | _ => raise (AttributeError "object has no attribute 'objects'")
  end.

(** [ModelTable.get_table_data], the generic data-fetch method: all
    objects of the model in the order of [Meta.order_by]. [objects] stands
    for the query [model.objects.all().order_by(key)]. *)
Definition get_table_data {A} (objects : Model -> string -> result (list A))
    (self : ModelTable) : method world (list A * ModelTable) :=
  r <- _model_class self ;;
  let '(mcls, self) := r in
  w <- mget ;;
  let overridden :=
    match class_attribute (world_class w) "get_table_data" with
    | Some f => callable f
    | None => false
    end in
  if match mcls with ONone => true | _ => false end && negb overridden
  then mraise (Exception
                 "you must specify ``model_class`` or override get_table_data")
  else
    r <- _model_class self ;;
    let '(mcls, self) := r in
    model <- mlift (objects_of mcls) ;;
    object_list <- mlift (objects model (order_by (_meta (world_class w)))) ;;
    mret (object_list, self).

(** [PaginatedTable.__init__] and [PaginatedModelTable.__init__], which are
    the same: the table is built, then it takes as its own page size the
    [PAGINATION_COUNT] of the settings if they have one, and otherwise the
    one it finds on its class. [attributes] are the attributes of
    [PaginationMixin] as the new object finds them on its class: those of
    the mixin ([new_pagination]) unless the body of the class sets
    others. The object has them from its class all along; they are
    returned with the table. *)
Definition PaginatedTable_init {A} (settings_PAGINATION_COUNT : option pyval)
    (attributes : PaginationMixin A)
    : method world (ModelTable * PaginationMixin A) :=
  self <- ModelTable_init ;;
  w <- mget ;;
  let cls := world_class w in
  let has_get_table_data :=
    match class_attribute cls "get_paginator_data" with
    | Some f => callable f
    | None => false
    end in
  if negb has_get_table_data
     && negb (match find_model_class cls self with Some _ => true | None => false end)
  then mraise (must_define "get_paginator_data" (spaces 39 ++ "or ") (cls_name cls))
  else
    mret (self,
          mkPagination (page attributes) (show_all_url attributes)
            (getattr settings_PAGINATION_COUNT (PAGINATION_COUNT attributes))
            (_paginator attributes) (get_paginator_data attributes)).
End Table.

(* ===================================================================== *)
(** ** The order of a plain dictionary in CPython 2.7 *)
(* ===================================================================== *)

(** The module is Python 2 code ([basestring], [iteritems],
    [except Exception, e]). There [columns = {}] is a hash table with open
    addressing, and iterating it follows the slots of the table, not the
    order of insertion. [items] computes that order after [dictobject.c]
    and the string hash of [stringobject.c] (64-bit, hash randomisation off,
    as by default). *)
Module Py27Dict.

Definition wrap64 (z : Z) : Z := z mod 2 ^ 64.

Definition code (c : ascii) : Z := Z.of_nat (nat_of_ascii c).

Fixpoint hash_chars (x : Z) (s : string) : Z :=
  match s with
  | EmptyString => x
  | String c s' => hash_chars (Z.lxor (wrap64 (1000003 * x)) (code c)) s'
  end.

(** [string_hash], as an unsigned 64-bit number. *)
Definition string_hash (s : string) : Z :=
  match s with
  | EmptyString => 0
  | String c _ =>
      let x := hash_chars (Z.shiftl (code c) 7) s in
      let x := Z.lxor x (Z.of_nat (String.length s)) in
      if x =? 2 ^ 64 - 1 then 2 ^ 64 - 2 else x
  end.

Section Table.
Context {V : Type}.

(** The slots of the table: its size is a power of two. *)
Definition table : Type := list (option (string * V)).

(** [lookdict_string]: the slot of key [k], free or holding [k]. *)
Fixpoint probe (fuel : nat) (t : table) (mask i perturb : Z) (k : string) : option nat :=
  match fuel with
  | O => None
  | S fuel' =>
      let slot := Z.to_nat (Z.land i mask) in
      match nth slot t None with
      | None => Some slot
      | Some (k', _) =>
          if String.eqb k k' then Some slot
          else probe fuel' t mask (wrap64 (5 * i + perturb + 1))
                 (Z.shiftr perturb 5) k
      end
  end.

Fixpoint set_slot (n : nat) (e : string * V) (t : table) : table :=
  match t, n with
  | [], _ => []
  | _ :: t', O => Some e :: t'
  | x :: t', S n' => x :: set_slot n' e t'
  end.

Definition entries (t : table) : list (string * V) :=
  flat_map (fun slot => match slot with Some e => [e] | None => [] end) t.

Definition insert (e : string * V) (t : table) : table :=
  let size := length t in
  let h := string_hash (fst e) in
  match probe (size + 14) t (Z.of_nat size - 1) (Z.land h (Z.of_nat size - 1)) h (fst e) with
  | Some slot => set_slot slot e t
  | None => t
  end.

(** [dictresize]: the smallest power of two above [minused], from 8. *)
Fixpoint new_size (fuel : nat) (size minused : nat) : nat :=
  match fuel with
  | O => size
  | S fuel' => if (size <=? minused)%nat then new_size fuel' (2 * size) minused else size
  end.

Definition resize (t : table) : table :=
  let used := length (entries t) in
  let size := new_size 64 8 ((if 50000 <? Z.of_nat used then 2 else 4) * used) in
  fold_left (fun acc e => insert e acc) (entries t) (repeat None size).

(** [PyDict_SetItem]: the table grows when two thirds of it are in use. *)
Definition setitem (e : string * V) (t : table) : table :=
  let n_used := length (entries t) in
  let t' := insert e t in
  let used := length (entries t') in
  if (n_used <? used)%nat && (2 * length t' <=? 3 * used)%nat then resize t' else t'.

(** The items of the dictionary built by inserting [l] in order into [{}]. *)
Definition items (l : list (string * V)) : list (string * V) :=
  entries (fold_left (fun acc e => setitem e acc) l (repeat None 8%nat)).
End Table.

(** The order in which the dictionary yields keys inserted in the order
    [l]. *)
Definition order (l : list string) : list string :=
  map fst (items (map (fun k => (k, tt)) l)).
End Py27Dict.


(* ===================================================================== *)
(** ** Notions used to state further properties *)
(* ===================================================================== *)

(** The records that [get_page_data(n)] returns for the page number [n],
    none when it raises. *)
Definition page_records {A} (self : PaginationMixin A) (n : Z) : list A :=
  match fst (get_page_data (PyInt n) self) with
  | inr d => records d
  | inl _ => []
  end.

(** The page numbers [1 .. np]. *)
Definition page_numbers (np : Z) : list Z :=
  map (fun i => Z.of_nat i + 1) (seq 0 (Z.to_nat np)).

(** A table class as a base of another: its [base_columns] and its
    attributes. *)
Definition as_base (c : TableClass) : Base :=
  mkBase (Some (base_columns c)) (namespace c).

(** The place of a column in the allow-list is not after that of
    another. *)
Definition listed_before (allowed : list string) (x y : string * Column) : Prop :=
  exists i j,
    index String.eqb (fst x) allowed = Some i
    /\ index String.eqb (fst y) allowed = Some j
    /\ (i <= j)%nat.

(** The columns that the metaclass collects for a class: those of the
    bases, then the declared ones in the order of their creation. *)
Definition collected_columns (bases : list Base) (attrs : list (string * class_attr))
    : list (string * Column) :=
  inherit_columns bases
    (sort_by Z.leb (fun x => creation_counter (snd x)) (gather_columns attrs)).

(** The automatic columns as the metaclass makes them, the [counter]-th
    column made. *)
Definition multi_select_column (counter : Z) : Column :=
  mkColumn "multi_select" "" (Some "multi_select") ["multi_select_column"] [] None
    counter.

Definition actions_column_of (counter : Z) : Column :=
  mkColumn "actions" "Actions" (Some "actions") ["actions_column"] [] None counter.

(** The columns that the body of a class declares, counted. *)
Definition declared_count (attrs : list (string * class_attr)) : nat :=
  length (List.filter (fun item => match snd item with
                                   | AttrColumn _ => true
                                   | AttrValue _ => false
                                   end) attrs).

(** The columns that a class inherits, counted: the base columns of each
    of its bases that has some, a name that two bases share being counted
    for each. *)
Definition inherited_count (bases : list Base) : nat :=
  list_sum (map (fun base => match base_columns_of base with
                             | Some bc => length bc
                             | None => 0%nat
                             end) bases).
(* ===================================================================== *)
(** ** Example tables *)
(* ===================================================================== *)

Module Examples.

(** Thirty records and a paginated table over them, with the attributes of
    the class: page ["1"], page size ["25"], show-all on. *)
Definition thirty : list Z := map Z.of_nat (seq 0 30).

Definition thirty_table : PaginationMixin Z := new_pagination (inr thirty).

(** The same table with [show_all_url = False]. *)
Definition no_show_all_table : PaginationMixin Z :=
  mkPagination (PyStr "1") false (PyStr "25") None (inr thirty).

(** A declared column [Column(transform)], the [counter]-th column made. *)
Definition column (transform : string) (counter : Z) : Column :=
  mkColumn transform transform None [] [] None counter.

(** One order in which a set of classes may come: that of the first
    occurrences. *)
Fixpoint first_seen (l : list ActionClass) : list ActionClass :=
  match l with
  | [] => []
  | a :: l' =>
      a :: List.filter (fun b => negb (ActionClass_eqb a b)) (first_seen l')
  end.

(** [ModelTable] as a base class: it has no columns of its own and defines
    [get_table_data]. *)
Definition ModelTable_base : Base :=
  mkBase (Some []) [("get_table_data", OCallable)].

(** [class Meta: browser_table = ...] *)
Definition browser_Meta (context : string) : Meta :=
  mkMeta None None None (Some context) None None None None.

(** The options made from it. *)
Definition browser_options (context : string) : ModelTableOptions :=
  mkOptions ONone "-id" None (Some context) [] [] false false None.

Definition two_columns : list (string * class_attr) :=
  [("name", AttrColumn (column "name" 0)); ("size", AttrColumn (column "size" 1))].

Definition three_columns : list (string * class_attr) :=
  two_columns ++ [("owner", AttrColumn (column "owner" 2))].

Definition four_columns : list (string * class_attr) :=
  three_columns ++ [("state", AttrColumn (column "state" 3))].

(** [class Meta: columns = ("owner", "name")] *)
Definition allow_list_Meta : Meta :=
  mkMeta None None (Some ["owner"; "name"]) None None None (Some true) (Some true).

(** The body of a class that declares three columns and a method; the
    items come in no particular order. *)
Definition three_columns_body : list (string * class_attr) :=
  [("owner", AttrColumn (column "owner" 2));
   ("get_table_data", AttrValue OCallable);
   ("name", AttrColumn (column "name" 0));
   ("size", AttrColumn (column "size" 1))].

(** Two action classes named ["delete"], one named ["add"]. *)
Definition DeleteRow : ActionClass := mkActionClass 1 "delete" false.
Definition DeleteAll : ActionClass := mkActionClass 2 "delete" false.
Definition AddRow : ActionClass := mkActionClass 3 "add" false.

(** [class Meta: row_actions = (DeleteRow, DeleteAll);
    table_actions = (DeleteRow, AddRow)] *)
Definition actions_Meta : Meta :=
  mkMeta None None None None (Some [DeleteRow; AddRow])
    (Some [DeleteRow; DeleteAll]) None None.

Definition fresh_runtime : runtime := mkRuntime 4 [].

(** A model with a scalar field [name] and a many-to-many field [tags],
    found by the name ["blog.article"]. *)
Definition Article : Model := mkModel "blog.article" ["tags"].

Definition get_class (s : string) : result Model :=
  if String.eqb s "blog.article" then ok Article
  else raise (Exception "no such content type").

Definition name_field : Field := mkField 1 (Some "Name").
Definition tags_field : Field := mkField 2 (Some "Tags").

Definition fields_for_model (m : Model) (fields : option (list string))
    : SortedDict Field :=
  [("name", name_field); ("tags", tags_field)].

(** The class that the metaclass makes, with the runtime after it. *)
Definition define_class (name : string) (attrs : list (string * class_attr))
    (Meta : option Meta) : world :=
  match ModelTableMetaclass_new first_seen name [ModelTable_base] attrs Meta
          fresh_runtime with
  | (inr cls, rt) => mkWorld rt cls
  | (inl _, rt) =>
      mkWorld rt
        (mkTableClass name [] (mkOptions ONone "-id" None None [] [] false false None)
           None [] [] [])
  end.

(** [class Articles(ModelTable)] with
    [class Meta: model_class = "blog.article"; row_actions = (DeleteRow,)]. *)
Definition Articles : world :=
  define_class "Articles" []
    (Some (mkMeta (Some (OStr "blog.article")) None None None None
             (Some [DeleteRow]) None None)).

(** [class Plain(ModelTable): pass]: no model and no data-fetch method of
    its own. *)
Definition Plain : world := define_class "Plain" [] None.

End Examples.


(* ===================================================================== *)
(** ** More example tables *)
(* ===================================================================== *)

Module MoreExamples.

(** The paginator over the thirty records with 25 records a page. *)
Definition thirty_paginator : Paginator Z := mkPaginator Examples.thirty 25 0 true.

(** A paginated table without records. *)
Definition empty_table : PaginationMixin Z := new_pagination (inr []).

(** A paginated table with [PAGINATION_COUNT = "0"]. *)
Definition zero_size_table : PaginationMixin Z :=
  mkPagination (PyStr "1") true (PyStr "0") None (inr Examples.thirty).



(** Two tables that hold the paginator over the thirty records: the data
    of the first are still the thirty records, the data-fetch method of the
    second now raises. *)
Definition served_table : PaginationMixin Z :=
  mkPagination (PyStr "1") true (PyStr "25") (Some thirty_paginator)
    (inr Examples.thirty).

Definition stale_table : PaginationMixin Z :=
  mkPagination (PyStr "2") true (PyStr "10") (Some thirty_paginator)
    (inl (Exception "database is down")).

(** A filter action, and [class Meta: table_actions = (FilterRows, AddRow);
    row_actions = (DeleteRow,)]. *)
Definition FilterRows : ActionClass := mkActionClass 4 "filter" true.

Definition filter_Meta : Meta :=
  mkMeta None None None None (Some [FilterRows; Examples.AddRow])
    (Some [Examples.DeleteRow]) None None.

(** [class Volumes(ModelTable)] with the columns [name], [size] and [owner]
    and [class Meta: columns = ("owner", "name")]. *)
Definition Volumes : TableClass :=
  world_class (Examples.define_class "Volumes" Examples.three_columns_body
                 (Some Examples.allow_list_Meta)).

Definition Volumes_runtime : runtime :=
  world_runtime (Examples.define_class "Volumes" Examples.three_columns_body
                   (Some Examples.allow_list_Meta)).

(** The body of [class Backups(Volumes)], which declares [size] anew. *)
Definition size_again : list (string * class_attr) :=
  [("size", AttrColumn (Examples.column "bytes" 7))].

(** [class Bare(ModelTable)] with [class Meta: model_class = "blog.article"]
    and no actions. *)
Definition Bare : world :=
  Examples.define_class "Bare" []
    (Some (mkMeta (Some (OStr "blog.article")) None None None None None None None)).

(** [class Ghosts(ModelTable)] with
    [class Meta: model_class = "blog.ghost"; row_actions = (DeleteRow,)]:
    no model has that name. *)
Definition Ghosts : world :=
  Examples.define_class "Ghosts" []
    (Some (mkMeta (Some (OStr "blog.ghost")) None None None None
             (Some [Examples.DeleteRow]) None None)).

(** [class ByAttribute(ModelTable)] with [model_class = "blog.article"] in
    the body of the class and [class Meta: row_actions = (DeleteRow,)]. *)
Definition ByAttribute : world :=
  Examples.define_class "ByAttribute"
    [("model_class", AttrValue (OStr "blog.article"))]
    (Some (mkMeta None None None None None (Some [Examples.DeleteRow]) None None)).

(** [class ByClass(ModelTable)] with
    [class Meta: model_class = Article; order_by = "name";
    row_actions = (DeleteRow,)]. *)
Definition ByClass_Meta : Meta :=
  mkMeta (Some (OModel Examples.Article)) (Some "name") None None None
    (Some [Examples.DeleteRow]) None None.

Definition ByClass : world := Examples.define_class "ByClass" [] (Some ByClass_Meta).

(** The same with [get_table_data = None] in the body of the class. *)
Definition Shadowed : world :=
  Examples.define_class "Shadowed" [("get_table_data", AttrValue ONone)]
    (Some ByClass_Meta).

(** A query: the articles are the numbers 1, 2 and 3, and come in falling
    order for the key ["-id"]. *)
Definition all_articles (m : Model) (key : string) : result (list Z) :=
  if String.eqb key "-id" then ok [3; 2; 1] else ok [1; 2; 3].


(** The body of a class that declares the one column [state]. *)
Definition state_column : list (string * class_attr) :=
  [("state", AttrColumn (Examples.column "state" 3))].

(** A table class with the base columns [name] and [size], as a base. *)
Definition two_column_base : Base :=
  mkBase (Some [("name", Examples.column "name" 0);
                ("size", Examples.column "size" 1)])
    [("get_table_data", OCallable)].



(** A model whose one field, [actions], is many-to-many, and
    [class Workflows(ModelTable)] with
    [class Meta: model_class = Workflow; row_actions = (DeleteRow,)]. *)
Definition Workflow : Model := mkModel "flow.workflow" ["actions"].

Definition actions_field : Field := mkField 3 (Some "Steps").

Definition workflow_fields (m : Model) (fields : option (list string))
    : SortedDict Field :=
  [("actions", actions_field)].

Definition Workflows : world :=
  Examples.define_class "Workflows" []
    (Some (mkMeta (Some (OModel Workflow)) None None None None
             (Some [Examples.DeleteRow]) None None)).

End MoreExamples.
(* ===================================================================== *)
(** * Properties of the pagination adapter *)
(* ===================================================================== *)

(** [int(v)] returns what [py_int] finds, and raises when it finds
    nothing. *)
Lemma int_or_raise_int (v : pyval) (n : Z) :
  py_int v = Some n -> int_or_raise v = inr n.
Proof.
  destruct v as [s|z]; simpl.
  - now intros ->.
  - now intros [= ->].
Qed.

Lemma int_or_raise_invalid (v : pyval) :
  py_int v = None ->
  exists s, v = PyStr s /\ int_or_raise v = inl (invalid_literal s).
Proof.
  destruct v as [s|z]; simpl; [|discriminate].
  intros ->. now exists s.
Qed.

Lemma init_int {A} (data : list A) (v : pyval) (n : Z) :
  py_int v = Some n -> DjangoPaginator.init data v = inr (mkPaginator data n 0 true).
Proof.
  intros Hint. unfold DjangoPaginator.init. now rewrite (int_or_raise_int _ _ Hint).
Qed.

Section PaginationFacts.
Context {A : Type}.

(** The [paginator] property of a table without a cached paginator, when
    the data-fetch succeeds and the page size is an integer. *)
Lemma paginator_built (self : PaginationMixin A) (data : list A) (n : Z) :
  _paginator self = None ->
  get_paginator_data self = inr data ->
  py_int (PAGINATION_COUNT self) = Some n ->
  paginator self =
    (inr (mkPaginator data n 0 true),
     mkPagination (page self) (show_all_url self) (PAGINATION_COUNT self)
       (Some (mkPaginator data n 0 true)) (get_paginator_data self)).
Proof.
  intros Hnone Hdata Hsize.
  unfold paginator, mbind, mget, mlift, set_paginator, mret.
  rewrite Hnone, Hdata. rewrite (init_int _ _ _ Hsize).
  reflexivity.
Qed.

(** Once built, the paginator is returned as it is and [self] is left
    unchanged. *)
Lemma paginator_cached (self : PaginationMixin A) (p : Paginator A) :
  _paginator self = Some p -> paginator self = (inr p, self).
Proof.
  intros Hsome. unfold paginator, mbind, mget, mret. rewrite Hsome. reflexivity.
Qed.

(** A successful [paginator] leaves a table whose paginator is cached and
    whose other attributes are those of before. *)
Lemma paginator_ok (self self' : PaginationMixin A) (p : Paginator A) :
  paginator self = (inr p, self') ->
  _paginator self' = Some p
  /\ page self' = page self
  /\ show_all_url self' = show_all_url self
  /\ get_paginator_data self' = get_paginator_data self.
Proof.
  unfold paginator, mbind, mget, mlift, set_paginator, mret.
  destruct (_paginator self) as [q|] eqn:Hq.
  - intros H. inversion H; subst. auto.
  - destruct (get_paginator_data self) as [e|data]; [discriminate|].
    destruct (DjangoPaginator.init data (PAGINATION_COUNT self)) as [e|q];
      [discriminate|].
    intros H. inversion H; subst. simpl. auto.
Qed.

(** When the page size is an integer and the data-fetch succeeds, the
    paginator can be had, cached or not. *)
Lemma paginator_available (self : PaginationMixin A) (data : list A) (n : Z) :
  get_paginator_data self = inr data ->
  py_int (PAGINATION_COUNT self) = Some n ->
  exists p self', paginator self = (inr p, self').
Proof.
  intros Hdata Hsize.
  destruct (_paginator self) as [q|] eqn:Hq.
  - exists q, self. now apply paginator_cached.
  - eexists _, _. now apply paginator_built with (data := data) (n := n).
Qed.
End PaginationFacts.

Section PaginationClaims.
Context {A : Type}.

(** C2. A paginated table over 30 records with page size 25:
    [get_page_data("1")] returns the first 25 records, after which
    [has_next()] is true and [has_previous()] false; [get_page_data("2")]
    returns the 5 records that remain, after which [has_next()] is false
    and [has_previous()] true; [get_page_data("99")] does not raise and
    returns what [get_page_data("2")] returns. *)
Theorem thirty_records_page_size_25 (self : PaginationMixin A) (data : list A) :
  get_paginator_data self = inr data ->
  length data = 30%nat ->
  PAGINATION_COUNT self = PyStr "25" ->
  _paginator self = None ->
  (exists p1 t1,
      get_page_data (PyStr "1") self = (inr (PageOf p1), t1)
      /\ page_object_list p1 = firstn 25 data
      /\ length (page_object_list p1) = 25%nat
      /\ fst (has_next t1) = inr true
      /\ has_previous t1 = false)
  /\ (exists p2 t2,
      get_page_data (PyStr "2") self = (inr (PageOf p2), t2)
      /\ page_object_list p2 = skipn 25 data
      /\ length (page_object_list p2) = 5%nat
      /\ fst (has_next t2) = inr false
      /\ has_previous t2 = true)
  /\ fst (get_page_data (PyStr "99") self) = fst (get_page_data (PyStr "2") self).
Proof.
  intros Hdata Hlen Hsize Hnone.
  destruct self as [pg sa sz pr fetch]; simpl in *; subst.
  do 30 (destruct data as [|? data]; [discriminate Hlen|]).
  destruct data; [|discriminate Hlen].
  split; [|split].
  - eexists _, _. repeat split; vm_compute; reflexivity.
  - eexists _, _. repeat split; vm_compute; reflexivity.
  - vm_compute. reflexivity.
Qed.


(** C10. When the page token is the literal ["all"] and show-all is off, no
    branch of [get_page_data] assigns [objects]: the [return] raises
    [UnboundLocalError] instead of returning a page or the dataset. The
    page size is any integer and the data-fetch succeeds, so that the
    paginator can be had. *)
Theorem all_without_show_all_is_unbound (self : PaginationMixin A)
    (data : list A) (n : Z) :
  show_all_url self = false ->
  get_paginator_data self = inr data ->
  py_int (PAGINATION_COUNT self) = Some n ->
  fst (get_page_data (PyStr "all") self) = inl (UnboundLocalError "objects").
Proof.
  intros Hshow Hdata Hsize.
  destruct (paginator_available self data n Hdata Hsize) as (p & self' & Hp).
  destruct (paginator_ok _ _ _ Hp) as (_ & _ & Hshow' & _).
  unfold get_page_data, mbind. rewrite Hp. simpl.
  unfold try_body, mbind, mget. simpl. rewrite Hshow', Hshow. reflexivity.
Qed.

(** C8. With show-all on, [get_page_data("all")] returns the dataset of the
    data-fetch call, whole and unpaged, whatever integer the page size
    is. *)
Theorem all_returns_whole_dataset (self : PaginationMixin A)
    (data : list A) (n : Z) :
  show_all_url self = true ->
  get_paginator_data self = inr data ->
  py_int (PAGINATION_COUNT self) = Some n ->
  fst (get_page_data (PyStr "all") self) = inr (Dataset data)
  /\ records (Dataset data) = data.
Proof.
  intros Hshow Hdata Hsize.
  destruct (paginator_available self data n Hdata Hsize) as (p & self' & Hp).
  destruct (paginator_ok _ _ _ Hp) as (_ & _ & Hshow' & Hdata').
  split; [|reflexivity].
  unfold get_page_data, mbind. rewrite Hp. simpl.
  unfold try_body, mbind, mget, mlift. simpl.
  rewrite Hshow', Hshow, Hdata', Hdata. reflexivity.
Qed.

(** C3, as the code has it. For a page token that [int()] rejects (the
    literal ["all"] or any other), the failure is swallowed by [get_page]:
    once the token is the table's page, [get_page] is [None], the page
    numbers before and after are [None], and [has_previous] and [has_next]
    answer false without raising or touching the table. [get_page_data]
    does not swallow it: for such a token that is true and is not ["all"],
    the paginator's [PageNotAnInteger] reaches the caller, as
    [get_page_data] catches [EmptyPage] alone. *)
Theorem unparsable_token (self : PaginationMixin A) (token : pyval)
    (data : list A) (n : Z) :
  py_int token = None ->
  (page self = token ->
     get_page self = None
     /\ previous_page_number self = None
     /\ next_page_number self = None
     /\ has_previous self = false
     /\ has_next self = (inr false, self))
  /\ (truthy token = true ->
      pyval_eq_str token "all" = false ->
      get_paginator_data self = inr data ->
      py_int (PAGINATION_COUNT self) = Some n ->
      fst (get_page_data token self)
      = inl (PageNotAnInteger "That page number is not an integer")).
Proof.
  intros Hint. split.
  - intros Hpage.
    unfold previous_page_number, next_page_number, has_previous, has_next,
      mbind, mget, get_page.
    rewrite Hpage, Hint. auto.
  - intros Htrue Hall Hdata Hsize.
    destruct (paginator_available self data n Hdata Hsize) as (p & self' & Hp).
    destruct (paginator_ok _ _ _ Hp) as (Hcached & _ & _ & _).
    unfold get_page_data, mbind. rewrite Hp. simpl. rewrite Htrue.
    unfold set_page at 1. simpl.
    unfold try_body, mbind, mget, mlift. simpl. rewrite Hall. simpl.
    rewrite (paginator_cached _ p) by (simpl; assumption).
    unfold DjangoPaginator.page, DjangoPaginator.validate_number, rbind.
    simpl. rewrite Hint. reflexivity.
Qed.
End PaginationClaims.

(** The witness of C2: the table over the records 0 to 29. *)
Lemma thirty_records_page_size_25_witness :
  (exists p1 t1,
      get_page_data (PyStr "1") Examples.thirty_table = (inr (PageOf p1), t1)
      /\ page_object_list p1 = firstn 25 Examples.thirty
      /\ length (page_object_list p1) = 25%nat
      /\ fst (has_next t1) = inr true
      /\ has_previous t1 = false)
  /\ (exists p2 t2,
      get_page_data (PyStr "2") Examples.thirty_table = (inr (PageOf p2), t2)
      /\ page_object_list p2 = skipn 25 Examples.thirty
      /\ length (page_object_list p2) = 5%nat
      /\ fst (has_next t2) = inr false
      /\ has_previous t2 = true)
  /\ fst (get_page_data (PyStr "99") Examples.thirty_table)
     = fst (get_page_data (PyStr "2") Examples.thirty_table).
Proof.
  apply (thirty_records_page_size_25 Examples.thirty_table Examples.thirty);
    reflexivity.
Defined.

(** The witness of C10: the token ["all"] on a table without show-all. *)
Lemma all_without_show_all_is_unbound_witness :
  fst (get_page_data (PyStr "all") Examples.no_show_all_table)
  = inl (UnboundLocalError "objects").
Proof.
  apply (all_without_show_all_is_unbound Examples.no_show_all_table
           Examples.thirty 25); reflexivity.
Defined.

(** The witness of C8: all thirty records come back with page size 25. *)
Lemma all_returns_whole_dataset_witness :
  fst (get_page_data (PyStr "all") Examples.thirty_table)
  = inr (Dataset Examples.thirty)
  /\ records (Dataset Examples.thirty) = Examples.thirty.
Proof.
  apply (all_returns_whole_dataset Examples.thirty_table Examples.thirty 25);
    reflexivity.
Defined.

(** C3 as the claim states it fails: the token ["abc"] is not ["all"] and
    is no integer, and [get_page_data("abc")] raises [PageNotAnInteger] to
    the caller. *)
Lemma token_abc_raises_PageNotAnInteger :
  pyval_eq_str (PyStr "abc") "all" = false
  /\ py_int (PyStr "abc") = None
  /\ fst (get_page_data (PyStr "abc") Examples.thirty_table)
     = inl (PageNotAnInteger "That page number is not an integer").
Proof. repeat split. Qed.

(** The witness of C3 as amended, at the token ["abc"]: on the table whose
    page is ["abc"], and through [get_page_data("abc")]. *)
Lemma unparsable_token_witness :
  (get_page (snd (set_page (PyStr "abc") Examples.thirty_table)) = None
   /\ previous_page_number (snd (set_page (PyStr "abc") Examples.thirty_table)) = None
   /\ next_page_number (snd (set_page (PyStr "abc") Examples.thirty_table)) = None
   /\ has_previous (snd (set_page (PyStr "abc") Examples.thirty_table)) = false
   /\ has_next (snd (set_page (PyStr "abc") Examples.thirty_table))
      = (inr false, snd (set_page (PyStr "abc") Examples.thirty_table)))
  /\ fst (get_page_data (PyStr "abc") Examples.thirty_table)
     = inl (PageNotAnInteger "That page number is not an integer").
Proof.
  split.
  - destruct (unparsable_token (snd (set_page (PyStr "abc") Examples.thirty_table))
                (PyStr "abc") Examples.thirty 25 eq_refl) as [Hnav _].
    apply Hnav. reflexivity.
  - destruct (unparsable_token Examples.thirty_table (PyStr "abc")
                Examples.thirty 25 eq_refl) as [_ Hdata].
    apply Hdata; reflexivity.
Defined.

(* ===================================================================== *)
(** * Properties of the containers *)
(* ===================================================================== *)

Local Open Scope list_scope.

Section DictFacts.
Context {V : Type}.
Implicit Types (d : SortedDict V) (k : string) (v : V).

Lemma contains_In k d : contains k d = true <-> In k (keys d).
Proof.
  induction d as [|[k' v'] d IH]; simpl.
  - split; [discriminate|tauto].
  - rewrite orb_true_iff, IH, String.eqb_eq. intuition congruence.
Qed.

Lemma contains_false k d : contains k d = false <-> ~ In k (keys d).
Proof.
  rewrite <- contains_In. destruct (contains k d); intuition congruence.
Qed.

Lemma getitem_contains k d : contains k d = true <-> getitem k d <> None.
Proof.
  induction d as [|[k' v'] d IH]; simpl.
  - intuition congruence.
  - destruct (String.eqb k k'); simpl; [intuition congruence|exact IH].
Qed.

Lemma getitem_In k v d : getitem k d = Some v -> In (k, v) d.
Proof.
  induction d as [|[k' v'] d IH]; simpl; [discriminate|].
  destruct (String.eqb_spec k k') as [->|Hne].
  - intros [= ->]. now left.
  - intros H. right. now apply IH.
Qed.

Lemma In_getitem k v d : NoDup (keys d) -> In (k, v) d -> getitem k d = Some v.
Proof.
  induction d as [|[k' v'] d IH]; simpl; [tauto|].
  intros Hnd [Heq|Hin].
  - inversion Heq; subst. now rewrite String.eqb_refl.
  - inversion Hnd as [|? ? Hnotin Hnd']; subst.
    destruct (String.eqb_spec k k') as [->|Hne].
    + exfalso. apply Hnotin. change k' with (fst (k', v)). now apply in_map.
    + now apply IH.
Qed.

(** A new key goes last. *)
Lemma setitem_fresh k v d : ~ In k (keys d) -> setitem k v d = d ++ [(k, v)].
Proof.
  induction d as [|[k' v'] d IH]; simpl; [reflexivity|].
  intros Hnotin. destruct (String.eqb_spec k k') as [->|Hne]; [tauto|].
  f_equal. apply IH. tauto.
Qed.

(** A key already there keeps its place. *)
Lemma keys_setitem_present k v d : In k (keys d) -> keys (setitem k v d) = keys d.
Proof.
  induction d as [|[k' v'] d IH]; simpl; [tauto|].
  intros Hin. destruct (String.eqb_spec k k') as [->|Hne]; simpl; [reflexivity|].
  f_equal. apply IH. destruct Hin; congruence.
Qed.

Lemma keys_setitem k v d :
  keys (setitem k v d) = if contains k d then keys d else keys d ++ [k].
Proof.
  destruct (contains k d) eqn:Hc.
  - apply keys_setitem_present. now apply contains_In.
  - rewrite setitem_fresh by now apply contains_false.
    unfold keys. now rewrite map_app.
Qed.

Lemma setitem_NoDup k v d : NoDup (keys d) -> NoDup (keys (setitem k v d)).
Proof.
  intros Hnd. rewrite keys_setitem. destruct (contains k d) eqn:Hc; [assumption|].
  apply contains_false in Hc.
  apply NoDup_app; [assumption|repeat constructor; simpl; tauto|].
  intros x Hx [<-|[]]. tauto.
Qed.

Lemma update_NoDup d (items : list (string * V)) :
  NoDup (keys d) -> NoDup (keys (update d items)).
Proof.
  unfold update. revert d.
  induction items as [|[k v] items IH]; simpl; intros d Hnd; [assumption|].
  apply IH. now apply setitem_NoDup.
Qed.

Lemma SortedDict_of_NoDup (items : list (string * V)) :
  NoDup (keys (SortedDict_of items)).
Proof. apply update_NoDup. constructor. Qed.

(** Items with distinct keys are appended as they come. *)
Lemma update_fresh d (items : list (string * V)) :
  NoDup (keys (d ++ items)) -> update d items = d ++ items.
Proof.
  unfold update. revert d.
  induction items as [|[k v] items IH]; simpl; intros d Hnd.
  - now rewrite app_nil_r.
  - unfold keys in Hnd. rewrite map_app in Hnd. simpl in Hnd.
    pose proof (NoDup_remove_2 _ _ _ Hnd) as Hnotin.
    rewrite setitem_fresh by (intros Hin; apply Hnotin, in_or_app; now left).
    rewrite IH.
    + now rewrite <- app_assoc.
    + unfold keys. rewrite !map_app. simpl. now rewrite <- app_assoc.
Qed.

Lemma SortedDict_of_distinct (items : list (string * V)) :
  NoDup (map fst items) -> SortedDict_of items = items.
Proof. intros Hnd. unfold SortedDict_of. now rewrite update_fresh. Qed.

Lemma keys_update_In k d (items : list (string * V)) :
  In k (keys (update d items)) <-> In k (keys d) \/ In k (map fst items).
Proof.
  unfold update. revert d.
  induction items as [|[k' v'] items IH]; simpl; intros d; [tauto|].
  rewrite IH, keys_setitem.
  destruct (contains k' d) eqn:Hc.
  - apply contains_In in Hc. intuition (subst; auto).
  - rewrite in_app_iff. simpl. intuition (subst; auto).
Qed.

Lemma getitem_setitem_other k k' v d :
  k <> k' -> getitem k (setitem k' v d) = getitem k d.
Proof.
  intros Hne. induction d as [|[k0 v0] d IH]; simpl.
  - destruct (String.eqb_spec k k'); [contradiction|reflexivity].
  - destruct (String.eqb_spec k' k0) as [->|Hne0]; simpl.
    + destruct (String.eqb_spec k k0); [contradiction|reflexivity].
    + now rewrite IH.
Qed.

Lemma getitem_setitem_same k v d : getitem k (setitem k v d) = Some v.
Proof.
  induction d as [|[k0 v0] d IH]; simpl.
  - now rewrite String.eqb_refl.
  - destruct (String.eqb_spec k k0) as [->|Hne]; simpl.
    + now rewrite String.eqb_refl.
    + destruct (String.eqb_spec k k0); [contradiction|exact IH].
Qed.

(** After [d.update(items)], a key of [items] has the value of its last
    item. *)
Lemma getitem_update_distinct k v d (items : list (string * V)) :
  NoDup (map fst items) -> In (k, v) items -> getitem k (update d items) = Some v.
Proof.
  unfold update. revert d.
  induction items as [|[k' v'] items IH]; simpl; intros d Hnd Hin; [tauto|].
  inversion Hnd as [|? ? Hnotin Hnd']; subst.
  destruct Hin as [Heq|Hin].
  - inversion Heq; subst.
    assert (Hkeep : forall l d',
               ~ In k (map fst l) ->
               getitem k (fold_left (fun acc kv => setitem (fst kv) (snd kv) acc) l d')
               = getitem k d').
    { induction l as [|[k0 v0] l IHl]; simpl; intros d' Hk; [reflexivity|].
      rewrite IHl by tauto. apply getitem_setitem_other. intros ->. tauto. }
    rewrite Hkeep by assumption. apply getitem_setitem_same.
  - now apply IH.
Qed.

Lemma delitem_keys_subset k k' d : In k (keys (delitem k' d)) -> In k (keys d).
Proof.
  induction d as [|[k0 v0] d IH]; simpl; [tauto|].
  destruct (String.eqb k' k0); simpl; tauto.
Qed.

Lemma delitem_NoDup k d : NoDup (keys d) -> NoDup (keys (delitem k d)).
Proof.
  induction d as [|[k0 v0] d IH]; simpl; intros Hnd; [constructor|].
  inversion Hnd as [|? ? Hnotin Hnd']; subst.
  destruct (String.eqb k k0); simpl; [assumption|].
  constructor; [|now apply IH].
  intros Hin. apply Hnotin. eapply delitem_keys_subset, Hin.
Qed.

Lemma delitem_not_In k d : NoDup (keys d) -> ~ In k (keys (delitem k d)).
Proof.
  induction d as [|[k0 v0] d IH]; simpl; intros Hnd; [tauto|].
  inversion Hnd as [|? ? Hnotin Hnd']; subst.
  destruct (String.eqb_spec k k0) as [->|Hne]; simpl; [assumption|].
  intros [Heq|Hin]; [congruence|]. now apply IH.
Qed.
End DictFacts.

Section DictEntries.
Context {V : Type}.

Lemma In_setitem (k k' : string) (v v' : V) (d : SortedDict V) :
  In (k, v) (setitem k' v' d) -> (k, v) = (k', v') \/ In (k, v) d.
Proof.
  induction d as [|[k0 v0] d IH]; simpl.
  - intros [H|[]]; auto.
  - destruct (String.eqb_spec k' k0) as [->|Hne]; simpl.
    + intros [H|H]; auto.
    + intros [H|H]; auto. destruct (IH H); auto.
Qed.

(** An entry of [d.update(items)] is an entry of [d] or one of the
    items. *)
Lemma In_update (k : string) (v : V) (d : SortedDict V) (items : list (string * V)) :
  In (k, v) (update d items) -> In (k, v) d \/ In (k, v) items.
Proof.
  unfold update. revert d.
  induction items as [|[k' v'] items IH]; simpl; intros d H; [auto|].
  destruct (IH _ H) as [H'|H']; [|auto].
  destruct (In_setitem _ _ _ _ _ H'); auto.
Qed.
End DictEntries.

Lemma getitem_None_keys {V} (k : string) (d : SortedDict V) :
  ~ In k (keys d) -> getitem k d = None.
Proof.
  intros Hnotin. destruct (getitem k d) as [v|] eqn:Hget; [|reflexivity].
  exfalso. apply Hnotin, contains_In, getitem_contains. congruence.
Qed.

(** Lookup in a list of items goes to those behind when those in front
    have no such key. *)
Lemma getitem_app_None {V} (k : string) (d d' : SortedDict V) :
  getitem k d = None -> getitem k (d ++ d') = getitem k d'.
Proof.
  induction d as [|[k0 v0] d IH]; simpl; [reflexivity|].
  destruct (String.eqb k k0); [discriminate|exact IH].
Qed.

(* ===================================================================== *)
(** * Properties of [list.sort] *)
(* ===================================================================== *)

Section SortFacts.
Context {X : Type}.
Variable leb : X -> X -> bool.
Hypothesis leb_total : forall a b, leb a b = true \/ leb b a = true.
Hypothesis leb_trans : forall a b c, leb a b = true -> leb b c = true -> leb a c = true.

Let le (a b : X) : Prop := leb a b = true.

Lemma insert_sorted_perm (x : X) (l : list X) :
  Permutation (insert_sorted leb x l) (x :: l).
Proof.
  induction l as [|y l IH]; simpl; [reflexivity|].
  destruct (leb x y); [reflexivity|].
  rewrite IH. apply perm_swap.
Qed.

Lemma stable_sort_perm (l : list X) : Permutation (stable_sort leb l) l.
Proof.
  induction l as [|x l IH]; simpl; [reflexivity|].
  rewrite insert_sorted_perm. now constructor.
Qed.

Lemma insert_sorted_sorted (x : X) (l : list X) :
  StronglySorted le l -> StronglySorted le (insert_sorted leb x l).
Proof.
  induction l as [|y l IH]; simpl; intros Hs.
  - repeat constructor.
  - inversion Hs as [|? ? Hs' Hall]; subst.
    destruct (leb x y) eqn:Hxy.
    + constructor; [assumption|]. constructor; [exact Hxy|].
      eapply Forall_impl; [|exact Hall]. intros z Hz. eapply leb_trans; eassumption.
    + constructor; [now apply IH|].
      assert (Hyx : le y x).
      { destruct (leb_total x y) as [H|H]; [congruence|exact H]. }
      eapply Permutation_Forall; [symmetry; apply insert_sorted_perm|].
      now constructor.
Qed.

Lemma stable_sort_sorted (l : list X) : StronglySorted le (stable_sort leb l).
Proof.
  induction l as [|x l IH]; simpl; [constructor|]. now apply insert_sorted_sorted.
Qed.
End SortFacts.




(** *** The order of strings *)

Lemma String_compare_OT (a b : string) :
  String.compare a b = String_as_OT.compare a b.
Proof.
  revert b. induction a as [|c a IH]; destruct b as [|c' b]; reflexivity.
Qed.

Lemma String_leb_trans (a b c : string) :
  String.leb a b = true -> String.leb b c = true -> String.leb a c = true.
Proof.
  unfold String.leb.
  destruct (String.compare a b) eqn:Hab; try discriminate;
    destruct (String.compare b c) eqn:Hbc; try discriminate; intros _ _.
  - apply String.compare_eq_iff in Hab. subst. now rewrite Hbc.
  - apply String.compare_eq_iff in Hab. subst. now rewrite Hbc.
  - apply String.compare_eq_iff in Hbc. subst. now rewrite Hab.
  - rewrite String_compare_OT in *.
    pose proof (@RelationClasses.StrictOrder_Transitive _ _
                  String_as_OT.lt_strorder a b c Hab Hbc) as H.
    unfold String_as_OT.lt in H. now rewrite H.
Qed.

Lemma String_leb_neq_ltb (a b : string) :
  String.leb a b = true -> a <> b -> String.ltb a b = true.
Proof.
  unfold String.leb, String.ltb.
  destruct (String.compare a b) eqn:Hab; try discriminate; [|reflexivity].
  apply String.compare_eq_iff in Hab. congruence.
Qed.

Lemma StronglySorted_app {X} (R : X -> X -> Prop) (l1 l2 : list X) :
  StronglySorted R (l1 ++ l2)
  <-> StronglySorted R l1 /\ StronglySorted R l2
      /\ (forall x y, In x l1 -> In y l2 -> R x y).
Proof.
  induction l1 as [|a l1 IH]; simpl.
  - split; [intros H; repeat split; [constructor|assumption|tauto]|tauto].
  - split.
    + intros H. inversion H as [|? ? Hs Hall]; subst.
      apply IH in Hs. destruct Hs as (Hs1 & Hs2 & Hcross).
      rewrite Forall_app in Hall. destruct Hall as [Hall1 Hall2].
      repeat split; [now constructor|assumption|].
      intros x y [<-|Hx] Hy; [|now apply Hcross].
      rewrite Forall_forall in Hall2. now apply Hall2.
    + intros (Hs1 & Hs2 & Hcross).
      inversion Hs1 as [|? ? Hs Hall]; subst.
      constructor.
      * apply IH. repeat split; auto.
      * rewrite Forall_app. split; [assumption|].
        rewrite Forall_forall. intros y Hy. apply Hcross; auto.
Qed.

(** The keys of a [SortedDict] made of items sorted by key increase
    strictly: of the items with one key a single entry is kept, at the
    place of the first. *)
Lemma keys_update_sorted {V} (d : SortedDict V) (items : list (string * V)) :
  StronglySorted (fun a b => String.ltb a b = true) (keys d) ->
  StronglySorted (fun a b => String.leb a b = true) (keys d ++ map fst items) ->
  StronglySorted (fun a b => String.ltb a b = true) (keys (update d items)).
Proof.
  unfold update. revert d.
  induction items as [|[k v] items IH]; simpl; intros d Hlt Hle; [assumption|].
  apply StronglySorted_app in Hle. destruct Hle as (Hd & Hitems & Hcross).
  inversion Hitems as [|? ? Hitems' Hall]; subst.
  apply IH; rewrite keys_setitem; destruct (contains k d) eqn:Hc.
  - assumption.
  - apply contains_false in Hc.
    apply StronglySorted_app. repeat split; [assumption|repeat constructor|].
    intros x y Hx [<-|[]].
    apply String_leb_neq_ltb; [apply Hcross; simpl; auto|congruence].
  - apply StronglySorted_app. repeat split; try assumption.
    intros x y Hx Hy. apply Hcross; simpl; auto.
  - rewrite <- app_assoc. simpl.
    apply StronglySorted_app. repeat split; assumption.
Qed.

Lemma keys_SortedDict_of_sorted {V} (items : list (string * V)) :
  StronglySorted (fun a b => String.leb a b = true) (map fst items) ->
  StronglySorted (fun a b => String.ltb a b = true) (keys (SortedDict_of items)).
Proof.
  intros Hs. apply keys_update_sorted; [constructor|exact Hs].
Qed.

Lemma StronglySorted_map {X Y} (R : Y -> Y -> Prop) (f : X -> Y) (l : list X) :
  StronglySorted (fun a b => R (f a) (f b)) l -> StronglySorted R (map f l).
Proof.
  induction 1 as [|x l Hs IH Hall]; simpl; constructor; [assumption|].
  rewrite Forall_map. exact Hall.
Qed.

(** In a dictionary a key has exactly one entry. *)
Lemma one_entry_per_key {V} (k : string) (d : SortedDict V) :
  NoDup (keys d) -> In k (keys d) ->
  length (List.filter (fun e => String.eqb (fst e) k) d) = 1%nat.
Proof.
  induction d as [|[k' v'] d IH]; simpl; [tauto|].
  intros Hnd Hin. inversion Hnd as [|? ? Hnotin Hnd']; subst.
  destruct (String.eqb_spec k' k) as [->|Hne]; simpl.
  - f_equal. apply length_zero_iff_nil.
    destruct (List.filter (fun e => String.eqb (fst e) k) d) as [|e rest] eqn:Hf;
      [reflexivity|].
    exfalso. assert (He : In e (List.filter (fun e => String.eqb (fst e) k) d))
      by (rewrite Hf; now left).
    apply filter_In in He. destruct He as [He Hk]. apply String.eqb_eq in Hk.
    apply Hnotin. rewrite <- Hk. now apply in_map.
  - apply IH; [assumption|]. destruct Hin; [congruence|assumption].
Qed.

(* ===================================================================== *)
(** * Properties of [ModelTableMetaclass.__new__] *)
(* ===================================================================== *)

(** *** Equality of items *)

Lemma list_eqb_refl {X} (eqb : X -> X -> bool) (l : list X) :
  (forall x, eqb x x = true) -> list_eqb eqb l l = true.
Proof.
  intros Hrefl. induction l as [|x l IH]; simpl; [reflexivity|].
  now rewrite Hrefl, IH.
Qed.

Lemma option_eqb_refl {X} (eqb : X -> X -> bool) (o : option X) :
  (forall x, eqb x x = true) -> option_eqb eqb o o = true.
Proof. intros Hrefl. destruct o; simpl; auto. Qed.

Lemma Field_eqb_refl (f : Field) : Field_eqb f f = true.
Proof.
  unfold Field_eqb. rewrite Nat.eqb_refl. destruct (label f); simpl; [|reflexivity].
  apply String.eqb_refl.
Qed.

Lemma Column_eqb_refl (c : Column) : Column_eqb c c = true.
Proof.
  unfold Column_eqb.
  rewrite !String.eqb_refl, Z.eqb_refl.
  rewrite (option_eqb_refl String.eqb) by apply String.eqb_refl.
  rewrite (list_eqb_refl String.eqb) by apply String.eqb_refl.
  rewrite (list_eqb_refl filter_eqb) by reflexivity.
  rewrite (option_eqb_refl Field_eqb) by apply Field_eqb_refl.
  reflexivity.
Qed.

Lemma item_eqb_refl (x : string * Column) : item_eqb x x = true.
Proof. unfold item_eqb. now rewrite String.eqb_refl, Column_eqb_refl. Qed.

Lemma item_eqb_name (x y : string * Column) : item_eqb x y = true -> fst x = fst y.
Proof.
  unfold item_eqb. intros H. apply andb_true_iff in H. now apply String.eqb_eq.
Qed.

(** *** The allow-list *)

Lemma index_skip {X} (eqb : X -> X -> bool) (x : X) (kept rest : list X) :
  (forall y, In y kept -> eqb x y = false) ->
  eqb x x = true ->
  index eqb x (kept ++ x :: rest) = Some (length kept).
Proof.
  intros Hkept Hrefl. induction kept as [|y kept IH]; simpl.
  - now rewrite Hrefl.
  - rewrite (Hkept y) by now left. rewrite IH; [reflexivity|].
    intros z Hz. apply Hkept. now right.
Qed.

Lemma pop_at_middle {X} (x : X) (kept rest : list X) :
  pop_at (length kept) (kept ++ x :: rest) = kept ++ rest.
Proof. induction kept as [|y kept IH]; simpl; [reflexivity|now rewrite IH]. Qed.

(** Popping the columns that are not allowed one by one, each at its first
    index, leaves the allowed columns in their order. *)
Lemma remove_undeclared_filter (allowed : list string) (columns : list (string * Column)) :
  remove_undeclared allowed columns
  = ok (List.filter (fun x => py_in String.eqb (fst x) allowed) columns).
Proof.
  unfold remove_undeclared.
  set (step := fun acc column_data => rbind acc _).
  assert (Hgen : forall rest kept,
             (forall x, In x kept -> py_in String.eqb (fst x) allowed = true) ->
             fold_left step rest (ok (kept ++ rest))
             = ok (kept ++ List.filter (fun x => py_in String.eqb (fst x) allowed) rest)).
  { induction rest as [|x rest IH]; intros kept Hkept; simpl; [reflexivity|].
    destruct (py_in String.eqb (fst x) allowed) eqn:Hx; simpl.
    - replace (kept ++ x :: rest) with ((kept ++ [x]) ++ rest)
        by (now rewrite <- app_assoc).
      rewrite IH.
      + now rewrite <- app_assoc.
      + intros y Hy. apply in_app_or in Hy. destruct Hy as [Hy|[<-|[]]]; auto.
    - rewrite index_skip.
      + rewrite pop_at_middle. now apply IH.
      + intros y Hy. destruct (item_eqb x y) eqn:Hxy; [|reflexivity].
        apply item_eqb_name in Hxy.
        specialize (Hkept y Hy). rewrite <- Hxy in Hkept. congruence.
      + apply item_eqb_refl. }
  apply (Hgen columns []). intros x [].
Qed.

Lemma index_found {X} (eqb : X -> X -> bool) (x : X) (l : list X) :
  py_in eqb x l = true -> exists i, index eqb x l = Some i.
Proof.
  unfold py_in. induction l as [|y l IH]; simpl; [discriminate|].
  destruct (eqb x y); simpl; [now exists O|].
  intros H. destruct (IH H) as [i ->]. now exists (S i).
Qed.

Lemma rmap_ok {X Y} (f : X -> result Y) (l : list X) :
  (forall x, In x l -> exists y, f x = ok y) -> exists ys, rmap f l = ok ys.
Proof.
  induction l as [|x l IH]; simpl; intros H; [now exists []|].
  destruct (H x) as [y Hy]; [now left|]. rewrite Hy. simpl.
  destruct IH as [ys Hys]; [intros; apply H; now right|].
  rewrite Hys. simpl. now eexists.
Qed.

(** With an allow-list, neither step raises. *)
Lemma apply_allow_list_ok (opts : ModelTableOptions) (columns : list (string * Column)) :
  exists columns', apply_allow_list opts columns = ok columns'.
Proof.
  unfold apply_allow_list.
  destruct (opt_columns opts) as [[|a allowed]|]; try (now eexists).
  rewrite remove_undeclared_filter. cbv beta iota delta [rbind ok].
  unfold reorder.
  destruct (rmap_ok
              (fun x => match index String.eqb (fst x) (a :: allowed) with
                        | Some i => ok (i, x)
                        | None => raise (ValueError "x is not in list")
                        end)
              (List.filter (fun x => py_in String.eqb (fst x) (a :: allowed)) columns))
    as [keyed Hkeyed].
  - intros x Hx. apply filter_In in Hx. destruct Hx as [_ Hx].
    destruct (index_found _ _ _ Hx) as [i ->]. now eexists.
  - rewrite Hkeyed. simpl. now eexists.
Qed.

(** *** The number of columns that the limits of a browser count *)

Lemma inherit_columns_app (bases : list Base) (columns : list (string * Column)) :
  inherit_columns bases columns = inherit_columns bases [] ++ columns.
Proof.
  unfold inherit_columns.
  assert (Hgen : forall bs acc,
             fold_left (fun cols base =>
                          match base_columns_of base with
                          | Some bc => bc ++ cols
                          | None => cols
                          end) bs (acc ++ columns)
             = fold_left (fun cols base =>
                            match base_columns_of base with
                            | Some bc => bc ++ cols
                            | None => cols
                            end) bs acc ++ columns).
  { induction bs as [|b bs IH]; intros acc; simpl; [reflexivity|].
    destruct (base_columns_of b) as [bc|]; [|apply IH].
    rewrite app_assoc. apply IH. }
  apply (Hgen (rev bases) []).
Qed.

Lemma length_inherit_columns (bases : list Base) (columns : list (string * Column)) :
  length (inherit_columns bases columns)
  = (length (inherit_columns bases []) + length columns)%nat.
Proof. rewrite inherit_columns_app. apply length_app. Qed.


Lemma length_sort_by {X K} (leb : K -> K -> bool) (f : X -> K) (l : list X) :
  length (sort_by leb f l) = length l.
Proof. unfold sort_by. apply Permutation_length, stable_sort_perm. Qed.

(** The columns that the limits count: the declared ones and those of the
    bases. *)
Lemma length_collected (bases : list Base) (attrs : list (string * class_attr)) :
  length (inherit_columns bases
            (sort_by Z.leb (fun x => creation_counter (snd x)) (gather_columns attrs)))
  = (length (gather_columns attrs) + length (inherit_columns bases []))%nat.
Proof. rewrite length_inherit_columns, length_sort_by. lia. Qed.

(** The loops of the metaclass collect as many columns as the body
    declares and the bases hand down. *)
Lemma length_gather_columns (attrs : list (string * class_attr)) :
  length (gather_columns attrs) = declared_count attrs.
Proof.
  unfold declared_count.
  induction attrs as [|[n a] attrs IH]; simpl; [reflexivity|].
  destruct a; simpl; now rewrite IH.
Qed.

Lemma list_sum_rev (l : list nat) : list_sum (rev l) = list_sum l.
Proof.
  induction l as [|n l IH]; simpl; [reflexivity|].
  rewrite list_sum_app, IH. simpl. lia.
Qed.

Lemma length_inherited (bases : list Base) :
  length (inherit_columns bases []) = inherited_count bases.
Proof.
  unfold inherit_columns, inherited_count.
  rewrite <- list_sum_rev, <- map_rev.
  assert (Hgen : forall bs acc,
             length (fold_left (fun cols base =>
                                  match base_columns_of base with
                                  | Some bc => bc ++ cols
                                  | None => cols
                                  end) bs acc)
             = (list_sum (map (fun base => match base_columns_of base with
                                           | Some bc => length bc
                                           | None => 0
                                           end) bs) + length acc)%nat).
  { induction bs as [|b bs IH]; intros acc; simpl; [reflexivity|].
    rewrite IH. destruct (base_columns_of b) as [bc|]; [|reflexivity].
    rewrite length_app. lia. }
  rewrite Hgen. simpl. lia.
Qed.

Lemma length_collected_counts (bases : list Base) (attrs : list (string * class_attr)) :
  length (inherit_columns bases
            (sort_by Z.leb (fun x => creation_counter (snd x)) (gather_columns attrs)))
  = (declared_count attrs + inherited_count bases)%nat.
Proof. now rewrite length_collected, length_gather_columns, length_inherited. Qed.

(** *** The automatic columns and the actions *)

Lemma add_auto_columns_spec (opts : ModelTableOptions)
    (columns : list (string * Column)) (rt : runtime) :
  exists pre post rt',
    add_auto_columns opts columns rt = (inr (pre ++ columns ++ post), rt')
    /\ map fst pre
       = (if multi_select opts
             && negb (option_eqb String.eqb (browser_table opts) (Some "navigation"))
          then ["multi_select"] else [])
    /\ map fst post = (if actions_column opts then ["actions"] else [])
    /\ instantiated rt' = instantiated rt.
Proof.
  unfold add_auto_columns, mbind, mret, Column_init.
  destruct (multi_select opts
            && negb (option_eqb String.eqb (browser_table opts) (Some "navigation")));
    destruct (actions_column opts); simpl.
  - eexists [_], [_], _. repeat split.
  - eexists [_], [], _. rewrite app_nil_r. repeat split.
  - eexists [], [_], _. repeat split.
  - eexists [], [], _. rewrite app_nil_r. repeat split.
Qed.

(** Instantiating the classes of a list, one call each, in order. *)
Lemma instantiate_all (l : list ActionClass) (rt : runtime) :
  exists instances,
    mmap (fun action =>
            mbind (instantiate action) (fun a => mret (action_name action, a))) l rt
    = (inr instances,
       mkRuntime (Column_creation_counter rt) (instantiated rt ++ l))
    /\ map fst instances = map action_name l
    /\ map (fun x => action_class (snd x)) instances = l
    /\ (forall n a, In (n, a) instances ->
          action_name (action_class a) = n
          /\ nth_error (instantiated rt ++ l) (serial a) = Some (action_class a)).
Proof.
  revert rt. induction l as [|c l IH]; intros rt; simpl.
  - exists []. rewrite app_nil_r. destruct rt. simpl.
    repeat split; simpl in *; tauto.
  - unfold mbind at 1. unfold mbind at 1. simpl.
    destruct (IH (mkRuntime (Column_creation_counter rt) (instantiated rt ++ [c])))
      as (instances & Hrun & Hnames & Hclasses & Heach).
    simpl in Hrun. unfold mbind at 1. rewrite Hrun. simpl.
    rewrite <- app_assoc in *. simpl in *.
    eexists. split; [reflexivity|]. simpl.
    split; [now rewrite Hnames|]. split; [now rewrite Hclasses|].
    intros n a [H|H];
      [|specialize (Heach n a H); rewrite <- app_assoc in Heach; exact Heach].
    inversion H; subst. simpl. split; [reflexivity|].
    rewrite nth_error_app2 by lia. now rewrite Nat.sub_diag.
Qed.

Section MetaclassFacts.
Variable set_items : list ActionClass -> list ActionClass.

Lemma register_actions_spec (opts : ModelTableOptions) (rt : runtime) :
  exists instances,
    register_actions set_items opts rt
    = (inr (SortedDict_of instances),
       mkRuntime (Column_creation_counter rt) (instantiated rt ++ sorted_actions set_items opts))
    /\ map fst instances = map action_name (sorted_actions set_items opts)
    /\ map (fun x => action_class (snd x)) instances = sorted_actions set_items opts
    /\ (forall n a, In (n, a) instances ->
          action_name (action_class a) = n
          /\ nth_error (instantiated rt ++ sorted_actions set_items opts) (serial a)
             = Some (action_class a)).
Proof.
  destruct (instantiate_all (sorted_actions set_items opts) rt)
    as (instances & Hrun & Hnames & Hclasses & Heach).
  exists instances. split; [|split; [|split]]; try assumption.
  unfold register_actions. unfold mbind at 1. rewrite Hrun. reflexivity.
Qed.

(** The filter action of the options is one of the table actions. *)
Lemma filter_action_declared (Meta : option Meta) (opts : ModelTableOptions)
    (a : ActionClass) :
  ModelTableOptions_init Meta = inr opts ->
  _filter_action opts = Some a ->
  In a (table_actions opts).
Proof.
  unfold ModelTableOptions_init, DataTableOptions_init.
  match goal with |- context [if ?c then _ else _] => destruct c end;
    [discriminate|].
  intros H. inversion H; subst; clear H. simpl.
  match goal with |- context [List.filter is_filter ?l] =>
    set (declared := l);
    assert (Hsub : forall x, In x (List.filter is_filter declared) -> In x declared)
      by (intros x Hx; now apply filter_In in Hx);
    destruct (List.filter is_filter declared) as [|f [|g fs]]
  end; try discriminate.
  intros [= ->]. apply Hsub. now left.
Qed.

(** What a successful class creation went through. *)
Lemma ModelTableMetaclass_new_inv (name : string) (bases : list Base)
    (attrs : list (string * class_attr)) (Meta : option Meta)
    (rt rt' : runtime) (cls : TableClass) :
  ModelTableMetaclass_new set_items name bases attrs Meta rt = (inr cls, rt') ->
  exists opts columns' auto rt1,
    ModelTableOptions_init Meta = inr opts
    /\ check_browser_limits name opts
         (inherit_columns bases
            (sort_by Z.leb (fun x => creation_counter (snd x)) (gather_columns attrs)))
       = inr tt
    /\ apply_allow_list opts
         (inherit_columns bases
            (sort_by Z.leb (fun x => creation_counter (snd x)) (gather_columns attrs)))
       = inr columns'
    /\ add_auto_columns opts columns' rt = (inr auto, rt1)
    /\ register_actions set_items opts rt1 = (inr (base_actions cls), rt')
    /\ _meta cls = opts
    /\ cls_name cls = name
    /\ base_columns cls
       = SortedDict_of
           (inherit_columns bases
              (sort_by Z.leb (fun x => creation_counter (snd x)) (gather_columns attrs)))
    /\ _columns cls = SortedDict_of auto.
Proof.
  unfold ModelTableMetaclass_new, mbind, mlift, mret, mraise.
  destruct (ModelTableOptions_init Meta) as [e|opts]; [discriminate|].
  destruct (check_browser_limits name opts _) as [e|[]] eqn:Hcheck; [discriminate|].
  destruct (apply_allow_list opts _) as [e|columns'] eqn:Hallow; [discriminate|].
  destruct (add_auto_columns opts columns' rt) as [[e|auto] rt1] eqn:Hauto;
    [discriminate|].
  destruct (register_actions set_items opts rt1) as [[e|acts] rt2] eqn:Hreg;
    [discriminate|].
  intros H.
  assert (Hcls : exists fa,
             cls = mkTableClass name (plain_attrs attrs ++ flat_map base_namespace bases)
                     opts fa
                     (SortedDict_of
                        (inherit_columns bases
                           (sort_by Z.leb (fun x => creation_counter (snd x))
                              (gather_columns attrs))))
                     (SortedDict_of auto) acts
             /\ rt' = rt2).
  { destruct (_filter_action opts) as [a|].
    - destruct (getitem (action_name a) acts); [|discriminate].
      inversion H; subst. now eexists.
    - inversion H; subst. now eexists. }
  destruct Hcls as (fa & -> & ->). simpl.
  exists opts, columns', auto, rt1. repeat split; assumption.
Qed.

(** The attributes of a class that has been made: those of its body that
    are not columns, then those of its bases. *)
Lemma ModelTableMetaclass_new_namespace (name : string) (bases : list Base)
    (attrs : list (string * class_attr)) (Meta : option Meta)
    (rt rt' : runtime) (cls : TableClass) :
  ModelTableMetaclass_new set_items name bases attrs Meta rt = (inr cls, rt') ->
  namespace cls = (plain_attrs attrs ++ flat_map base_namespace bases)%list.
Proof.
  unfold ModelTableMetaclass_new, mbind, mlift, mret, mraise.
  destruct (ModelTableOptions_init Meta) as [e|opts]; [discriminate|].
  destruct (check_browser_limits name opts _) as [e|[]]; [discriminate|].
  destruct (apply_allow_list opts _) as [e|columns']; [discriminate|].
  destruct (add_auto_columns opts columns' rt) as [[e|auto] rt1]; [discriminate|].
  destruct (register_actions set_items opts rt1) as [[e|acts] rt2]; [discriminate|].
  destruct (_filter_action opts) as [a|].
  - destruct (getitem (action_name a) acts); [|discriminate].
    intros H. inversion H; subst. reflexivity.
  - intros H. inversion H; subst. reflexivity.
Qed.

(** Class creation succeeds when the options are made and the limits of
    the browser are kept. *)
Lemma ModelTableMetaclass_new_ok (name : string) (bases : list Base)
    (attrs : list (string * class_attr)) (Meta : option Meta)
    (opts : ModelTableOptions) (rt : runtime) :
  ModelTableOptions_init Meta = inr opts ->
  check_browser_limits name opts
    (inherit_columns bases
       (sort_by Z.leb (fun x => creation_counter (snd x)) (gather_columns attrs)))
  = inr tt ->
  (forall a, In a (row_actions opts ++ table_actions opts) ->
             In a (set_items (row_actions opts ++ table_actions opts))) ->
  exists cls rt', ModelTableMetaclass_new set_items name bases attrs Meta rt = (inr cls, rt').
Proof.
  intros Hopts Hcheck Hset.
  unfold ModelTableMetaclass_new, mbind, mlift, mret, mraise.
  rewrite Hopts, Hcheck.
  destruct (apply_allow_list_ok opts
              (inherit_columns bases
                 (sort_by Z.leb (fun x => creation_counter (snd x)) (gather_columns attrs))))
    as [columns' ->].
  cbv beta iota delta [ok].
  destruct (add_auto_columns_spec opts columns' rt) as (pre & post & rt1 & -> & _).
  destruct (register_actions_spec opts rt1) as (instances & -> & Hnames & _).
  destruct (_filter_action opts) as [a|] eqn:Hfilter; [|now eexists _, _].
  assert (Hin : In (action_name a) (keys (SortedDict_of instances))).
  { unfold SortedDict_of. apply keys_update_In. right. rewrite Hnames.
    apply in_map. unfold sorted_actions, sort_by.
    eapply Permutation_in; [symmetry; apply stable_sort_perm|].
    apply Hset, in_or_app. right. eapply filter_action_declared; eassumption. }
  apply contains_In, getitem_contains in Hin.
  destruct (getitem (action_name a) (SortedDict_of instances)); [|congruence].
  now eexists _, _.
Qed.
End MetaclassFacts.

Section MetaclassClaims.
Variable set_items : list ActionClass -> list ActionClass.

(** C4. At class definition, the columns that count are those that the
    body of the class declares together with the base columns of its
    bases: [n] is their number. In the browser context ["navigation"] more
    than 3 of them make the class fail with a [ValueError] that names the
    class, and 3 or fewer let it be created; in the context ["content"]
    more than 2 fail and 2 or fewer succeed. So 4 declared columns fail and
    3 succeed for ["navigation"], 3 fail and 2 succeed for ["content"],
    and an inherited column counts as a declared one does. The options are
    those made from [Meta], and the set of actions holds every declared
    action. *)
Theorem browser_column_limits (name : string) (bases : list Base)
    (attrs : list (string * class_attr)) (Meta : option Meta)
    (opts : ModelTableOptions) (rt : runtime) :
  ModelTableOptions_init Meta = inr opts ->
  (forall a, In a (row_actions opts ++ table_actions opts) ->
             In a (set_items (row_actions opts ++ table_actions opts))) ->
  let n := (declared_count attrs + inherited_count bases)%nat in
  let outcome := fst (ModelTableMetaclass_new set_items name bases attrs Meta rt) in
  (browser_table opts = Some "navigation" ->
     ((3 < n)%nat ->
        outcome = inl (ValueError
                         ("You can only assign three column to " ++ name ++ ".")%string))
     /\ ((n <= 3)%nat -> exists cls, outcome = inr cls))
  /\ (browser_table opts = Some "content" ->
     ((2 < n)%nat ->
        outcome = inl (ValueError
                         ("You can only assign two columns to " ++ name ++ ".")%string))
     /\ ((n <= 2)%nat -> exists cls, outcome = inr cls)).
Proof.
  intros Hopts Hset n outcome.
  pose proof (length_collected_counts bases attrs) as Hlen. fold n in Hlen.
  assert (Hfail : forall e,
             check_browser_limits name opts
               (inherit_columns bases
                  (sort_by Z.leb (fun x => creation_counter (snd x))
                     (gather_columns attrs))) = inl e ->
             outcome = inl e).
  { intros e He. unfold outcome, ModelTableMetaclass_new, mbind, mlift.
    rewrite Hopts, He. reflexivity. }
  assert (Hpass : check_browser_limits name opts
                    (inherit_columns bases
                       (sort_by Z.leb (fun x => creation_counter (snd x))
                          (gather_columns attrs))) = inr tt ->
                  exists cls, outcome = inr cls).
  { intros Hcheck.
    destruct (ModelTableMetaclass_new_ok set_items name bases attrs Meta opts rt
                Hopts Hcheck Hset) as (cls & rt' & Hnew).
    exists cls. unfold outcome. now rewrite Hnew. }
  split; intros Hbrowser; (split; intros Hn; [apply Hfail|apply Hpass]);
    unfold check_browser_limits; rewrite Hbrowser, Hlen; simpl.
  - apply Nat.ltb_lt in Hn. now rewrite Hn.
  - apply Nat.ltb_ge in Hn. now rewrite Hn.
  - apply Nat.ltb_lt in Hn. now rewrite Hn.
  - apply Nat.ltb_ge in Hn. now rewrite Hn.
Qed.


(** C6. The action registry of a class, when the set of the declared
    action classes is listed without repetition: each name of a declared
    action has exactly one entry, also when two declared actions share it;
    the names of the registry increase strictly in the order of strings;
    and class creation instantiates every declared action class exactly
    once, each entry of the registry being one of these instances, filed
    under the name of its class. The registry belongs to the class, so all
    tables of the class share it. *)
Theorem action_registry (name : string) (bases : list Base)
    (attrs : list (string * class_attr)) (Meta : option Meta)
    (rt rt' : runtime) (cls : TableClass) :
  ModelTableMetaclass_new set_items name bases attrs Meta rt = (inr cls, rt') ->
  let declared := row_actions (_meta cls) ++ table_actions (_meta cls) in
  NoDup (set_items declared) ->
  (forall a, In a (set_items declared) <-> In a declared) ->
  (forall a, In a declared ->
     length (List.filter (fun e => String.eqb (fst e) (action_name a))
               (base_actions cls)) = 1%nat)
  /\ StronglySorted (fun x y => String.ltb x y = true) (keys (base_actions cls))
  /\ exists made,
      instantiated rt' = instantiated rt ++ made
      /\ NoDup made
      /\ (forall a, In a made <-> In a declared)
      /\ (forall n inst, In (n, inst) (base_actions cls) ->
            action_name (action_class inst) = n
            /\ In (action_class inst) made
            /\ nth_error (instantiated rt') (serial inst) = Some (action_class inst)).
Proof.
  intros Hnew declared Hnodup Hset.
  destruct (ModelTableMetaclass_new_inv set_items _ _ _ _ _ _ _ Hnew)
    as (opts & columns' & auto & rt1 & Hopts & Hcheck & Hallow & Hauto & Hreg
        & Hmeta & Hname & Hbase & Hcols).
  destruct (add_auto_columns_spec opts columns' rt)
    as (pre & post & rt1' & Hauto' & _ & _ & Hsame).
  rewrite Hauto' in Hauto. inversion Hauto; subst auto rt1'; clear Hauto.
  destruct (register_actions_spec set_items opts rt1)
    as (instances & Hreg' & Hnames & Hclasses & Heach).
  rewrite Hreg' in Hreg. inversion Hreg as [[Hactions Hrt]]; clear Hreg.
  subst declared. rewrite Hmeta in *.
  assert (Hperm : Permutation (sorted_actions set_items opts)
                    (set_items (row_actions opts ++ table_actions opts)))
    by apply stable_sort_perm.
  assert (Hkeys : forall k, In k (keys (SortedDict_of instances))
                            <-> In k (map action_name (sorted_actions set_items opts))).
  { intros k. unfold SortedDict_of. rewrite keys_update_In, Hnames. simpl. tauto. }
  split; [|split].
  - intros a Ha. apply one_entry_per_key; [apply SortedDict_of_NoDup|].
    apply Hkeys, in_map. eapply Permutation_in; [symmetry; exact Hperm|].
    now apply Hset.
  - apply keys_SortedDict_of_sorted. rewrite Hnames.
    apply StronglySorted_map with (R := fun x y => String.leb x y = true).
    apply (stable_sort_sorted (fun x y => String.leb (action_name x) (action_name y))).
    + intros x y. apply String.leb_total.
    + intros x y z. apply String_leb_trans.
  - exists (sorted_actions set_items opts). simpl. rewrite Hsame.
    split; [reflexivity|]. split; [|split].
    + eapply Permutation_NoDup; [symmetry; exact Hperm|exact Hnodup].
    + intros a. rewrite <- Hset. split; apply Permutation_in;
        [exact Hperm|symmetry; exact Hperm].
    + intros n inst Hin.
      apply In_update in Hin. destruct Hin as [[]|Hin].
      destruct (Heach n inst Hin) as [Hn Hnth]. rewrite Hsame in Hnth.
      split; [exact Hn|]. split; [|exact Hnth].
      rewrite <- Hclasses.
      change (action_class inst) with ((fun x : string * Action => action_class (snd x)) (n, inst)).
      now apply in_map.
Qed.
End MetaclassClaims.

(** The witness of C4. On a direct subclass of [ModelTable]: four and
    three declared columns in a ["navigation"] table, three and two in a
    ["content"] table. On a subclass of [Volumes], which hands down three
    columns: one declared column more, and none, in a ["navigation"]
    table. On a subclass of a class that hands down two columns: one
    declared column more, and none, in a ["content"] table. *)
Lemma browser_column_limits_witness :
  (fst (ModelTableMetaclass_new Examples.first_seen "Nav4" [Examples.ModelTable_base]
          Examples.four_columns (Some (Examples.browser_Meta "navigation"))
          Examples.fresh_runtime)
   = inl (ValueError "You can only assign three column to Nav4.")
   /\ (exists cls,
         fst (ModelTableMetaclass_new Examples.first_seen "Nav3"
                [Examples.ModelTable_base]
                Examples.three_columns (Some (Examples.browser_Meta "navigation"))
                Examples.fresh_runtime) = inr cls)
   /\ fst (ModelTableMetaclass_new Examples.first_seen "Content3"
             [Examples.ModelTable_base]
             Examples.three_columns (Some (Examples.browser_Meta "content"))
             Examples.fresh_runtime)
      = inl (ValueError "You can only assign two columns to Content3.")
   /\ (exists cls,
         fst (ModelTableMetaclass_new Examples.first_seen "Content2"
                [Examples.ModelTable_base]
                Examples.two_columns (Some (Examples.browser_Meta "content"))
                Examples.fresh_runtime) = inr cls))
  /\ (fst (ModelTableMetaclass_new Examples.first_seen "NavBackups"
             [as_base MoreExamples.Volumes] MoreExamples.state_column
             (Some (Examples.browser_Meta "navigation")) Examples.fresh_runtime)
      = inl (ValueError "You can only assign three column to NavBackups.")
      /\ (exists cls,
            fst (ModelTableMetaclass_new Examples.first_seen "NavVolumes"
                   [as_base MoreExamples.Volumes] []
                   (Some (Examples.browser_Meta "navigation"))
                   Examples.fresh_runtime) = inr cls)
      /\ fst (ModelTableMetaclass_new Examples.first_seen "ContentStates"
                [MoreExamples.two_column_base] MoreExamples.state_column
                (Some (Examples.browser_Meta "content")) Examples.fresh_runtime)
         = inl (ValueError "You can only assign two columns to ContentStates.")
      /\ (exists cls,
            fst (ModelTableMetaclass_new Examples.first_seen "ContentPairs"
                   [MoreExamples.two_column_base] []
                   (Some (Examples.browser_Meta "content"))
                   Examples.fresh_runtime) = inr cls)).
Proof.
  assert (Hset : forall context (a : ActionClass),
             In a (row_actions (Examples.browser_options context)
                   ++ table_actions (Examples.browser_options context)) ->
             In a (Examples.first_seen
                     (row_actions (Examples.browser_options context)
                      ++ table_actions (Examples.browser_options context))))
    by (intros context a []).
  assert (Hnav : forall name bases attrs,
             let n := (declared_count attrs + inherited_count bases)%nat in
             let outcome :=
               fst (ModelTableMetaclass_new Examples.first_seen name bases attrs
                      (Some (Examples.browser_Meta "navigation"))
                      Examples.fresh_runtime) in
             ((3 < n)%nat ->
              outcome = inl (ValueError
                               ("You can only assign three column to " ++ name
                                ++ ".")%string))
             /\ ((n <= 3)%nat -> exists cls, outcome = inr cls)).
  { intros name bases attrs.
    destruct (browser_column_limits Examples.first_seen name bases attrs
                (Some (Examples.browser_Meta "navigation"))
                (Examples.browser_options "navigation") Examples.fresh_runtime
                eq_refl (Hset "navigation")) as [H _].
    exact (H eq_refl). }
  assert (Hcontent : forall name bases attrs,
             let n := (declared_count attrs + inherited_count bases)%nat in
             let outcome :=
               fst (ModelTableMetaclass_new Examples.first_seen name bases attrs
                      (Some (Examples.browser_Meta "content"))
                      Examples.fresh_runtime) in
             ((2 < n)%nat ->
              outcome = inl (ValueError
                               ("You can only assign two columns to " ++ name
                                ++ ".")%string))
             /\ ((n <= 2)%nat -> exists cls, outcome = inr cls)).
  { intros name bases attrs.
    destruct (browser_column_limits Examples.first_seen name bases attrs
                (Some (Examples.browser_Meta "content"))
                (Examples.browser_options "content") Examples.fresh_runtime
                eq_refl (Hset "content")) as [_ H].
    exact (H eq_refl). }
  split; [split; [|split; [|split]]|split; [|split; [|split]]].
  - apply (proj1 (Hnav "Nav4" [Examples.ModelTable_base] Examples.four_columns)).
    vm_compute. lia.
  - apply (proj2 (Hnav "Nav3" [Examples.ModelTable_base] Examples.three_columns)).
    vm_compute. lia.
  - apply (proj1 (Hcontent "Content3" [Examples.ModelTable_base]
                    Examples.three_columns)).
    vm_compute. lia.
  - apply (proj2 (Hcontent "Content2" [Examples.ModelTable_base]
                    Examples.two_columns)).
    vm_compute. lia.
  - apply (proj1 (Hnav "NavBackups" [as_base MoreExamples.Volumes]
                    MoreExamples.state_column)).
    vm_compute. lia.
  - apply (proj2 (Hnav "NavVolumes" [as_base MoreExamples.Volumes] [])).
    vm_compute. lia.
  - apply (proj1 (Hcontent "ContentStates" [MoreExamples.two_column_base]
                    MoreExamples.state_column)).
    vm_compute. lia.
  - apply (proj2 (Hcontent "ContentPairs" [MoreExamples.two_column_base] [])).
    vm_compute. lia.
Defined.



(** The witness of C6: the row actions [DeleteRow] and [DeleteAll], both
    named ["delete"], and the table actions [DeleteRow] and [AddRow]. *)
Lemma action_registry_witness :
  exists cls rt',
    ModelTableMetaclass_new Examples.first_seen "Volumes" [Examples.ModelTable_base]
      Examples.three_columns_body (Some Examples.actions_Meta)
      Examples.fresh_runtime = (inr cls, rt')
    /\ keys (base_actions cls) = ["add"; "delete"]
    /\ StronglySorted (fun x y => String.ltb x y = true) (keys (base_actions cls))
    /\ length (List.filter (fun e => String.eqb (fst e) "delete") (base_actions cls))
       = 1%nat.
Proof.
  eexists _, _. split; [vm_compute; reflexivity|]. split; [reflexivity|].
  refine ((fun H => conj (proj1 (proj2 H)) (proj1 H Examples.DeleteAll _))
            (action_registry Examples.first_seen "Volumes" [Examples.ModelTable_base]
               Examples.three_columns_body (Some Examples.actions_Meta)
               Examples.fresh_runtime _ _ _ _ _)).
  - simpl. tauto.
  - vm_compute. reflexivity.
  - simpl. repeat constructor; simpl; intuition discriminate.
  - intros a. simpl. tauto.
Defined.

(* ===================================================================== *)
(** * Properties of [ModelTable] *)
(* ===================================================================== *)

(** The attributes of a class body that are not columns keep their
    names. *)
Lemma plain_attrs_keys (attrs : list (string * class_attr)) (k : string) :
  In k (map fst (plain_attrs attrs)) -> In k (map fst attrs).
Proof.
  induction attrs as [|[n a] attrs IH]; simpl; [tauto|].
  destruct a as [c|o]; simpl.
  - intros Hin. right. now apply IH.
  - intros [Heq|Hin]; [now left|right; now apply IH].
Qed.

(** An attribute that no base has is not inherited. *)
Lemma bases_without_attribute (bases : list Base) (k : string) :
  (forall base, In base bases -> getitem k (base_namespace base) = None) ->
  getitem k (flat_map base_namespace bases) = None.
Proof.
  induction bases as [|b bases IH]; simpl; intros Hnone; [reflexivity|].
  rewrite getitem_app_None by (apply Hnone; now left).
  apply IH. intros base Hbase. apply Hnone. now right.
Qed.

(** The model that [Meta] names, in the options made from it. *)
Lemma ModelTableOptions_init_model_class (Meta : option Meta) (opts : ModelTableOptions) :
  ModelTableOptions_init Meta = inr opts ->
  model_class opts
  = getattr (match Meta with Some m => Meta_model_class m | None => None end) ONone.
Proof.
  unfold ModelTableOptions_init, DataTableOptions_init.
  destruct (1 <? _)%nat; [discriminate|].
  intros H. inversion H. reflexivity.
Qed.

Section TableFacts.
Variable get_class : string -> result Model.
Variable fields_for_model : Model -> option (list string) -> SortedDict Field.
Variable dict_order : list string -> list string.

(** Reading [_model_class] leaves the class and the runtime as they are,
    and a second reading gives the same model. *)
Lemma _model_class_stable (self self1 : ModelTable) (w w1 : world) (o : pyobj) :
  _model_class get_class self w = (inr (o, self1), w1) ->
  w1 = w
  /\ columns self1 = columns self
  /\ _model_class get_class self1 w = (inr (o, self1), w).
Proof.
  unfold _model_class, mbind, mget, mret, mraise, mlift.
  cbv beta iota.
  destruct (model_class (_meta (world_class w))) as [|s|m| |] eqn:Hmcs;
    cbv beta iota.
  2: { destruct (get_class s) as [e|m]; [discriminate|]. simpl.
       intros H. inversion H; subst; clear H. simpl. auto. }
  all: destruct (obj_truthy (getattr (find_model_class (world_class w) self) _))
         eqn:Htruthy; simpl; [|discriminate].
  all: intros H; inversion H; subst; clear H.
  all: rewrite Htruthy; simpl; auto.
Qed.

(** Without a model, neither in the options nor as an attribute, the
    property [_model_class] raises, and with it the construction of a
    table. *)
Lemma missing_model_fails (w : world) :
  model_class (_meta (world_class w)) = ONone ->
  class_attribute (world_class w) "model_class" = None ->
  ModelTable_init get_class fields_for_model dict_order w
  = (inl missing_model_class, w).
Proof.
  intros Hmeta Hattr.
  unfold ModelTable_init. unfold mbind at 1.
  change (DataTable_init (mkModelTable [] None) w)
    with (@inr exn _ (mkModelTable (_columns (world_class w)) None), w).
  cbv beta iota. unfold mbind at 1.
  unfold _model_class, mbind, mget, mret, mraise, find_model_class.
  cbv beta iota. rewrite Hmeta. cbn [self_model_class]. rewrite Hattr.
  reflexivity.
Qed.

(** The body of the loop makes one column and takes one creation
    counter. *)
Lemma field_column_run (many : list string) (n : string) (field : Field) (w : world) :
  field_column many (n, field) w
  = (inr (n, mkColumn n (getattr (label field) n) None []
               (if py_in String.eqb n many then [filter_m2m] else [])
               (Some field) (Column_creation_counter (world_runtime w))),
     mkWorld (mkRuntime (Column_creation_counter (world_runtime w) + 1)
                (instantiated (world_runtime w)))
       (world_class w)).
Proof. reflexivity. Qed.

(** The columns made from the fields of the model. *)
Lemma field_columns (many : list string) (fields : list (string * Field)) (w : world) :
  exists synthesized w',
    mmap (field_column many) fields w = (inr synthesized, w')
    /\ world_class w' = world_class w
    /\ map fst synthesized = map fst fields
    /\ (forall n field, In (n, field) fields ->
          exists column,
            In (n, column) synthesized
            /\ name column = n
            /\ verbose_name column = getattr (label field) n
            /\ filters column
               = (if py_in String.eqb n many then [filter_m2m] else [])
            /\ form_field column = Some field).
Proof.
  revert w. induction fields as [|[n field] fields IH]; intros w.
  - exists [], w. repeat split. intros ? ? [].
  - cbn [mmap]. unfold mbind at 1. rewrite field_column_run.
    destruct (IH (mkWorld (mkRuntime (Column_creation_counter (world_runtime w) + 1)
                             (instantiated (world_runtime w)))
                    (world_class w)))
      as (synthesized & w' & Hrun & Hclass & Hnames & Heach).
    unfold mbind at 1. rewrite Hrun.
    eexists _, w'. split; [reflexivity|]. split; [exact Hclass|].
    split; [simpl; now rewrite Hnames|].
    intros n' field' [Heq|Hin].
    + inversion Heq; subst. eexists. split; [now left|]. simpl. auto.
    + destruct (Heach n' field' Hin) as (column & Hcol & Hprops).
      exists column. split; [now right|exact Hprops].
Qed.
(** What a successful construction went through. *)
Lemma ModelTable_init_inv (w w' : world) (t : ModelTable) :
  ModelTable_init get_class fields_for_model dict_order w = (inr t, w') ->
  exists model self1 synthesized w1 actions class_columns,
    _model_class get_class (mkModelTable (_columns (world_class w)) None) w
    = (inr (OModel model, self1), w)
    /\ mmap (field_column (many_to_many model))
         (fields_for_model model (opt_columns (_meta (world_class w)))) w
       = (inr synthesized, w1)
    /\ pop "actions" (_columns (world_class w)) = inr (actions, class_columns)
    /\ columns t
       = update class_columns
           (dict_items dict_order (setitem "actions" actions (SortedDict_of synthesized))).
Proof.
  intros H. unfold ModelTable_init in H.
  unfold mbind at 1 in H.
  change (DataTable_init (mkModelTable [] None) w)
    with (@inr exn _ (mkModelTable (_columns (world_class w)) None), w) in H.
  cbv beta iota in H.
  unfold mbind at 1 in H.
  destruct (_model_class get_class _ w) as [[e|[mcls self1]] w1] eqn:Hmc; [discriminate|].
  destruct (_model_class_stable _ _ _ _ _ Hmc) as (-> & Hcols & Hmc2).
  cbv beta iota in H. unfold mbind at 1 in H. unfold mlift at 1 in H.
  destruct (model_of mcls) as [e|model] eqn:Hmodel; [discriminate|].
  destruct mcls; try discriminate. inversion Hmodel; subst m; clear Hmodel.
  unfold mbind at 1 in H. unfold mget at 1 in H. cbv beta iota in H.
  unfold mbind at 1 in H. rewrite Hmc2 in H. cbv beta iota in H.
  unfold mbind at 1 in H. unfold mlift at 1 in H. simpl model_of in H.
  cbv beta iota in H.
  unfold mbind at 1 in H.
  destruct (field_columns (many_to_many model)
              (fields_for_model model (opt_columns (_meta (world_class w)))) w)
    as (synthesized & w1 & Hrun & Hclass & Hnames & Heach).
  cbv beta iota delta [ok] in H.
  rewrite Hrun in H. cbv beta iota in H.
  unfold mbind at 1 in H. unfold mget at 1 in H. cbv beta iota in H.
  unfold mbind at 1 in H. unfold mlift at 1 in H. rewrite Hclass in H.
  destruct (pop "actions" (_columns (world_class w))) as [e|[actions class_columns]] eqn:Hpop;
    [discriminate|].
  cbv beta iota in H.
  unfold mbind, set_class_columns, DataTable_init, mget, mret, mraise in H.
  simpl in H.
  match type of H with
  | context [if ?c then _ else _] => destruct c; [discriminate|]
  end.
  inversion H; subst; clear H. cbn [columns].
  exists model, self1, synthesized, w1, actions, class_columns.
  repeat split; try assumption.
Qed.

Lemma contains_keys {V} (k : string) (d : SortedDict V) :
  contains k d = existsb (String.eqb k) (keys d).
Proof. induction d as [|[k' v'] d IH]; simpl; [reflexivity|now rewrite IH]. Qed.

(** The keys that a plain dictionary yields are those of [dict_order] that
    it holds. *)
Lemma dict_items_keys (d : list (string * Column)) :
  map fst (dict_items dict_order d)
  = List.filter (fun k => contains k d) (dict_order (keys d)).
Proof.
  unfold dict_items. induction (dict_order (keys d)) as [|k l IH]; simpl;
    [reflexivity|].
  rewrite map_app, IH.
  destruct (getitem k d) as [v|] eqn:Hget.
  - assert (Hc : contains k d = true) by (apply getitem_contains; congruence).
    now rewrite Hc.
  - destruct (contains k d) eqn:Hc; [|reflexivity].
    apply getitem_contains in Hc. congruence.
Qed.

Lemma dict_items_In (d : list (string * Column)) (k : string) (v : Column) :
  In k (dict_order (keys d)) -> getitem k d = Some v ->
  In (k, v) (dict_items dict_order d).
Proof.
  intros Hin Hget. unfold dict_items. apply in_flat_map.
  exists k. split; [assumption|]. rewrite Hget. now left.
Qed.
End TableFacts.

Section TableClaims.
Variable get_class : string -> result Model.
Variable fields_for_model : Model -> option (list string) -> SortedDict Field.
Variable dict_order : list string -> list string.

(** C1, with the exception that the code raises. A table class that
    defines neither a model reference nor a data-fetch method cannot be
    instantiated. The class is made by the metaclass; its [Meta] names no
    model, neither its body nor its bases have an attribute [model_class],
    and its body defines neither [get_table_data] nor
    [get_paginator_data]. The construction of a [ModelTable] of this
    class, and of a paginated table alike, raises the plain [Exception] of
    [_model_class], ["Missing model_class or override one of
    get_table_data, get_paginator_data"]: it is not a
    [NotImplementedError]. *)
Theorem no_model_fails_construction
    (set_items : list ActionClass -> list ActionClass)
    (name : string) (bases : list Base) (attrs : list (string * class_attr))
    (Meta : option Meta) (rt rt' rt2 : runtime) (cls : TableClass) :
  ModelTableMetaclass_new set_items name bases attrs Meta rt = (inr cls, rt') ->
  getattr (match Meta with Some m => Meta_model_class m | None => None end) ONone
  = ONone ->
  ~ In "model_class" (map fst attrs) ->
  (forall base, In base bases -> getitem "model_class" (base_namespace base) = None) ->
  ~ In "get_table_data" (map fst attrs) ->
  ~ In "get_paginator_data" (map fst attrs) ->
  fst (ModelTable_init get_class fields_for_model dict_order (mkWorld rt2 cls))
  = inl missing_model_class
  /\ forall (A : Type) (settings_PAGINATION_COUNT : option pyval)
            (attributes : PaginationMixin A),
       fst (PaginatedTable_init get_class fields_for_model dict_order
              settings_PAGINATION_COUNT attributes (mkWorld rt2 cls))
       = inl missing_model_class.
Proof.
  intros Hnew HMeta Hbody Hbases _ _.
  destruct (ModelTableMetaclass_new_inv set_items _ _ _ _ _ _ _ Hnew)
    as (opts & _ & _ & _ & Hopts & _ & _ & _ & _ & Hmeta & _).
  pose proof (ModelTableMetaclass_new_namespace set_items _ _ _ _ _ _ _ Hnew)
    as Hnames.
  assert (Hinit : ModelTable_init get_class fields_for_model dict_order
                    (mkWorld rt2 cls)
                  = (inl missing_model_class, mkWorld rt2 cls)).
  { apply missing_model_fails; cbn [world_class].
    - rewrite Hmeta, (ModelTableOptions_init_model_class _ _ Hopts). exact HMeta.
    - unfold class_attribute. rewrite Hnames.
      rewrite getitem_app_None.
      + now apply bases_without_attribute.
      + apply getitem_None_keys. intros Hin. apply Hbody.
        now apply plain_attrs_keys. }
  split.
  - now rewrite Hinit.
  - intros A settings attributes. unfold PaginatedTable_init. unfold mbind at 1.
    now rewrite Hinit.
Qed.

(** The generic data-fetch method fails in the same way on such a table. *)
Lemma no_model_fails_get_table_data {A} (objects : Model -> string -> result (list A))
    (self : ModelTable) (w : world) :
  model_class (_meta (world_class w)) = ONone ->
  find_model_class (world_class w) self = None ->
  fst (get_table_data get_class objects self w) = inl missing_model_class.
Proof.
  intros Hmeta Hattr. unfold get_table_data. unfold mbind at 1.
  unfold _model_class, mbind, mget, mret, mraise. cbv beta iota.
  rewrite Hmeta, Hattr. reflexivity.
Qed.

(** C9, for the fields that are not named ["actions"]. A table bound to
    [model] that has been constructed: every field that [fields_for_model]
    yields for the model, but one named ["actions"], has a column of its
    name in the table. The column carries the filter [filter_m2m] when the
    name is among the many-to-many fields of the model and no filter
    otherwise; its label is the label of the field, or the name of the
    field when the field has no label; and its form field is the field.
    The fields have distinct names, and the dictionary of the new columns
    yields each of its keys once. *)
Theorem model_field_columns (w w' : world) (t self1 : ModelTable) (model : Model)
    (n : string) (field : Field) :
  ModelTable_init get_class fields_for_model dict_order w = (inr t, w') ->
  _model_class get_class (mkModelTable (_columns (world_class w)) None) w
  = (inr (OModel model, self1), w) ->
  let fields := fields_for_model model (opt_columns (_meta (world_class w))) in
  NoDup (keys fields) ->
  NoDup (dict_order (columns_keys fields)) ->
  (forall k, In k (columns_keys fields) -> In k (dict_order (columns_keys fields))) ->
  In (n, field) fields ->
  n <> "actions" ->
  exists column,
    getitem n (columns t) = Some column
    /\ name column = n
    /\ verbose_name column = getattr (label field) n
    /\ filters column
       = (if py_in String.eqb n (many_to_many model) then [filter_m2m] else [])
    /\ form_field column = Some field.
Proof.
  intros Hinit Hmodel fields Hfields Hnodup Hcover Hin Hname.
  destruct (ModelTable_init_inv get_class fields_for_model dict_order _ _ _ Hinit)
    as (model' & self1' & synthesized & w1 & actions & class_columns
        & Hmodel' & Hrun & Hpop & Hcolumns).
  rewrite Hmodel in Hmodel'. inversion Hmodel'; subst model' self1'; clear Hmodel'.
  fold fields in Hrun.
  destruct (field_columns (many_to_many model) fields w)
    as (synthesized' & w1' & Hrun' & _ & Hnames & Heach).
  rewrite Hrun in Hrun'. inversion Hrun'; subst synthesized' w1'; clear Hrun'.
  destruct (Heach n field Hin) as (column & Hcol & Hprops).
  exists column. split; [|exact Hprops].
  assert (Hdistinct : NoDup (keys synthesized))
    by (unfold keys; rewrite Hnames; exact Hfields).
  rewrite SortedDict_of_distinct in Hcolumns by exact Hdistinct.
  set (d := setitem "actions" actions synthesized) in *.
  assert (Hkeys : keys d = columns_keys fields).
  { unfold d, columns_keys. rewrite keys_setitem, !contains_keys.
    unfold keys. now rewrite Hnames. }
  assert (Hget : getitem n d = Some column).
  { unfold d. rewrite getitem_setitem_other by exact Hname.
    now apply In_getitem. }
  rewrite Hcolumns. apply getitem_update_distinct.
  - rewrite dict_items_keys, Hkeys. now apply NoDup_filter.
  - apply dict_items_In; [|exact Hget].
    rewrite Hkeys. apply Hcover. rewrite <- Hkeys.
    apply contains_In, getitem_contains. congruence.
Qed.
End TableClaims.

(** C1 as the claim states it fails: the class [Plain] has neither a model
    reference nor a data-fetch method of its own, and its construction
    raises no [NotImplementedError]. *)
Lemma no_model_raises_no_NotImplementedError :
  ~ exists msg,
      fst (ModelTable_init Examples.get_class Examples.fields_for_model
             Py27Dict.order Examples.Plain)
      = inl (NotImplementedError msg).
Proof. intros [msg H]. vm_compute in H. discriminate H. Qed.

(** The witness of C1 as amended: the class [Plain]. *)
Lemma no_model_fails_construction_witness :
  fst (ModelTable_init Examples.get_class Examples.fields_for_model
         Py27Dict.order Examples.Plain)
  = inl missing_model_class
  /\ fst (PaginatedTable_init Examples.get_class Examples.fields_for_model
            Py27Dict.order None (new_pagination (inr Examples.thirty))
            Examples.Plain)
     = inl missing_model_class.
Proof.
  destruct (no_model_fails_construction Examples.get_class
              Examples.fields_for_model Py27Dict.order Examples.first_seen
              "Plain" [Examples.ModelTable_base] [] None Examples.fresh_runtime
              (world_runtime Examples.Plain) (world_runtime Examples.Plain)
              (world_class Examples.Plain))
    as [Htable Hpaginated].
  - vm_compute. reflexivity.
  - reflexivity.
  - simpl. tauto.
  - intros base [<-|[]]. reflexivity.
  - simpl. tauto.
  - simpl. tauto.
  - split; [exact Htable|apply Hpaginated].
Defined.

(** C7 fails on the code. The table [Articles] has an actions column and a
    model with the fields [name] and [tags]. The new columns go through a
    plain dictionary, which Python 2 iterates in the order [name],
    [actions], [tags], and so does the registry of the first table made:
    its last column is [tags], not [actions]. *)
Theorem actions_column_not_last :
  exists t w',
    ModelTable_init Examples.get_class Examples.fields_for_model Py27Dict.order
      Examples.Articles = (inr t, w')
    /\ keys (_columns (world_class Examples.Articles)) = ["actions"]
    /\ keys (columns t) = ["name"; "actions"; "tags"]
    /\ last (keys (columns t)) "" = "tags".
Proof. eexists _, _. split; [vm_compute; reflexivity|]. repeat split. Qed.

(** With a dictionary that kept the order of insertion, the same table
    would have its actions column last. *)
Lemma actions_column_last_in_insertion_order :
  exists t w',
    ModelTable_init Examples.get_class Examples.fields_for_model (fun l => l)
      Examples.Articles = (inr t, w')
    /\ keys (columns t) = ["name"; "tags"; "actions"].
Proof. eexists _, _. split; [vm_compute; reflexivity|]. reflexivity. Qed.

(** C9 as the claim states it fails for a field named ["actions"]. The
    model of [Workflows] has the one field [actions], which is
    many-to-many. The column made for it is overwritten by the automatic
    actions column of the class before the columns are merged: the column
    [actions] of the table carries no filter and no form field. *)
Lemma field_named_actions_gets_no_column :
  exists t w',
    ModelTable_init Examples.get_class MoreExamples.workflow_fields Py27Dict.order
      MoreExamples.Workflows = (inr t, w')
    /\ In ("actions", MoreExamples.actions_field)
         (MoreExamples.workflow_fields MoreExamples.Workflow None)
    /\ py_in String.eqb "actions" (many_to_many MoreExamples.Workflow) = true
    /\ (exists column,
          getitem "actions" (columns t) = Some column
          /\ auto column = Some "actions"
          /\ verbose_name column = "Actions"
          /\ filters column = []
          /\ form_field column = None)
    /\ ~ (exists column,
            getitem "actions" (columns t) = Some column
            /\ filters column = [filter_m2m]).
Proof.
  eexists _, _. split; [vm_compute; reflexivity|].
  split; [now left|]. split; [reflexivity|]. split.
  - eexists. split; [vm_compute; reflexivity|]. repeat split.
  - intros (column & Hget & Hfilters). vm_compute in Hget.
    inversion Hget; subst column. discriminate Hfilters.
Qed.

(** The witness of C9: the columns of [Articles] for the many-to-many field
    [tags] and for the scalar field [name]. *)
Lemma model_field_columns_witness :
  exists t w',
    ModelTable_init Examples.get_class Examples.fields_for_model Py27Dict.order
      Examples.Articles = (inr t, w')
    /\ (exists column,
          getitem "tags" (columns t) = Some column
          /\ name column = "tags"
          /\ verbose_name column = "Tags"
          /\ filters column = [filter_m2m]
          /\ form_field column = Some Examples.tags_field)
    /\ (exists column,
          getitem "name" (columns t) = Some column
          /\ name column = "name"
          /\ verbose_name column = "Name"
          /\ filters column = []
          /\ form_field column = Some Examples.name_field).
Proof.
  eexists _, _. split; [vm_compute; reflexivity|].
  split.
  - refine (model_field_columns Examples.get_class Examples.fields_for_model
              Py27Dict.order Examples.Articles _ _ _ Examples.Article
              "tags" Examples.tags_field _ _ _ _ _ _ _).
    + vm_compute. reflexivity.
    + vm_compute. reflexivity.
    + vm_compute. repeat constructor; simpl; intuition discriminate.
    + vm_compute. repeat constructor; simpl; intuition discriminate.
    + vm_compute. tauto.
    + vm_compute. tauto.
    + discriminate.
  - refine (model_field_columns Examples.get_class Examples.fields_for_model
              Py27Dict.order Examples.Articles _ _ _ Examples.Article
              "name" Examples.name_field _ _ _ _ _ _ _).
    + vm_compute. reflexivity.
    + vm_compute. reflexivity.
    + vm_compute. repeat constructor; simpl; intuition discriminate.
    + vm_compute. repeat constructor; simpl; intuition discriminate.
    + vm_compute. tauto.
    + vm_compute. tauto.
    + discriminate.
Defined.

(* ===================================================================== *)
(** * More on the pagination adapter *)
(* ===================================================================== *)

Section PagerFacts.
Context {A : Type}.

(** The table after [self.page = token] on a table whose paginator is
    [p]. *)
Lemma paginator_then_set_page (self self1 : PaginationMixin A) (p : Paginator A)
    (token : pyval) :
  paginator self = (inr p, self1) ->
  paginator (snd (set_page token self1)) = (inr p, snd (set_page token self1)).
Proof.
  intros Hp. destruct (paginator_ok _ _ _ Hp) as (Hcached & _).
  apply paginator_cached. exact Hcached.
Qed.

(** [get_page_data] for a true token that is not ["all"]: the token becomes
    the page of the table, and the page is asked of the paginator; on
    [EmptyPage] the page [num_pages] is asked instead; any other error
    goes to the caller. *)
Lemma get_page_data_run (self self1 : PaginationMixin A) (p : Paginator A)
    (token : pyval) :
  paginator self = (inr p, self1) ->
  truthy token = true ->
  pyval_eq_str token "all" = false ->
  get_page_data token self
  = (match DjangoPaginator.page token p with
     | inr pg => inr (PageOf pg)
     | inl (EmptyPage _) =>
         match DjangoPaginator.num_pages p with
         | inr np =>
             match DjangoPaginator.page (PyInt np) p with
             | inr pg => inr (PageOf pg)
             | inl e => inl e
             end
         | inl e => inl e
         end
     | inl e => inl e
     end,
     snd (set_page token self1)).
Proof.
  intros Hp Htrue Hall.
  pose proof (paginator_then_set_page _ _ _ token Hp) as Hp'.
  unfold get_page_data. unfold mbind at 1. rewrite Hp. cbv beta iota.
  unfold mbind at 1. unfold paginator_truthy. cbn [negb]. unfold mret at 1.
  cbv beta iota. rewrite Htrue.
  unfold mbind at 1.
  destruct (set_page token self1) as [r self2] eqn:Hset.
  assert (Hr : r = inr tt) by (unfold set_page in Hset; now inversion Hset).
  subst r. cbn [snd] in *. cbv beta iota.
  assert (Hpage : page self2 = token)
    by (unfold set_page in Hset; inversion Hset; reflexivity).
  unfold mbind at 1.
  assert (Htry : try_body self2
                 = (match DjangoPaginator.page token p with
                    | inr pg => inr (Some (PageOf pg))
                    | inl e => inl e
                    end, self2)).
  { unfold try_body. unfold mbind at 1. unfold mget at 1. cbv beta iota.
    rewrite Hpage, Hall. cbn [negb]. unfold mbind at 1. rewrite Hp'.
    cbv beta iota. unfold mbind, mlift, mret.
    destruct (DjangoPaginator.page token p); reflexivity. }
  rewrite Htry.
  destruct (DjangoPaginator.page token p) as [e|pg]; [|reflexivity].
  destruct e; try reflexivity.
  unfold except_EmptyPage. unfold mbind at 1. rewrite Hp'. cbv beta iota.
  unfold mbind at 1. rewrite Hp'. cbv beta iota.
  unfold mbind, mlift, mret.
  destruct (DjangoPaginator.num_pages p) as [e|np]; [reflexivity|].
  destruct (DjangoPaginator.page (PyInt np) p); reflexivity.
Qed.
End PagerFacts.

Section PaginatorFacts.
Context {A : Type}.
Variable data : list A.
Variable k : Z.
Hypothesis k_positive : 0 < k.
Hypothesis k_floatable : k < DjangoPaginator.float_overflow.

Let p : Paginator A := mkPaginator data k 0 true.
Let len : Z := Z.of_nat (length data).

(** With a positive page size that a float can hold there is at least one
    page, and the pages are just enough for the records. *)
Lemma num_pages_bounds :
  exists np,
    DjangoPaginator.num_pages p = inr np
    /\ 1 <= np
    /\ (np - 1) * k < Z.max 1 len <= np * k.
Proof.
  unfold DjangoPaginator.num_pages, DjangoPaginator.count.
  cbn [allow_empty_first_page per_page orphans object_list p negb].
  fold len. rewrite Z.sub_0_r, andb_false_r.
  assert (Hfloat : (DjangoPaginator.float_overflow <=? Z.abs k) = false)
    by (apply Z.leb_gt; lia).
  rewrite Hfloat.
  destruct (k =? 0) eqn:Hk; [apply Z.eqb_eq in Hk; lia|].
  eexists. split; [reflexivity|].
  pose proof (Z.div_mod (- Z.max 1 len) k ltac:(lia)) as Hdiv.
  pose proof (Z.mod_pos_bound (- Z.max 1 len) k k_positive) as Hmod.
  set (q := - Z.max 1 len / k) in *. set (r := (- Z.max 1 len) mod k) in *.
  assert (Hhits : 1 <= Z.max 1 len) by lia.
  split; nia.
Qed.

Lemma int_token_not_all (token : pyval) (n : Z) :
  py_int token = Some n -> pyval_eq_str token "all" = false.
Proof.
  destruct token as [s|z]; simpl; [|reflexivity].
  destruct (String.eqb_spec s "all") as [->|]; [discriminate|reflexivity].
Qed.

(** A page number outside [1 .. num_pages] is an [EmptyPage]. *)
Lemma page_out_of_range (token : pyval) (n np : Z) :
  py_int token = Some n ->
  DjangoPaginator.num_pages p = inr np ->
  n < 1 \/ np < n ->
  exists msg, DjangoPaginator.page token p = inl (EmptyPage msg).
Proof.
  intros Hint Hnp Hout.
  destruct num_pages_bounds as (np' & Hnp' & Hone & _).
  rewrite Hnp in Hnp'. inversion Hnp'; subst np'; clear Hnp'.
  unfold DjangoPaginator.page, DjangoPaginator.validate_number, rbind.
  rewrite Hint. destruct (n <? 1) eqn:Hlow; [now eexists|].
  apply Z.ltb_ge in Hlow. rewrite Hnp.
  assert (Hhigh : (n >? np) = true) by (apply Z.gtb_lt; lia).
  rewrite Hhigh.
  assert (Hnot1 : (n =? 1) = false) by (apply Z.eqb_neq; lia).
  rewrite Hnot1. now eexists.
Qed.

(** The page [n] of [1 .. num_pages] holds the records from position
    [(n - 1) * k] on, [k] of them or those that remain. *)
Lemma page_in_range (token : pyval) (n np : Z) :
  py_int token = Some n ->
  DjangoPaginator.num_pages p = inr np ->
  1 <= n <= np ->
  DjangoPaginator.page token p
  = inr (mkPage (firstn (Z.to_nat k) (skipn (Z.to_nat ((n - 1) * k)) data)) n p).
Proof.
  intros Hint Hnp Hin.
  destruct num_pages_bounds as (np' & Hnp' & Hone & Hlow & Hhigh).
  rewrite Hnp in Hnp'. inversion Hnp'; subst np'; clear Hnp'.
  unfold DjangoPaginator.page, DjangoPaginator.validate_number, rbind.
  rewrite Hint.
  assert (H1 : (n <? 1) = false) by (apply Z.ltb_ge; lia).
  assert (H2 : (n >? np) = false) by (rewrite Z.gtb_ltb; apply Z.ltb_ge; lia).
  rewrite H1, Hnp, H2. unfold ok. f_equal. f_equal.
  unfold DjangoPaginator.count. simpl. fold len. rewrite Z.add_0_r.
  set (bottom := (n - 1) * k).
  assert (Hbottom : 0 <= bottom <= len) by (unfold bottom; nia).
  unfold py_slice. fold len. unfold clip_index.
  assert (Hb : (bottom <? 0) = false) by (apply Z.ltb_ge; lia).
  rewrite Hb.
  replace (Z.max 0 (Z.min len bottom)) with bottom by lia.
  destruct (bottom + k >=? len) eqn:Htop.
  - apply Z.geb_le in Htop.
    assert (Hl : (len <? 0) = false) by (apply Z.ltb_ge; unfold len; lia).
    rewrite Hl. replace (Z.max 0 (Z.min len len)) with len by lia.
    rewrite !firstn_all2; [reflexivity| |];
      rewrite length_skipn; unfold len in *; lia.
  - assert (Htop' : bottom + k < len) by (rewrite Z.geb_leb in Htop; apply Z.leb_gt in Htop; lia).
    assert (Hk : (bottom + k <? 0) = false) by (apply Z.ltb_ge; lia).
    rewrite Hk. replace (Z.max 0 (Z.min len (bottom + k))) with (bottom + k) by lia.
    f_equal. lia.
Qed.

(** The last page can always be had. *)
Lemma last_page_ok (np : Z) :
  DjangoPaginator.num_pages p = inr np ->
  DjangoPaginator.page (PyInt np) p
  = inr (mkPage (firstn (Z.to_nat k) (skipn (Z.to_nat ((np - 1) * k)) data)) np p).
Proof.
  intros Hnp. destruct num_pages_bounds as (np' & Hnp' & Hone & _).
  rewrite Hnp in Hnp'. inversion Hnp'; subst np'; clear Hnp'.
  apply page_in_range with (np := np); [reflexivity|exact Hnp|lia].
Qed.
End PaginatorFacts.

Section PagerRequests.
Context {A : Type}.

Lemma int_token_truthy (token : pyval) (n : Z) :
  py_int token = Some n -> token <> PyInt 0 -> truthy token = true.
Proof.
  destruct token as [s|z]; simpl.
  - destruct s; [discriminate|reflexivity].
  - intros _ Hz. apply negb_true_iff, Z.eqb_neq. congruence.
Qed.

(** The first request of a page by number on a table with a positive page
    size: the page served is the one asked for when it exists and the last
    one otherwise, and the token becomes the page of the table. *)
Lemma get_page_data_served (self : PaginationMixin A) (data : list A) (k : Z)
    (token : pyval) (n np : Z) :
  _paginator self = None ->
  get_paginator_data self = inr data ->
  py_int (PAGINATION_COUNT self) = Some k ->
  0 < k ->
  k < DjangoPaginator.float_overflow ->
  py_int token = Some n ->
  token <> PyInt 0 ->
  DjangoPaginator.num_pages (mkPaginator data k 0 true) = inr np ->
  let served := if (1 <=? n) && (n <=? np) then n else np in
  get_page_data token self
  = (inr (PageOf (mkPage (firstn (Z.to_nat k)
                            (skipn (Z.to_nat ((served - 1) * k)) data))
                    served (mkPaginator data k 0 true))),
     mkPagination token (show_all_url self) (PAGINATION_COUNT self)
       (Some (mkPaginator data k 0 true)) (get_paginator_data self)).
Proof.
  intros Hnone Hdata Hsize Hk Hfloat Hint Hzero Hnp served.
  pose proof (paginator_built self data k Hnone Hdata Hsize) as Hp.
  rewrite (get_page_data_run _ _ _ token Hp)
    by (eauto using int_token_truthy, int_token_not_all).
  unfold set_page. cbn [snd page show_all_url PAGINATION_COUNT _paginator
                          get_paginator_data].
  f_equal. unfold served.
  destruct ((1 <=? n) && (n <=? np)) eqn:Hrange.
  - apply andb_true_iff in Hrange. destruct Hrange as [H1 H2].
    apply Z.leb_le in H1, H2.
    now rewrite (page_in_range data k Hk Hfloat token n np Hint Hnp) by lia.
  - assert (Hout : n < 1 \/ np < n).
    { apply andb_false_iff in Hrange.
      destruct Hrange as [H|H]; apply Z.leb_gt in H; lia. }
    destruct (page_out_of_range data k Hk Hfloat token n np Hint Hnp Hout) as [msg ->].
    now rewrite Hnp, (last_page_ok data k Hk Hfloat np Hnp).
Qed.

Lemma firstn_skipn_add (l : list A) (a b : nat) :
  firstn a l ++ firstn b (skipn a l) = firstn (a + b) l.
Proof.
  revert l. induction a as [|a IH]; intros l; simpl; [reflexivity|].
  destruct l as [|x l]; simpl.
  - now rewrite firstn_nil.
  - now rewrite IH.
Qed.

(** Consecutive chunks of [k] records make up the records before them. *)
Lemma concat_chunks (l : list A) (k m : nat) :
  concat (map (fun i => firstn k (skipn (i * k) l)) (seq 0 m)) = firstn (m * k) l.
Proof.
  induction m as [|m IH]; [reflexivity|].
  rewrite seq_S, map_app, concat_app, IH. simpl.
  rewrite app_nil_r, firstn_skipn_add. f_equal. lia.
Qed.
End PagerRequests.

Lemma mbind_mret {S X Y} (a : X) (k : X -> method S Y) (s : S) :
  mbind (mret a) k s = k a s.
Proof. reflexivity. Qed.

Lemma mbind_set_page_same {A Y} (k : unit -> method (PaginationMixin A) Y)
    (self : PaginationMixin A) :
  mbind (set_page (page self)) k self = k tt self.
Proof. unfold mbind, set_page. now destruct self. Qed.

Section PagerProperties.
Context {A : Type}.

(** X1. The first request of a page on a table with fewer than [2**53]
    records and a positive page size that a float can hold. A token that
    is an integer below 1 or above the number of pages, the string ["0"]
    and the negative numbers included, does not fail but is served the
    last page. The integer 0 is set apart: it is a false token, and the
    page served for it is the current page of the table. *)
Theorem out_of_range_page_is_last_page (self : PaginationMixin A)
    (data : list A) (k : Z) (token : pyval) (n np : Z) :
  _paginator self = None ->
  get_paginator_data self = inr data ->
  Z.of_nat (length data) < 2 ^ 53 ->
  py_int (PAGINATION_COUNT self) = Some k ->
  0 < k < DjangoPaginator.float_overflow ->
  py_int token = Some n ->
  token <> PyInt 0 ->
  DjangoPaginator.num_pages (mkPaginator data k 0 true) = inr np ->
  n < 1 \/ np < n ->
  fst (get_page_data token self)
  = inr (PageOf (mkPage (firstn (Z.to_nat k) (skipn (Z.to_nat ((np - 1) * k)) data))
                   np (mkPaginator data k 0 true))).
Proof.
  intros Hnone Hdata _ Hsize [Hk Hfloat] Hint Hzero Hnp Hout.
  rewrite (get_page_data_served self data k token n np) by assumption.
  assert (Hrange : (1 <=? n) && (n <=? np) = false).
  { apply andb_false_iff. destruct Hout; [left|right]; apply Z.leb_gt; lia. }
  cbn [fst]. now rewrite Hrange.
Qed.

(** X2. The first request of a page that exists, on a table with fewer
    than [2**53] records and a positive page size [k] that a float can
    hold: page [n] holds the records from position [(n - 1) * k] on, [k] of
    them or, on the last page, those that remain. *)
Theorem page_holds_its_slice (self : PaginationMixin A)
    (data : list A) (k : Z) (token : pyval) (n np : Z) :
  _paginator self = None ->
  get_paginator_data self = inr data ->
  Z.of_nat (length data) < 2 ^ 53 ->
  py_int (PAGINATION_COUNT self) = Some k ->
  0 < k < DjangoPaginator.float_overflow ->
  py_int token = Some n ->
  DjangoPaginator.num_pages (mkPaginator data k 0 true) = inr np ->
  1 <= n <= np ->
  fst (get_page_data token self)
  = inr (PageOf (mkPage (firstn (Z.to_nat k) (skipn (Z.to_nat ((n - 1) * k)) data))
                   n (mkPaginator data k 0 true))).
Proof.
  intros Hnone Hdata _ Hsize [Hk Hfloat] Hint Hnp Hin.
  assert (Hzero : token <> PyInt 0).
  { intros ->. simpl in Hint. inversion Hint. lia. }
  rewrite (get_page_data_served self data k token n np) by assumption.
  assert (Hrange : (1 <=? n) && (n <=? np) = true).
  { apply andb_true_iff. split; apply Z.leb_le; lia. }
  cbn [fst]. now rewrite Hrange.
Qed.

(** X3. On a table with fewer than [2**53] records and a positive page
    size that a float can hold, the pages [1 .. num_pages], one after the
    other, are the dataset: no record is lost and none comes twice. *)
Theorem pages_make_up_the_dataset (self : PaginationMixin A)
    (data : list A) (k np : Z) :
  _paginator self = None ->
  get_paginator_data self = inr data ->
  Z.of_nat (length data) < 2 ^ 53 ->
  py_int (PAGINATION_COUNT self) = Some k ->
  0 < k < DjangoPaginator.float_overflow ->
  DjangoPaginator.num_pages (mkPaginator data k 0 true) = inr np ->
  concat (map (page_records self) (page_numbers np)) = data.
Proof.
  intros Hnone Hdata _ Hsize [Hk Hfloat] Hnp.
  destruct (num_pages_bounds data k Hk Hfloat) as (np' & Hnp' & Hone & Hlow & Hhigh).
  rewrite Hnp in Hnp'. inversion Hnp'; subst np'; clear Hnp'.
  unfold page_numbers. rewrite map_map.
  rewrite map_ext_in
    with (g := fun i => firstn (Z.to_nat k) (skipn (i * Z.to_nat k) data)).
  - rewrite concat_chunks. apply firstn_all2. nia.
  - intros i Hi. apply in_seq in Hi. unfold page_records.
    rewrite (get_page_data_served self data k (PyInt (Z.of_nat i + 1))
               (Z.of_nat i + 1) np) by (try assumption; try reflexivity;
                                        intros H; inversion H; lia).
    assert (Hrange : (1 <=? Z.of_nat i + 1) && (Z.of_nat i + 1 <=? np) = true).
    { apply andb_true_iff. split; apply Z.leb_le; lia. }
    cbn [fst]. rewrite Hrange. simpl. do 2 f_equal. nia.
Qed.

(** X4. The paginator is built once. Two tables that hold the same
    paginator serve the same page for a token, whatever their data-fetch
    methods now yield and whatever their page sizes and pages are: pages
    come from the records of the first request. *)
Theorem cached_paginator_outlives_data (self self' : PaginationMixin A)
    (p : Paginator A) (token : pyval) :
  _paginator self = Some p ->
  _paginator self' = Some p ->
  truthy token = true ->
  pyval_eq_str token "all" = false ->
  fst (get_page_data token self) = fst (get_page_data token self').
Proof.
  intros Hp Hp' Htrue Hall.
  rewrite (get_page_data_run self self p token) by (auto using paginator_cached).
  rewrite (get_page_data_run self' self' p token) by (auto using paginator_cached).
  reflexivity.
Qed.

(** X5. The first request of a page, on a table with fewer than [2**53]
    records and a positive page size that a float can hold, by a token
    that is an integer and not the number 0 (which is false and is not
    kept). Afterwards the page of the table is the token as given, also
    when another page was served: the page numbers before and after,
    [has_previous] and [has_next] are those of the number asked for. *)
Theorem navigation_follows_the_token (self : PaginationMixin A)
    (data : list A) (k : Z) (token : pyval) (n np : Z) :
  _paginator self = None ->
  get_paginator_data self = inr data ->
  Z.of_nat (length data) < 2 ^ 53 ->
  py_int (PAGINATION_COUNT self) = Some k ->
  0 < k < DjangoPaginator.float_overflow ->
  py_int token = Some n ->
  token <> PyInt 0 ->
  DjangoPaginator.num_pages (mkPaginator data k 0 true) = inr np ->
  let after := snd (get_page_data token self) in
  page after = token
  /\ previous_page_number after = Some (n - 1)
  /\ next_page_number after = Some (n + 1)
  /\ has_previous after = negb (n =? 1)
  /\ fst (has_next after) = inr (n + 1 <=? np).
Proof.
  intros Hnone Hdata _ Hsize [Hk Hfloat] Hint Hzero Hnp after. unfold after.
  rewrite (get_page_data_served self data k token n np) by assumption.
  cbn [snd].
  unfold previous_page_number, next_page_number, has_previous, has_next, get_page.
  unfold mbind at 1. unfold mget at 1. cbv beta iota.
  cbn [page]. rewrite Hint.
  split; [reflexivity|]. split; [reflexivity|]. split; [reflexivity|].
  split; [now destruct (n =? 1)|].
  unfold mbind at 1.
  rewrite paginator_cached with (p := mkPaginator data k 0 true) by reflexivity.
  cbv beta iota. unfold mbind, mlift, mret. rewrite Hnp.
  rewrite Z.gtb_ltb, Z.leb_antisym. now destruct (np <? n + 1).
Qed.


(** X7. A token that is false, the empty string or the number 0, leaves
    the page of the table as it is: the request is that of the current
    page. *)
Theorem false_token_keeps_the_page (self : PaginationMixin A) (token : pyval) :
  truthy token = false ->
  truthy (page self) = true ->
  get_page_data token self = get_page_data (page self) self.
Proof.
  intros Hfalse Htrue. unfold get_page_data.
  unfold mbind at 1. unfold mbind at 4.
  destruct (paginator self) as [[e|p] self1] eqn:Hp; [reflexivity|].
  destruct (paginator_ok _ _ _ Hp) as (_ & Hpage & _).
  cbv beta iota. rewrite Hfalse, Htrue. unfold paginator_truthy. cbn [negb].
  rewrite !mbind_mret. rewrite <- Hpage. now rewrite mbind_set_page_same.
Qed.

(** X8. With the page size 0 the first request of any page by number
    raises [ZeroDivisionError]: the number of pages cannot be computed, nor
    can the request fall back on the last page. *)
Theorem zero_page_size_raises (self : PaginationMixin A) (data : list A)
    (token : pyval) (n : Z) :
  _paginator self = None ->
  get_paginator_data self = inr data ->
  py_int (PAGINATION_COUNT self) = Some 0 ->
  py_int token = Some n ->
  token <> PyInt 0 ->
  fst (get_page_data token self) = inl ZeroDivisionError.
Proof.
  intros Hnone Hdata Hsize Hint Hzero.
  pose proof (paginator_built self data 0 Hnone Hdata Hsize) as Hp.
  rewrite (get_page_data_run _ _ _ token Hp)
    by (eauto using int_token_truthy, int_token_not_all).
  cbn [fst].
  assert (Hnp : DjangoPaginator.num_pages (mkPaginator data 0 0 true)
                = inl ZeroDivisionError).
  { unfold DjangoPaginator.num_pages.
    cbn [allow_empty_first_page per_page negb]. now rewrite andb_false_r. }
  unfold DjangoPaginator.page, DjangoPaginator.validate_number, rbind.
  rewrite Hint, Hnp. destruct (n <? 1); reflexivity.
Qed.

(** X9. A table without records and with a positive page size that a
    float can hold has one page, and it is empty: the first request of a
    page by a token that is an integer, and not the false token 0, is
    served this page, without error. *)
Theorem empty_dataset_has_one_empty_page (self : PaginationMixin A) (k : Z)
    (token : pyval) (n : Z) :
  _paginator self = None ->
  get_paginator_data self = inr [] ->
  py_int (PAGINATION_COUNT self) = Some k ->
  0 < k < DjangoPaginator.float_overflow ->
  py_int token = Some n ->
  token <> PyInt 0 ->
  DjangoPaginator.num_pages (mkPaginator (@nil A) k 0 true) = inr 1
  /\ fst (get_page_data token self)
     = inr (PageOf (mkPage [] 1 (mkPaginator [] k 0 true))).
Proof.
  intros Hnone Hdata Hsize [Hk Hfloat] Hint Hzero.
  destruct (num_pages_bounds (@nil A) k Hk Hfloat) as (np & Hnp & Hone & Hlow & Hhigh).
  assert (np = 1) by (simpl in Hlow; nia). subst np.
  split; [exact Hnp|].
  rewrite (get_page_data_served self [] k token n 1) by assumption.
  cbn [fst]. rewrite skipn_nil, firstn_nil.
  destruct ((1 <=? n) && (n <=? 1)) eqn:Hrange; [|reflexivity].
  apply andb_true_iff in Hrange. destruct Hrange as [H1 H2].
  apply Z.leb_le in H1, H2. now replace n with 1 by lia.
Qed.
End PagerProperties.

(** The witness of X1: page ["0"] of the thirty records is page 2. *)
Lemma out_of_range_page_is_last_page_witness :
  fst (get_page_data (PyStr "0") Examples.thirty_table)
  = inr (PageOf (mkPage (firstn (Z.to_nat 25)
                           (skipn (Z.to_nat ((2 - 1) * 25)) Examples.thirty))
                   2 MoreExamples.thirty_paginator)).
Proof.
  apply (out_of_range_page_is_last_page Examples.thirty_table Examples.thirty 25
           (PyStr "0") 0 2);
    try reflexivity; try discriminate; try lia.
  split; reflexivity.
Defined.

(** The witness of X2: page ["2"] of the thirty records. *)
Lemma page_holds_its_slice_witness :
  fst (get_page_data (PyStr "2") Examples.thirty_table)
  = inr (PageOf (mkPage (firstn (Z.to_nat 25)
                           (skipn (Z.to_nat ((2 - 1) * 25)) Examples.thirty))
                   2 MoreExamples.thirty_paginator)).
Proof.
  apply (page_holds_its_slice Examples.thirty_table Examples.thirty 25
           (PyStr "2") 2 2);
    try reflexivity; try lia.
  split; reflexivity.
Defined.

(** The witness of X3: the two pages of the thirty records. *)
Lemma pages_make_up_the_dataset_witness :
  concat (map (page_records Examples.thirty_table) (page_numbers 2))
  = Examples.thirty.
Proof.
  apply (pages_make_up_the_dataset Examples.thirty_table Examples.thirty 25 2);
    try reflexivity.
  split; reflexivity.
Defined.

(** The witness of X4: the table whose data-fetch method now raises serves
    page ["2"] as the table with the thirty records does. *)
Lemma cached_paginator_outlives_data_witness :
  fst (get_page_data (PyStr "2") MoreExamples.served_table)
  = fst (get_page_data (PyStr "2") MoreExamples.stale_table).
Proof.
  apply (cached_paginator_outlives_data MoreExamples.served_table
           MoreExamples.stale_table MoreExamples.thirty_paginator (PyStr "2"));
    reflexivity.
Defined.

(** The witness of X5: after page ["99"] of the thirty records. *)
Lemma navigation_follows_the_token_witness :
  page (snd (get_page_data (PyStr "99") Examples.thirty_table)) = PyStr "99"
  /\ previous_page_number (snd (get_page_data (PyStr "99") Examples.thirty_table))
     = Some (99 - 1)
  /\ next_page_number (snd (get_page_data (PyStr "99") Examples.thirty_table))
     = Some (99 + 1)
  /\ has_previous (snd (get_page_data (PyStr "99") Examples.thirty_table))
     = negb (99 =? 1)
  /\ fst (has_next (snd (get_page_data (PyStr "99") Examples.thirty_table)))
     = inr (99 + 1 <=? 2).
Proof.
  apply (navigation_follows_the_token Examples.thirty_table Examples.thirty 25
           (PyStr "99") 99 2);
    try reflexivity; try discriminate.
  split; reflexivity.
Defined.


(** The witness of X7: the empty token on the thirty records. *)
Lemma false_token_keeps_the_page_witness :
  get_page_data (PyStr "") Examples.thirty_table
  = get_page_data (page Examples.thirty_table) Examples.thirty_table.
Proof.
  apply (false_token_keeps_the_page Examples.thirty_table (PyStr ""));
    reflexivity.
Defined.

(** The witness of X8: page ["1"] with the page size ["0"]. *)
Lemma zero_page_size_raises_witness :
  fst (get_page_data (PyStr "1") MoreExamples.zero_size_table)
  = inl ZeroDivisionError.
Proof.
  apply (zero_page_size_raises MoreExamples.zero_size_table Examples.thirty
           (PyStr "1") 1);
    try reflexivity; discriminate.
Defined.

(** The witness of X9: page ["3"] of a table without records. *)
Lemma empty_dataset_has_one_empty_page_witness :
  DjangoPaginator.num_pages (mkPaginator (@nil Z) 25 0 true) = inr 1
  /\ fst (get_page_data (PyStr "3") MoreExamples.empty_table)
     = inr (PageOf (mkPage [] 1 (mkPaginator [] 25 0 true))).
Proof.
  apply (empty_dataset_has_one_empty_page MoreExamples.empty_table 25
           (PyStr "3") 3);
    try reflexivity; try discriminate.
  split; reflexivity.
Defined.

(* ===================================================================== *)
(** * More on [ModelTableMetaclass.__new__] *)
(* ===================================================================== *)

Lemma rmap_inv {X Y} (f : X -> result Y) (l : list X) (ys : list Y) :
  rmap f l = ok ys -> Forall2 (fun x y => f x = ok y) l ys.
Proof.
  revert ys. induction l as [|x l IH]; simpl; intros ys H.
  - inversion H. constructor.
  - destruct (f x) as [e|y] eqn:Hx; [discriminate|]. simpl in H.
    destruct (rmap f l) as [e|ys'] eqn:Hl; [discriminate|]. simpl in H.
    inversion H; subst. constructor; [exact Hx|now apply IH].
Qed.

Lemma StronglySorted_map_where {X Y} (P : X -> Prop) (R : X -> X -> Prop)
    (R' : Y -> Y -> Prop) (f : X -> Y) (l : list X) :
  (forall a b, P a -> P b -> R a b -> R' (f a) (f b)) ->
  Forall P l -> StronglySorted R l -> StronglySorted R' (map f l).
Proof.
  intros Himp HP. induction 1 as [|x l Hs IH Hall]; simpl; [constructor|].
  inversion HP as [|? ? Hx HPl]; subst.
  constructor; [now apply IH|].
  rewrite Forall_map. rewrite Forall_forall in *. intros y Hy.
  apply Himp; auto.
Qed.

(** Re-ordering after the allow-list keeps the columns and puts them in the
    order of their places in the list. *)
Lemma reorder_spec (allowed : list string) (columns kept : list (string * Column)) :
  reorder allowed columns = ok kept ->
  Permutation kept columns /\ StronglySorted (listed_before allowed) kept.
Proof.
  unfold reorder, rbind.
  destruct (rmap _ columns) as [e|keyed] eqn:Hkeyed; [discriminate|].
  intros H. inversion H; subst kept; clear H.
  apply rmap_inv in Hkeyed.
  assert (Hsnd : map snd keyed = columns
                 /\ Forall (fun kx => index String.eqb (fst (snd kx)) allowed
                                      = Some (fst kx)) keyed).
  { induction Hkeyed as [|x kx l keyed Hx Hrest IH]; [split; constructor|].
    destruct IH as [IH1 IH2].
    destruct (index String.eqb (fst x) allowed) as [i|] eqn:Hi; [|discriminate].
    inversion Hx; subst kx. simpl. split; [now rewrite IH1|].
    constructor; [exact Hi|exact IH2]. }
  destruct Hsnd as [Hsnd Hkeys].
  assert (Hperm : Permutation (sort_by Nat.leb fst keyed) keyed)
    by apply stable_sort_perm.
  split.
  - rewrite <- Hsnd. now apply Permutation_map.
  - apply StronglySorted_map_where
      with (P := fun kx => index String.eqb (fst (snd kx)) allowed = Some (fst kx))
           (R := fun a b => Nat.leb (fst a) (fst b) = true).
    + intros a b Ha Hb Hab. exists (fst a), (fst b).
      repeat split; try assumption. now apply Nat.leb_le.
    + eapply Permutation_Forall; [symmetry; exact Hperm|exact Hkeys].
    + apply (stable_sort_sorted (fun a b => Nat.leb (fst a) (fst b))).
      * intros a b. rewrite !Nat.leb_le. lia.
      * intros a b c. rewrite !Nat.leb_le. lia.
Qed.

(** The two steps under [if opts.columns:]. *)
Lemma apply_allow_list_spec (opts : ModelTableOptions) (allowed : list string)
    (columns kept : list (string * Column)) :
  opt_columns opts = Some allowed ->
  allowed <> [] ->
  apply_allow_list opts columns = inr kept ->
  Permutation kept
    (List.filter (fun x => py_in String.eqb (fst x) allowed) columns)
  /\ StronglySorted (listed_before allowed) kept.
Proof.
  intros Hlist Hnonempty. unfold apply_allow_list. rewrite Hlist.
  destruct allowed as [|a allowed]; [congruence|].
  rewrite remove_undeclared_filter. cbv beta iota delta [rbind ok].
  apply reorder_spec.
Qed.

(** The automatic columns, as they are made. *)
Lemma add_auto_columns_run (opts : ModelTableOptions)
    (columns : list (string * Column)) (rt : runtime) :
  let with_select :=
    multi_select opts
    && negb (option_eqb String.eqb (browser_table opts) (Some "navigation")) in
  let n := Column_creation_counter rt in
  fst (add_auto_columns opts columns rt)
  = inr ((if with_select then [("multi_select", multi_select_column n)] else [])
         ++ columns
         ++ (if actions_column opts
             then [("actions",
                    actions_column_of (if with_select then n + 1 else n))]
             else [])).
Proof.
  unfold add_auto_columns, mbind, mret, Column_init.
  destruct (multi_select opts
            && negb (option_eqb String.eqb (browser_table opts) (Some "navigation")));
    destruct (actions_column opts); simpl; rewrite ?app_nil_r; reflexivity.
Qed.

Lemma SortedDict_of_snoc {V} (items : list (string * V)) (k : string) (v : V) :
  SortedDict_of (items ++ [(k, v)]) = setitem k v (SortedDict_of items).
Proof. unfold SortedDict_of, update. now rewrite fold_left_app. Qed.

Lemma SortedDict_of_cons_key {V} (k : string) (v : V) (items : list (string * V)) :
  hd "" (keys (SortedDict_of ((k, v) :: items))) = k.
Proof.
  unfold SortedDict_of, update. simpl.
  assert (Hgen : forall l (d : SortedDict V) (v0 : V),
             hd "" (keys (fold_left (fun acc kv => setitem (fst kv) (snd kv) acc) l
                            ((k, v0) :: d))) = k).
  { induction l as [|[k' v'] l IH]; intros d v0; simpl; [reflexivity|].
    destruct (String.eqb k' k); apply IH. }
  apply Hgen.
Qed.

(** The keys of a dictionary keep their places when it is updated. *)
Lemma keys_update_prefix {V} (d : SortedDict V) (items : list (string * V)) :
  exists rest, keys (update d items) = keys d ++ rest.
Proof.
  unfold update. revert d.
  induction items as [|[k v] items IH]; intros d; simpl.
  - exists []. now rewrite app_nil_r.
  - destruct (IH (setitem k v d)) as [rest Hrest]. rewrite Hrest, keys_setitem.
    destruct (contains k d); [now exists rest|].
    exists (k :: rest). now rewrite <- app_assoc.
Qed.

Lemma gather_columns_In (attrs : list (string * class_attr)) (n : string) (c : Column) :
  In (n, AttrColumn c) attrs ->
  In (n, add_class "normal_column" (set_name n c)) (gather_columns attrs).
Proof.
  intros Hin. unfold gather_columns. apply in_flat_map.
  exists (n, AttrColumn c). split; [exact Hin|]. now left.
Qed.

Lemma gather_columns_keys (attrs : list (string * class_attr)) :
  NoDup (map fst attrs) -> NoDup (map fst (gather_columns attrs)).
Proof.
  induction attrs as [|[n a] attrs IH]; simpl; intros Hnd; [constructor|].
  inversion Hnd as [|? ? Hnotin Hnd']; subst.
  destruct a as [c|o]; simpl; [|now apply IH].
  constructor; [|now apply IH].
  intros Hin. apply Hnotin. apply in_map_iff in Hin.
  destruct Hin as ([n' c'] & Heq & Hin). simpl in Heq. subst n'.
  unfold gather_columns in Hin. apply in_flat_map in Hin.
  destruct Hin as ([n'' a'] & Hin & Hx). simpl in Hx.
  destruct a'; simpl in Hx; [|contradiction]. destruct Hx as [Hx|[]].
  inversion Hx; subst. change n with (fst (n, AttrColumn c0)). now apply in_map.
Qed.

Lemma apply_allow_list_subset (opts : ModelTableOptions)
    (columns kept : list (string * Column)) :
  apply_allow_list opts columns = inr kept ->
  forall x, In x kept -> In x columns.
Proof.
  intros Hkept x Hx.
  destruct (opt_columns opts) as [[|a allowed]|] eqn:Hlist.
  - unfold apply_allow_list in Hkept. rewrite Hlist in Hkept.
    inversion Hkept; now subst.
  - destruct (apply_allow_list_spec opts (a :: allowed) columns kept Hlist
                ltac:(discriminate) Hkept) as [Hperm _].
    eapply Permutation_in in Hx; [|exact Hperm].
    now apply filter_In in Hx.
  - unfold apply_allow_list in Hkept. rewrite Hlist in Hkept.
    inversion Hkept; now subst.
Qed.

Section MetaclassMore.
Variable set_items : list ActionClass -> list ActionClass.

(** The columns of a class that has been made. *)
Lemma ModelTableMetaclass_new_columns (name : string) (bases : list Base)
    (attrs : list (string * class_attr)) (Meta : option Meta)
    (rt rt' : runtime) (cls : TableClass) :
  ModelTableMetaclass_new set_items name bases attrs Meta rt = (inr cls, rt') ->
  exists kept,
    apply_allow_list (_meta cls) (collected_columns bases attrs) = inr kept
    /\ base_columns cls = SortedDict_of (collected_columns bases attrs)
    /\ _columns cls
       = SortedDict_of
           ((if multi_select (_meta cls)
                && negb (option_eqb String.eqb (browser_table (_meta cls))
                           (Some "navigation"))
             then [("multi_select",
                    multi_select_column (Column_creation_counter rt))]
             else [])
            ++ kept
            ++ (if actions_column (_meta cls)
                then [("actions",
                       actions_column_of
                         (if multi_select (_meta cls)
                             && negb (option_eqb String.eqb
                                        (browser_table (_meta cls))
                                        (Some "navigation"))
                          then Column_creation_counter rt + 1
                          else Column_creation_counter rt))]
                else [])).
Proof.
  intros Hnew.
  destruct (ModelTableMetaclass_new_inv set_items _ _ _ _ _ _ _ Hnew)
    as (opts & kept & auto & rt1 & Hopts & Hcheck & Hallow & Hauto & Hreg
        & Hmeta & Hname & Hbase & Hcols).
  exists kept. rewrite Hmeta. split; [exact Hallow|]. split; [exact Hbase|].
  rewrite Hcols. f_equal.
  pose proof (add_auto_columns_run opts kept rt) as Hrun.
  rewrite Hauto in Hrun. cbn [fst] in Hrun. now inversion Hrun.
Qed.

(** The filter action of a class that has been made. *)
Lemma ModelTableMetaclass_new_filter (name : string) (bases : list Base)
    (attrs : list (string * class_attr)) (Meta : option Meta)
    (rt rt' : runtime) (cls : TableClass) :
  ModelTableMetaclass_new set_items name bases attrs Meta rt = (inr cls, rt') ->
  match _filter_action (_meta cls) with
  | Some a =>
      exists inst,
        meta_filter_action cls = Some (FilterInstance inst)
        /\ getitem (action_name a) (base_actions cls) = Some inst
  | None => meta_filter_action cls = None
  end.
Proof.
  unfold ModelTableMetaclass_new, mbind, mlift, mret, mraise.
  destruct (ModelTableOptions_init Meta) as [e|opts]; [discriminate|].
  destruct (check_browser_limits name opts _) as [e|[]]; [discriminate|].
  destruct (apply_allow_list opts _) as [e|columns']; [discriminate|].
  destruct (add_auto_columns opts columns' rt) as [[e|auto] rt1]; [discriminate|].
  destruct (register_actions set_items opts rt1) as [[e|acts] rt2]; [discriminate|].
  destruct (_filter_action opts) as [a|] eqn:Hfilter.
  - destruct (getitem (action_name a) acts) as [inst|] eqn:Hget; [|discriminate].
    intros H. inversion H; subst; clear H. simpl. rewrite Hfilter.
    exists inst. split; [reflexivity|exact Hget].
  - intros H. inversion H; subst; clear H. simpl. now rewrite Hfilter.
Qed.
End MetaclassMore.

Section MetaclassProperties.
Variable set_items : list ActionClass -> list ActionClass.

(** X10. With a non-empty allow-list in [Meta.columns], the columns of the
    class between the automatic ones are the collected columns whose names
    are in the list, each kept, none added, in the order of their places in
    the list. A name of the list that no column has is passed over. *)
Theorem allow_list_selects_and_orders (name : string) (bases : list Base)
    (attrs : list (string * class_attr)) (Meta : option Meta)
    (rt rt' : runtime) (cls : TableClass) (allowed : list string) :
  ModelTableMetaclass_new set_items name bases attrs Meta rt = (inr cls, rt') ->
  opt_columns (_meta cls) = Some allowed ->
  allowed <> [] ->
  exists pre kept post,
    _columns cls = SortedDict_of (pre ++ kept ++ post)
    /\ (forall x, In x pre -> fst x = "multi_select")
    /\ (forall x, In x post -> fst x = "actions")
    /\ Permutation kept
         (List.filter (fun x => py_in String.eqb (fst x) allowed)
            (collected_columns bases attrs))
    /\ StronglySorted (listed_before allowed) kept.
Proof.
  intros Hnew Hlist Hnonempty.
  destruct (ModelTableMetaclass_new_columns set_items _ _ _ _ _ _ _ Hnew)
    as (kept & Hallow & _ & Hcols).
  destruct (apply_allow_list_spec _ allowed _ kept Hlist Hnonempty Hallow)
    as [Hperm Hsorted].
  eexists _, kept, _. split; [exact Hcols|].
  split; [|split; [|split; assumption]].
  - intros x Hx. destruct (_ && _); [|contradiction].
    destruct Hx as [<-|[]]. reflexivity.
  - intros x Hx. destruct (actions_column (_meta cls)); [|contradiction].
    destruct Hx as [<-|[]]. reflexivity.
Qed.

(** X11. [Meta] is not inherited, and the allow-list of a class does not
    reach its subclasses. A subclass with an empty body of a class made by
    the metaclass can always be made; it has the default options (no model,
    no allow-list), no actions and no automatic columns, and its columns
    are all the base columns of its parent, those that the parent's
    allow-list dropped among them. *)
Theorem subclass_with_empty_body (parent_name : string) (bases : list Base)
    (attrs : list (string * class_attr)) (Meta : option Meta)
    (rt0 rt1 rt : runtime) (parent : TableClass) (name : string) :
  ModelTableMetaclass_new set_items parent_name bases attrs Meta rt0
  = (inr parent, rt1) ->
  set_items [] = [] ->
  exists cls,
    ModelTableMetaclass_new set_items name [as_base parent] [] None rt
    = (inr cls, rt)
    /\ _columns cls = base_columns parent
    /\ base_columns cls = base_columns parent
    /\ base_actions cls = []
    /\ model_class (_meta cls) = ONone
    /\ opt_columns (_meta cls) = None.
Proof.
  intros Hparent Hempty.
  destruct (ModelTableMetaclass_new_columns set_items _ _ _ _ _ _ _ Hparent)
    as (_ & _ & Hbase & _).
  assert (Hdistinct : NoDup (map fst (base_columns parent)))
    by (rewrite Hbase; apply SortedDict_of_NoDup).
  unfold ModelTableMetaclass_new.
  unfold mbind at 1. unfold mlift at 1.
  change (ModelTableOptions_init None)
    with (@inr exn _ (mkOptions ONone "-id" None None [] [] false false None)).
  cbv beta iota.
  change (inherit_columns [as_base parent] (sort_by Z.leb (fun x => creation_counter (snd x)) (gather_columns [])))
    with (base_columns parent ++ []).
  rewrite app_nil_r, (SortedDict_of_distinct _ Hdistinct).
  unfold mbind, mlift, mret, check_browser_limits, apply_allow_list,
    add_auto_columns, register_actions, sorted_actions.
  cbn [browser_table option_eqb andb opt_columns multi_select actions_column
       row_actions table_actions _filter_action ok app].
  rewrite Hempty. cbn [sort_by stable_sort mmap mret].
  rewrite !mbind_mret. unfold mret. cbv beta iota.
  rewrite (SortedDict_of_distinct _ Hdistinct).
  eexists. split; [reflexivity|]. simpl. repeat split.
Qed.

(** X12. Inheritance of columns. The columns of the bases come first in the
    base columns of a class, in their places; a column that the class
    declares under a name takes the place of an inherited column of that
    name, and every declared column is found under its name, marked as a
    normal column. The class body, a dictionary, has each name once. *)
Theorem declared_column_overrides_inherited (name : string) (bases : list Base)
    (attrs : list (string * class_attr)) (Meta : option Meta)
    (rt rt' : runtime) (cls : TableClass) :
  ModelTableMetaclass_new set_items name bases attrs Meta rt = (inr cls, rt') ->
  NoDup (map fst attrs) ->
  (exists rest,
      keys (base_columns cls)
      = keys (SortedDict_of (inherit_columns bases [])) ++ rest)
  /\ (forall n c, In (n, AttrColumn c) attrs ->
        getitem n (base_columns cls)
        = Some (add_class "normal_column" (set_name n c))).
Proof.
  intros Hnew Hbody.
  destruct (ModelTableMetaclass_new_columns set_items _ _ _ _ _ _ _ Hnew)
    as (_ & _ & Hbase & _).
  set (declared := sort_by Z.leb (fun x => creation_counter (snd x))
                     (gather_columns attrs)).
  assert (Hsplit : base_columns cls
                   = update (SortedDict_of (inherit_columns bases [])) declared).
  { rewrite Hbase. unfold collected_columns. fold declared.
    rewrite inherit_columns_app. unfold SortedDict_of, update.
    now rewrite fold_left_app. }
  assert (Hperm : Permutation declared (gather_columns attrs))
    by apply stable_sort_perm.
  rewrite Hsplit. split; [apply keys_update_prefix|].
  intros n c Hin. apply getitem_update_distinct.
  - eapply Permutation_NoDup;
      [apply Permutation_map; symmetry; exact Hperm|].
    now apply gather_columns_keys.
  - eapply Permutation_in; [symmetry; exact Hperm|].
    now apply gather_columns_In.
Qed.

(** X13. The registries of a class that has been made hold each name once:
    the base columns, the columns and the actions. With multi-select on,
    outside a ["navigation"] browser, the first column is ["multi_select"].
    With the actions column on, the column under the name ["actions"] is
    the automatic one, and it is the last column unless a collected column
    bears that name. *)
Theorem class_registries_well_formed (name : string) (bases : list Base)
    (attrs : list (string * class_attr)) (Meta : option Meta)
    (rt rt' : runtime) (cls : TableClass) :
  ModelTableMetaclass_new set_items name bases attrs Meta rt = (inr cls, rt') ->
  (NoDup (keys (base_columns cls))
   /\ NoDup (keys (_columns cls))
   /\ NoDup (keys (base_actions cls)))
  /\ (multi_select (_meta cls)
      && negb (option_eqb String.eqb (browser_table (_meta cls))
                 (Some "navigation")) = true ->
      hd "" (keys (_columns cls)) = "multi_select")
  /\ (actions_column (_meta cls) = true ->
      (exists c, getitem "actions" (_columns cls) = Some c
                 /\ auto c = Some "actions")
      /\ ((forall x, In x (collected_columns bases attrs) -> fst x <> "actions") ->
          last (keys (_columns cls)) "" = "actions")).
Proof.
  intros Hnew.
  destruct (ModelTableMetaclass_new_columns set_items _ _ _ _ _ _ _ Hnew)
    as (kept & Hallow & Hbase & Hcols).
  destruct (ModelTableMetaclass_new_inv set_items _ _ _ _ _ _ _ Hnew)
    as (opts & _ & _ & rt1 & _ & _ & _ & _ & Hreg & _).
  destruct (register_actions_spec set_items opts rt1) as (instances & Hreg' & _).
  rewrite Hreg' in Hreg. inversion Hreg as [[Hactions Hrt]]; clear Hreg.
  split; [|split].
  - rewrite Hbase, Hcols. try rewrite <- Hactions.
    repeat split; apply SortedDict_of_NoDup.
  - intros Hselect. rewrite Hcols, Hselect. apply SortedDict_of_cons_key.
  - intros Hactions_on. rewrite Hcols, Hactions_on.
    rewrite app_assoc, SortedDict_of_snoc. split.
    + eexists. split; [apply getitem_setitem_same|reflexivity].
    + intros Hfree. rewrite setitem_fresh.
      * unfold keys. rewrite map_app. apply last_last.
      * intros Hin. unfold SortedDict_of in Hin. apply keys_update_In in Hin.
        destruct Hin as [[]|Hin]. rewrite map_app in Hin. apply in_app_or in Hin.
        destruct Hin as [Hin|Hin].
        -- destruct (_ && _); simpl in Hin; [|contradiction].
           destruct Hin as [Hin|[]]. discriminate Hin.
        -- apply in_map_iff in Hin. destruct Hin as (x & Hx & Hin).
           apply (Hfree x); [|exact Hx].
           eapply apply_allow_list_subset; eassumption.
Qed.

(** X14. When the options name a filter action, the class keeps instead of
    it the instance that the action registry holds under its name: an
    instance of an action class of that name, shared with the registry.
    Without a filter action nothing is kept. *)
Theorem filter_action_is_the_registered_instance (name : string)
    (bases : list Base) (attrs : list (string * class_attr)) (Meta : option Meta)
    (rt rt' : runtime) (cls : TableClass) :
  ModelTableMetaclass_new set_items name bases attrs Meta rt = (inr cls, rt') ->
  match _filter_action (_meta cls) with
  | Some a =>
      exists inst,
        meta_filter_action cls = Some (FilterInstance inst)
        /\ getitem (action_name a) (base_actions cls) = Some inst
        /\ action_name (action_class inst) = action_name a
        /\ In a (table_actions (_meta cls))
  | None => meta_filter_action cls = None
  end.
Proof.
  intros Hnew.
  pose proof (ModelTableMetaclass_new_filter set_items _ _ _ _ _ _ _ Hnew) as Hfilter.
  destruct (ModelTableMetaclass_new_inv set_items _ _ _ _ _ _ _ Hnew)
    as (opts & _ & _ & rt1 & Hopts & _ & _ & _ & Hreg & Hmeta & _).
  destruct (_filter_action (_meta cls)) as [a|] eqn:Ha; [|exact Hfilter].
  destruct Hfilter as (inst & Hkept & Hget).
  exists inst. split; [exact Hkept|]. split; [exact Hget|].
  destruct (register_actions_spec set_items opts rt1)
    as (instances & Hreg' & _ & _ & Heach).
  rewrite Hreg' in Hreg. inversion Hreg as [[Hactions Hrt]]; clear Hreg.
  split.
  - apply getitem_In in Hget. try rewrite <- Hactions in Hget.
    apply In_update in Hget. destruct Hget as [[]|Hget].
    now apply Heach in Hget.
  - rewrite Hmeta in *. eapply filter_action_declared; eassumption.
Qed.
End MetaclassProperties.

(** The witness of X10: the class [Volumes] with the allow-list
    [("owner", "name")]. *)
Lemma allow_list_selects_and_orders_witness :
  exists cls rt',
    ModelTableMetaclass_new Examples.first_seen "Volumes" [Examples.ModelTable_base]
      Examples.three_columns_body (Some Examples.allow_list_Meta)
      Examples.fresh_runtime = (inr cls, rt')
    /\ exists pre kept post,
         _columns cls = SortedDict_of (pre ++ kept ++ post)
         /\ (forall x, In x pre -> fst x = "multi_select")
         /\ (forall x, In x post -> fst x = "actions")
         /\ Permutation kept
              (List.filter (fun x => py_in String.eqb (fst x) ["owner"; "name"])
                 (collected_columns [Examples.ModelTable_base]
                    Examples.three_columns_body))
         /\ StronglySorted (listed_before ["owner"; "name"]) kept.
Proof.
  eexists _, _. split; [vm_compute; reflexivity|].
  eapply (allow_list_selects_and_orders Examples.first_seen "Volumes"
           [Examples.ModelTable_base] Examples.three_columns_body
           (Some Examples.allow_list_Meta) Examples.fresh_runtime _ _
           ["owner"; "name"]);
    [vm_compute; reflexivity|reflexivity|discriminate].
Defined.

(** The witness of X11: [class Backups(Volumes): pass] has the three
    columns that [Volumes] declares, though [Volumes] allows two. *)
Lemma subclass_with_empty_body_witness :
  exists cls,
    ModelTableMetaclass_new Examples.first_seen "Backups"
      [as_base MoreExamples.Volumes] [] None Examples.fresh_runtime
    = (inr cls, Examples.fresh_runtime)
    /\ _columns cls = base_columns MoreExamples.Volumes
    /\ base_columns cls = base_columns MoreExamples.Volumes
    /\ base_actions cls = []
    /\ model_class (_meta cls) = ONone
    /\ opt_columns (_meta cls) = None.
Proof.
  refine (subclass_with_empty_body Examples.first_seen "Volumes"
            [Examples.ModelTable_base] Examples.three_columns_body
            (Some Examples.allow_list_Meta) Examples.fresh_runtime
            MoreExamples.Volumes_runtime Examples.fresh_runtime
            MoreExamples.Volumes "Backups" _ eq_refl).
  vm_compute. reflexivity.
Defined.

(** The witness of X12: [class Backups(Volumes)] declares [size] anew. *)
Lemma declared_column_overrides_inherited_witness :
  exists cls rt',
    ModelTableMetaclass_new Examples.first_seen "Backups"
      [as_base MoreExamples.Volumes] MoreExamples.size_again None
      Examples.fresh_runtime = (inr cls, rt')
    /\ keys (base_columns cls) = ["name"; "size"; "owner"]
    /\ (exists rest,
          keys (base_columns cls)
          = keys (SortedDict_of (inherit_columns [as_base MoreExamples.Volumes] []))
            ++ rest)
    /\ getitem "size" (base_columns cls)
       = Some (add_class "normal_column"
                 (set_name "size" (Examples.column "bytes" 7))).
Proof.
  eexists _, _. split; [vm_compute; reflexivity|]. split; [reflexivity|].
  edestruct (declared_column_overrides_inherited Examples.first_seen "Backups"
               [as_base MoreExamples.Volumes] MoreExamples.size_again None
               Examples.fresh_runtime) as [Hprefix Hget].
  - vm_compute. reflexivity.
  - repeat constructor. simpl. tauto.
  - split; [exact Hprefix|]. apply Hget. now left.
Defined.

(** The witness of X13: the class [Volumes] with row and table actions. *)
Lemma class_registries_well_formed_witness :
  exists cls rt',
    ModelTableMetaclass_new Examples.first_seen "Volumes" [Examples.ModelTable_base]
      Examples.three_columns_body (Some Examples.actions_Meta)
      Examples.fresh_runtime = (inr cls, rt')
    /\ (NoDup (keys (base_columns cls))
        /\ NoDup (keys (_columns cls))
        /\ NoDup (keys (base_actions cls)))
    /\ hd "" (keys (_columns cls)) = "multi_select"
    /\ last (keys (_columns cls)) "" = "actions".
Proof.
  eexists _, _. split; [vm_compute; reflexivity|].
  edestruct (class_registries_well_formed Examples.first_seen "Volumes"
               [Examples.ModelTable_base] Examples.three_columns_body
               (Some Examples.actions_Meta) Examples.fresh_runtime)
    as (Hunique & Hfirst & Hlast).
  - vm_compute. reflexivity.
  - split; [exact Hunique|]. split; [exact (Hfirst eq_refl)|].
    apply (Hlast eq_refl). vm_compute. intuition (subst; discriminate).
Defined.

(** The witness of X14: the class [Volumes] with the filter action
    [FilterRows]. *)
Lemma filter_action_is_the_registered_instance_witness :
  exists cls rt',
    ModelTableMetaclass_new Examples.first_seen "Volumes" [Examples.ModelTable_base]
      Examples.three_columns_body (Some MoreExamples.filter_Meta)
      Examples.fresh_runtime = (inr cls, rt')
    /\ exists inst,
         meta_filter_action cls = Some (FilterInstance inst)
         /\ getitem "filter" (base_actions cls) = Some inst
         /\ action_name (action_class inst) = "filter"
         /\ In MoreExamples.FilterRows (table_actions (_meta cls)).
Proof.
  destruct (ModelTableMetaclass_new Examples.first_seen "Volumes"
              [Examples.ModelTable_base] Examples.three_columns_body
              (Some MoreExamples.filter_Meta) Examples.fresh_runtime)
    as [[e|cls] rt'] eqn:Hnew; [vm_compute in Hnew; discriminate Hnew|].
  exists cls, rt'. split; [reflexivity|].
  pose proof (filter_action_is_the_registered_instance Examples.first_seen
                "Volumes" [Examples.ModelTable_base] Examples.three_columns_body
                (Some MoreExamples.filter_Meta) Examples.fresh_runtime rt' cls
                Hnew) as Hfilter.
  vm_compute in Hnew. injection Hnew as Hcls Hrt. subst cls rt'.
  exact Hfilter.
Defined.

(* ===================================================================== *)
(** * More on [ModelTable] *)
(* ===================================================================== *)

Lemma delitem_keeps {V} (k k' : string) (d : SortedDict V) :
  In k (keys d) -> k <> k' -> In k (keys (delitem k' d)).
Proof.
  induction d as [|[k0 v0] d IH]; simpl; [tauto|].
  intros Hin Hne. destruct (String.eqb_spec k' k0) as [->|Hne0]; simpl.
  - destruct Hin; [congruence|assumption].
  - destruct Hin; [now left|right; now apply IH].
Qed.

(** Updating with keys that are all there leaves the keys as they are. *)
Lemma keys_update_known {V} (d : SortedDict V) (items : list (string * V)) :
  (forall k, In k (map fst items) -> In k (keys d)) ->
  keys (update d items) = keys d.
Proof.
  unfold update. revert d.
  induction items as [|[k v] items IH]; intros d Hknown; simpl; [reflexivity|].
  assert (Hk : In k (keys d)) by (apply Hknown; now left).
  rewrite IH.
  - now apply keys_setitem_present.
  - intros k' Hk'. rewrite keys_setitem_present by exact Hk.
    apply Hknown. now right.
Qed.

(** Updating with keys of which one is new puts that key last. *)
Lemma keys_update_one_new {V} (d : SortedDict V) (items : list (string * V))
    (k0 : string) :
  (forall k, In k (map fst items) -> k = k0 \/ In k (keys d)) ->
  ~ In k0 (keys d) ->
  In k0 (map fst items) ->
  keys (update d items) = keys d ++ [k0].
Proof.
  revert d.
  induction items as [|[k v] items IH]; intros d Hkeys Hnew Hin; [contradiction|].
  change (update d ((k, v) :: items)) with (update (setitem k v d) items).
  destruct (String.eqb_spec k k0) as [->|Hne].
  - rewrite keys_update_known.
    + rewrite keys_setitem.
      destruct (contains k0 d) eqn:Hc; [|reflexivity].
      apply contains_In in Hc. contradiction.
    + intros k' Hk'. rewrite keys_setitem.
      destruct (contains k0 d) eqn:Hc.
      * apply contains_In in Hc. contradiction.
      * apply in_or_app.
        destruct (Hkeys k') as [->|Hd]; [now right| |now left]; simpl; auto.
  - assert (Hk : In k (keys d)).
    { destruct (Hkeys k) as [Heq|Hd]; [now left|congruence|exact Hd]. }
    rewrite IH.
    + now rewrite keys_setitem_present.
    + intros k' Hk'. rewrite keys_setitem_present by exact Hk.
      apply Hkeys. now right.
    + now rewrite keys_setitem_present.
    + destruct Hin as [Heq|Hin]; [simpl in Heq; congruence|exact Hin].
Qed.

Section TableMore.
Variable get_class : string -> result Model.
Variable fields_for_model : Model -> option (list string) -> SortedDict Field.
Variable dict_order : list string -> list string.

(** [_model_class] returns a true value or raises. *)
Lemma _model_class_true (self self1 : ModelTable) (w w1 : world) (o : pyobj) :
  _model_class get_class self w = (inr (o, self1), w1) -> obj_truthy o = true.
Proof.
  unfold _model_class, mbind, mget, mret, mraise, mlift. cbv beta iota.
  destruct (model_class (_meta (world_class w))) as [|s|m| |]; cbv beta iota.
  2: { destruct (get_class s) as [e|m]; [discriminate|]. simpl.
       intros H. now inversion H. }
  all: destruct (obj_truthy (getattr (find_model_class (world_class w) self) _))
         eqn:Htruthy; simpl; [|discriminate].
  all: intros H; inversion H; subst; exact Htruthy.
Qed.

(** The model of a table without a [model_class] attribute of its own
    depends on the options and the attributes of the class alone. *)
Lemma _model_class_frame (w w2 : world) (c c2 : SortedDict Column)
    (o : pyobj) (self1 : ModelTable) :
  _meta (world_class w2) = _meta (world_class w) ->
  namespace (world_class w2) = namespace (world_class w) ->
  _model_class get_class (mkModelTable c None) w = (inr (o, self1), w) ->
  _model_class get_class (mkModelTable c2 None) w2
  = (inr (o, mkModelTable c2 (self_model_class self1)), w2).
Proof.
  intros Hmeta Hnames.
  unfold _model_class, mbind, mget, mret, mraise, mlift, find_model_class,
    class_attribute.
  cbv beta iota. rewrite Hmeta, Hnames. cbn [self_model_class columns].
  destruct (model_class (_meta (world_class w))) as [|s|m| |]; cbv beta iota.
  2: { destruct (get_class s) as [e|m]; [discriminate|]. simpl.
       intros H. inversion H; subst. reflexivity. }
  all: simpl.
  all: match goal with
       | |- context [obj_truthy ?x] => destruct (obj_truthy x) eqn:Htruthy
       end; simpl; [|discriminate].
  all: intros H; inversion H; subst; reflexivity.
Qed.

(** The construction of a table whose model is found, step by step. *)
Lemma ModelTable_init_run (w : world) (model : Model) (self1 : ModelTable) :
  _model_class get_class (mkModelTable (_columns (world_class w)) None) w
  = (inr (OModel model, self1), w) ->
  exists synthesized w1,
    mmap (field_column (many_to_many model))
      (fields_for_model model (opt_columns (_meta (world_class w)))) w
    = (inr synthesized, w1)
    /\ world_class w1 = world_class w
    /\ ModelTable_init get_class fields_for_model dict_order w
       = match pop "actions" (_columns (world_class w)) with
         | inl e => (inl e, w1)
         | inr (actions, class_columns) =>
             let merged :=
               update class_columns
                 (dict_items dict_order
                    (setitem "actions" actions (SortedDict_of synthesized))) in
             let cls := world_class w in
             let cls' :=
               mkTableClass (cls_name cls) (namespace cls) (_meta cls)
                 (meta_filter_action cls) (base_columns cls) merged
                 (base_actions cls) in
             let self := mkModelTable merged (self_model_class self1) in
             (if negb match class_attribute cls "get_table_data" with
                      | Some f => callable f
                      | None => false
                      end
                 && negb match find_model_class cls self1 with
                         | Some _ => true
                         | None => false
                         end
              then inl (must_define "get_table_data" ("or" ++ spaces 38)%string
                          (cls_name cls))
              else inr self,
              mkWorld (world_runtime w1) cls')
         end.
Proof.
  intros Hmc.
  destruct (_model_class_stable get_class _ _ _ _ _ Hmc) as (_ & Hcols & Hmc2).
  destruct (field_columns (many_to_many model)
              (fields_for_model model (opt_columns (_meta (world_class w)))) w)
    as (synthesized & w1 & Hrun & Hclass & Hnames & Heach).
  exists synthesized, w1. split; [exact Hrun|]. split; [exact Hclass|].
  unfold ModelTable_init.
  unfold mbind at 1.
  change (DataTable_init (mkModelTable [] None) w)
    with (@inr exn _ (mkModelTable (_columns (world_class w)) None), w).
  cbv beta iota.
  unfold mbind at 1. rewrite Hmc. cbv beta iota.
  unfold mbind at 1. unfold mlift at 1. cbn [model_of]. cbv beta iota delta [ok].
  unfold mbind at 1. unfold mget at 1. cbv beta iota.
  unfold mbind at 1. rewrite Hmc2. cbv beta iota.
  unfold mbind at 1. unfold mlift at 1. cbn [model_of]. cbv beta iota delta [ok].
  unfold mbind at 1. rewrite Hrun. cbv beta iota.
  unfold mbind at 1. unfold mget at 1. cbv beta iota.
  unfold mbind at 1. unfold mlift at 1. rewrite Hclass.
  destruct (pop "actions" (_columns (world_class w))) as [e|[actions class_columns]];
    [reflexivity|].
  cbv beta iota.
  unfold mbind, set_class_columns, DataTable_init, mget, mret, mraise.
  cbv beta iota zeta. cbn [world_class world_runtime _columns cls_name namespace
                            _meta meta_filter_action base_columns base_actions
                            self_model_class columns].
  rewrite Hclass.
  cbv beta iota zeta delta [mbind].
  cbn [world_class world_runtime _columns cls_name namespace
       _meta meta_filter_action base_columns base_actions
       self_model_class columns].
  unfold class_attribute, find_model_class.
  cbn [namespace self_model_class].
  destruct (negb _ && negb _); reflexivity.
Qed.

(** The keys of the dictionary [columns], for fields with distinct names. *)
Lemma columns_dict_keys (fields : SortedDict Field)
    (synthesized : list (string * Column)) (actions : Column) :
  map fst synthesized = map fst fields ->
  NoDup (keys fields) ->
  SortedDict_of synthesized = synthesized
  /\ keys (setitem "actions" actions synthesized) = columns_keys fields.
Proof.
  intros Hnames Hfields. split.
  - apply SortedDict_of_distinct. now rewrite Hnames.
  - unfold columns_keys. rewrite keys_setitem, !contains_keys.
    unfold keys. now rewrite Hnames.
Qed.

Lemma actions_in_columns_keys (fields : SortedDict Field) :
  In "actions" (columns_keys fields).
Proof.
  unfold columns_keys. destruct (contains "actions" fields) eqn:Hc.
  - now apply contains_In.
  - apply in_or_app. right. now left.
Qed.

(** What a plain dictionary yields are items of the dictionary. *)
Lemma dict_items_sound (d : list (string * Column)) (k : string) :
  In k (map fst (dict_items dict_order d)) -> In k (keys d).
Proof.
  rewrite dict_items_keys. intros Hin. apply filter_In in Hin.
  now apply contains_In.
Qed.

(** A plain dictionary that yields all its keys puts them all into the
    dictionary that is updated with it. *)
Lemma update_with_dict_covers (base d : list (string * Column)) (k : string) :
  (forall k', In k' (keys d) -> In k' (dict_order (keys d))) ->
  In k (keys d) ->
  In k (keys (update base (dict_items dict_order d))).
Proof.
  intros Hcover Hin. apply keys_update_In. right.
  destruct (getitem k d) as [v|] eqn:Hget.
  - change k with (fst (k, v)). apply in_map.
    apply dict_items_In; [now apply Hcover|exact Hget].
  - apply contains_In, getitem_contains in Hin. congruence.
Qed.

Lemma pop_inv {V} (k : string) (d : SortedDict V) (v : V) (rest : SortedDict V) :
  pop k d = inr (v, rest) -> getitem k d = Some v /\ rest = delitem k d.
Proof.
  unfold pop. destruct (getitem k d); [|discriminate].
  intros H. inversion H. auto.
Qed.
(** The model of a class whose [Meta.model_class] is a name. *)
Lemma _model_class_string (self : ModelTable) (w : world) (s : string) :
  model_class (_meta (world_class w)) = OStr s ->
  _model_class get_class self w
  = match get_class s with
    | inl e => (inl e, w)
    | inr m => (inr (OModel m, mkModelTable (columns self) (Some (OModel m))), w)
    end.
Proof.
  intros Hstr.
  unfold _model_class, mbind, mget, mret, mraise, mlift, find_model_class.
  cbv beta iota. rewrite Hstr.
  destruct (get_class s) as [e|m]; reflexivity.
Qed.

(** The first steps of the construction, up to the model. *)
Lemma ModelTable_init_fails (w w1 : world) (e : exn) :
  _model_class get_class (mkModelTable (_columns (world_class w)) None) w
  = (inl e, w1) ->
  ModelTable_init get_class fields_for_model dict_order w = (inl e, w1).
Proof.
  intros Hmc. unfold ModelTable_init. unfold mbind at 1.
  change (DataTable_init (mkModelTable [] None) w)
    with (@inr exn _ (mkModelTable (_columns (world_class w)) None), w).
  cbv beta iota. unfold mbind at 1. now rewrite Hmc.
Qed.

Lemma ModelTable_init_no_model (w : world) (o : pyobj) (self1 : ModelTable) (e : exn) :
  _model_class get_class (mkModelTable (_columns (world_class w)) None) w
  = (inr (o, self1), w) ->
  model_of o = inl e ->
  ModelTable_init get_class fields_for_model dict_order w = (inl e, w).
Proof.
  intros Hmc Hmodel. unfold ModelTable_init. unfold mbind at 1.
  change (DataTable_init (mkModelTable [] None) w)
    with (@inr exn _ (mkModelTable (_columns (world_class w)) None), w).
  cbv beta iota. unfold mbind at 1. rewrite Hmc. cbv beta iota.
  unfold mbind at 1. unfold mlift at 1. now rewrite Hmodel.
Qed.
End TableMore.

(* ===================================================================== *)
(** ** Further properties of [ModelTable] and of the paginated tables *)
(* ===================================================================== *)

Section TableProperties.
Variable get_class : string -> result Model.
Variable fields_for_model : Model -> option (list string) -> SortedDict Field.
Variable dict_order : list string -> list string.

(** X15. A model table without an actions column cannot be constructed.
    The class is made by the metaclass from a [Meta] that names no row
    actions and does not set [actions_column], and no column of the class
    is declared under the name ["actions"]: its registry [_columns] has no
    entry ["actions"]. When the model of the table is found,
    [self._columns.pop("actions")] raises [KeyError("actions")], and the
    class is left as it was. *)
Theorem table_without_row_actions_raises_KeyError
    (set_items : list ActionClass -> list ActionClass)
    (name : string) (bases : list Base) (attrs : list (string * class_attr))
    (Meta : option Meta) (rt rt' rt2 : runtime) (cls : TableClass)
    (model : Model) (self1 : ModelTable) :
  ModelTableMetaclass_new set_items name bases attrs Meta rt = (inr cls, rt') ->
  match Meta with Some m => Meta_actions_column m | None => None end = None ->
  match Meta with Some m => getattr (Meta_row_actions m) [] | None => [] end = [] ->
  ~ In "actions" (map fst (collected_columns bases attrs)) ->
  _model_class get_class (mkModelTable (_columns cls) None) (mkWorld rt2 cls)
  = (inr (OModel model, self1), mkWorld rt2 cls) ->
  getitem "actions" (_columns cls) = None
  /\ exists w',
       ModelTable_init get_class fields_for_model dict_order (mkWorld rt2 cls)
       = (inl (KeyError "actions"), w')
       /\ world_class w' = cls.
Proof.
  intros Hnew Hcolumn Hrows Hdeclared Hmc.
  assert (Hoff : actions_column (_meta cls) = false).
  { destruct (ModelTableMetaclass_new_inv set_items _ _ _ _ _ _ _ Hnew)
      as (opts & _ & _ & _ & Hopts & _ & _ & _ & _ & Hmeta & _).
    rewrite Hmeta. clear - Hopts Hcolumn Hrows.
    unfold ModelTableOptions_init, DataTableOptions_init in Hopts.
    destruct (1 <? _)%nat; [discriminate|].
    inversion Hopts; subst opts; clear Hopts. cbn [actions_column].
    destruct Meta as [m|]; [|reflexivity].
    rewrite Hcolumn. cbn [getattr].
    destruct (Meta_row_actions m) as [l|]; [|reflexivity].
    cbn [getattr] in Hrows. now subst l. }
  assert (Hnone : getitem "actions" (_columns cls) = None).
  { destruct (ModelTableMetaclass_new_columns set_items _ _ _ _ _ _ _ Hnew)
      as (kept & Hallow & _ & Hcols).
    apply getitem_None_keys. rewrite Hcols, Hoff.
    unfold SortedDict_of. rewrite keys_update_In. intros [[]|Hin].
    rewrite !map_app, !in_app_iff in Hin. destruct Hin as [Hin|[Hin|[]]].
    - destruct (multi_select (_meta cls) && _); simpl in Hin.
      + destruct Hin as [Heq|[]]. discriminate Heq.
      + contradiction.
    - apply Hdeclared. apply in_map_iff in Hin. destruct Hin as (x & Hx & Hin).
      rewrite <- Hx. apply in_map.
      eapply apply_allow_list_subset; eassumption. }
  split; [exact Hnone|].
  destruct (ModelTable_init_run get_class fields_for_model dict_order
              (mkWorld rt2 cls) model self1 Hmc)
    as (synthesized & w1 & _ & Hclass & Hinit).
  exists w1. split; [|exact Hclass].
  rewrite Hinit. cbn [world_class]. unfold pop. now rewrite Hnone.
Qed.

(** X16. A model given by its name in [Meta.model_class] is looked up with
    [get_class]. When the lookup raises, the construction of the table
    raises the same exception and the class is left as it was; when it
    returns a model, a table that has been constructed keeps that model as
    its own attribute [model_class]. *)
Theorem model_name_is_resolved (w : world) (s : string) :
  model_class (_meta (world_class w)) = OStr s ->
  (forall e, get_class s = inl e ->
     ModelTable_init get_class fields_for_model dict_order w = (inl e, w))
  /\ (forall m t w',
        get_class s = inr m ->
        ModelTable_init get_class fields_for_model dict_order w = (inr t, w') ->
        self_model_class t = Some (OModel m)).
Proof.
  intros Hstr.
  pose proof (_model_class_string get_class
                (mkModelTable (_columns (world_class w)) None) w s Hstr) as Hmc.
  split.
  - intros e Hfail. rewrite Hfail in Hmc.
    now apply ModelTable_init_fails.
  - intros m t w' Hfound Hinit. rewrite Hfound in Hmc.
    destruct (ModelTable_init_run get_class fields_for_model dict_order
                w m _ Hmc) as (synthesized & w1 & _ & _ & Hrun).
    rewrite Hrun in Hinit.
    destruct (pop "actions" (_columns (world_class w))) as [e|[actions rest]];
      [discriminate|].
    cbv zeta in Hinit.
    destruct (negb _ && negb _); [discriminate|].
    inversion Hinit. reflexivity.
Qed.

(** X17. What the property [_model_class] returns is never a false value:
    it is not [None] and not the empty string, and the class and the
    runtime are as before. A missing model makes it raise instead. *)
Theorem model_class_is_never_false (self self1 : ModelTable) (w w1 : world)
    (o : pyobj) :
  _model_class get_class self w = (inr (o, self1), w1) ->
  obj_truthy o = true /\ o <> ONone /\ o <> OStr "" /\ w1 = w.
Proof.
  intros Hmc.
  pose proof (_model_class_true get_class _ _ _ _ _ Hmc) as Htrue.
  destruct (_model_class_stable get_class _ _ _ _ _ Hmc) as (Hw & _).
  split; [exact Htrue|].
  split; [|split; [|exact Hw]]; intros ->; discriminate Htrue.
Qed.

(** X18. The generic data-fetch method. Where [_model_class] gives a
    model class, [get_table_data] is the query for the objects of that
    model in the order of [Meta.order_by], and the errors of the query are
    its errors. Where [_model_class] gives another value, [get_table_data]
    raises an [AttributeError], for the value has no manager [objects].
    The exception of the method itself, ["you must specify ``model_class``
    or override get_table_data"], is never raised, whether the class
    overrides the method or not. The order key of a class whose [Meta]
    names none is ["-id"]. *)
Theorem get_table_data_is_the_ordered_query {A}
    (objects : Model -> string -> result (list A))
    (self self1 : ModelTable) (w : world) (o : pyobj) :
  _model_class get_class self w = (inr (o, self1), w) ->
  (forall model,
     o = OModel model ->
     get_table_data get_class objects self w
     = (match objects model (order_by (_meta (world_class w))) with
        | inl e => inl e
        | inr object_list => inr (object_list, self1)
        end, w))
  /\ ((forall model, o <> OModel model) ->
      exists msg,
        get_table_data get_class objects self w = (inl (AttributeError msg), w))
  /\ forall Meta opts,
       ModelTableOptions_init Meta = inr opts ->
       order_by opts
       = match Meta with
         | Some m => getattr (Meta_order_by m) "-id"
         | None => "-id"
         end.
Proof.
  intros Hmc.
  assert (Hrun : get_table_data get_class objects self w
                 = (match objects_of o with
                    | inl e => inl e
                    | inr model =>
                        match objects model (order_by (_meta (world_class w))) with
                        | inl e => inl e
                        | inr object_list => inr (object_list, self1)
                        end
                    end, w)).
  { pose proof (_model_class_true get_class _ _ _ _ _ Hmc) as Htrue.
    destruct (_model_class_stable get_class _ _ _ _ _ Hmc) as (_ & _ & Hmc2).
    unfold get_table_data. unfold mbind at 1. rewrite Hmc. cbv beta iota.
    unfold mbind at 1. unfold mget at 1. cbv beta iota zeta.
    replace (match o with ONone => true | _ => false end) with false
      by (destruct o; [discriminate Htrue|reflexivity..]).
    cbn [andb].
    unfold mbind at 1. rewrite Hmc2. cbv beta iota.
    unfold mbind, mlift, mret.
    destruct (objects_of o) as [e|model]; [reflexivity|].
    destruct (objects model _) as [e|object_list]; reflexivity. }
  split; [|split].
  - intros model ->. exact Hrun.
  - intros Hother. rewrite Hrun.
    destruct o as [|s|m| |]; try (now eexists).
    now destruct (Hother m).
  - intros Meta opts Hopts.
    unfold ModelTableOptions_init, DataTableOptions_init in Hopts.
    destruct (1 <? _)%nat; [discriminate|].
    inversion Hopts. cbn [order_by]. now destruct Meta.
Qed.

(** X19. The construction of a table rewrites the registry of its class.
    After a table has been constructed, the registry [_columns] of the
    class is the dictionary of the columns of the table. The columns that
    the class had, but ["actions"], keep their places at its head, in
    their order; no name comes twice; and the name, the attributes, the
    options, the declared columns and the actions of the class are as
    before. *)
Theorem construction_rewrites_class_registry (w w' : world) (t : ModelTable) :
  ModelTable_init get_class fields_for_model dict_order w = (inr t, w') ->
  NoDup (keys (_columns (world_class w))) ->
  _columns (world_class w') = columns t
  /\ (exists added,
        keys (columns t)
        = (keys (delitem "actions" (_columns (world_class w))) ++ added)%list)
  /\ NoDup (keys (columns t))
  /\ cls_name (world_class w') = cls_name (world_class w)
  /\ namespace (world_class w') = namespace (world_class w)
  /\ _meta (world_class w') = _meta (world_class w)
  /\ base_columns (world_class w') = base_columns (world_class w)
  /\ base_actions (world_class w') = base_actions (world_class w).
Proof.
  intros Hinit Hnodup.
  destruct (ModelTable_init_inv get_class fields_for_model dict_order _ _ _ Hinit)
    as (model & self1 & _ & _ & _ & _ & Hmc & _).
  destruct (ModelTable_init_run get_class fields_for_model dict_order
              w model self1 Hmc) as (synthesized & w1 & _ & _ & Hrun).
  rewrite Hrun in Hinit.
  destruct (pop "actions" (_columns (world_class w))) as [e|[actions rest]] eqn:Hpop;
    [discriminate|].
  apply pop_inv in Hpop. destruct Hpop as [_ ->].
  cbv zeta in Hinit.
  destruct (negb _ && negb _); [discriminate|].
  inversion Hinit; subst t w'; clear Hinit.
  cbn [world_class _columns columns cls_name namespace _meta base_columns
       base_actions].
  split; [reflexivity|].
  split; [apply keys_update_prefix|].
  split; [now apply update_NoDup, delitem_NoDup|].
  repeat split.
Qed.

(** X20. The second table of a class has its actions column last. Two
    tables of one class are constructed one after the other; the fields of
    the model have distinct names, and a plain dictionary yields each of
    its keys once. The first table has moved the columns of the fields
    into the registry of the class, so the second finds them all there:
    only ["actions"], which it has popped, is new, and it is appended. The
    columns of the second table are those of the first but ["actions"], in
    their order, then ["actions"]. *)
Theorem second_table_has_actions_last (w w1 w2 : world) (t1 t2 self1 : ModelTable)
    (model : Model) :
  _model_class get_class (mkModelTable (_columns (world_class w)) None) w
  = (inr (OModel model, self1), w) ->
  ModelTable_init get_class fields_for_model dict_order w = (inr t1, w1) ->
  ModelTable_init get_class fields_for_model dict_order w1 = (inr t2, w2) ->
  let fields := fields_for_model model (opt_columns (_meta (world_class w))) in
  NoDup (keys (_columns (world_class w))) ->
  NoDup (keys fields) ->
  (forall k, In k (columns_keys fields) -> In k (dict_order (columns_keys fields))) ->
  keys (columns t2) = (keys (delitem "actions" (columns t1)) ++ ["actions"])%list
  /\ last (keys (columns t2)) "" = "actions".
Proof.
  intros Hmc Hfirst Hsecond fields Hclass Hfields Hcover.
  (* the first table *)
  destruct (ModelTable_init_run get_class fields_for_model dict_order
              w model self1 Hmc)
    as (synthesized1 & wa & Hrun1 & _ & Hinit1).
  fold fields in Hrun1.
  destruct (field_columns (many_to_many model) fields w)
    as (s1 & wa' & Hrun1' & _ & Hnames1 & _).
  rewrite Hrun1 in Hrun1'. inversion Hrun1'; subst s1 wa'; clear Hrun1'.
  rewrite Hinit1 in Hfirst.
  destruct (pop "actions" (_columns (world_class w))) as [e|[actions1 rest1]] eqn:Hpop1;
    [discriminate|].
  apply pop_inv in Hpop1. destruct Hpop1 as [_ ->].
  cbv zeta in Hfirst.
  destruct (negb _ && negb _); [discriminate|].
  inversion Hfirst; subst t1 w1; clear Hfirst Hinit1.
  destruct (columns_dict_keys fields synthesized1 actions1 Hnames1 Hfields)
    as [Hsame1 Hkeys1].
  rewrite Hsame1 in *.
  set (merged :=
         update (delitem "actions" (_columns (world_class w)))
           (dict_items dict_order (setitem "actions" actions1 synthesized1))) in *.
  assert (Hmerged : NoDup (keys merged))
    by (now apply update_NoDup, delitem_NoDup).
  assert (Hthere : forall k, In k (columns_keys fields) -> In k (keys merged)).
  { intros k Hk. unfold merged. apply update_with_dict_covers.
    - rewrite Hkeys1. exact Hcover.
    - now rewrite Hkeys1. }
  (* the second table *)
  set (w1 := mkWorld (world_runtime wa) _) in *.
  assert (Hmc1 : _model_class get_class
                   (mkModelTable (_columns (world_class w1)) None) w1
                 = (inr (OModel model,
                         mkModelTable (_columns (world_class w1))
                           (self_model_class self1)), w1)).
  { apply (_model_class_frame get_class w w1 (_columns (world_class w))
             (_columns (world_class w1)) (OModel model) self1);
      [reflexivity|reflexivity|exact Hmc]. }
  destruct (ModelTable_init_run get_class fields_for_model dict_order
              w1 model _ Hmc1)
    as (synthesized2 & wb & Hrun2 & _ & Hinit2).
  change (opt_columns (_meta (world_class w1)))
    with (opt_columns (_meta (world_class w))) in Hrun2.
  fold fields in Hrun2.
  destruct (field_columns (many_to_many model) fields w1)
    as (s2 & wb' & Hrun2' & _ & Hnames2 & _).
  rewrite Hrun2 in Hrun2'. inversion Hrun2'; subst s2 wb'; clear Hrun2'.
  rewrite Hinit2 in Hsecond.
  change (_columns (world_class w1)) with merged in Hsecond.
  destruct (pop "actions" merged) as [e|[actions2 rest2]] eqn:Hpop2;
    [discriminate|].
  apply pop_inv in Hpop2. destruct Hpop2 as [Hactions2 ->].
  cbv zeta in Hsecond.
  destruct (negb _ && negb _); [discriminate|].
  inversion Hsecond; subst t2 w2; clear Hsecond Hinit2.
  destruct (columns_dict_keys fields synthesized2 actions2 Hnames2 Hfields)
    as [Hsame2 Hkeys2].
  rewrite Hsame2. cbn [columns].
  assert (Hlast :
            keys (update (delitem "actions" merged)
                    (dict_items dict_order
                       (setitem "actions" actions2 synthesized2)))
            = (keys (delitem "actions" merged) ++ ["actions"])%list).
  { apply keys_update_one_new.
    - intros k Hk. apply dict_items_sound in Hk. rewrite Hkeys2 in Hk.
      destruct (String.eqb_spec k "actions") as [->|Hne]; [now left|right].
      apply delitem_keeps; [now apply Hthere|exact Hne].
    - now apply delitem_not_In.
    - apply in_map_iff. exists ("actions", actions2). split; [reflexivity|].
      apply dict_items_In.
      + rewrite Hkeys2. apply Hcover, actions_in_columns_keys.
      + apply getitem_setitem_same. }
  split; [exact Hlast|].
  rewrite Hlast. apply last_last.
Qed.

(** X21. When the construction of a table succeeds: the model of the class
    is found, the class has an actions column, and [get_table_data], which
    every model table has from [ModelTable] unless its class puts another
    value under that name, is callable. Then [ModelTable.__init__] returns
    a table, and the table has the model attribute that [_model_class]
    left on it. *)
Theorem construction_succeeds (w : world) (model : Model) (self1 : ModelTable)
    (actions : Column) (f : pyobj) :
  _model_class get_class (mkModelTable (_columns (world_class w)) None) w
  = (inr (OModel model, self1), w) ->
  getitem "actions" (_columns (world_class w)) = Some actions ->
  class_attribute (world_class w) "get_table_data" = Some f ->
  callable f = true ->
  exists t w',
    ModelTable_init get_class fields_for_model dict_order w = (inr t, w')
    /\ self_model_class t = self_model_class self1.
Proof.
  intros Hmc Hactions Hattr Hcallable.
  destruct (ModelTable_init_run get_class fields_for_model dict_order
              w model self1 Hmc) as (synthesized & w1 & _ & _ & Hrun).
  rewrite Hrun. unfold pop. rewrite Hactions. cbv beta iota zeta delta [ok].
  rewrite Hattr, Hcallable. cbn [negb andb].
  eexists _, _. split; reflexivity.
Qed.

(** X22. Where the [NotImplementedError] of [ModelTable.__init__] is
    raised. The class gives its model as a class in [Meta.model_class], has
    an actions column, no attribute [model_class], and under the name
    [get_table_data] a value that is not callable. The construction gets
    as far as the last check and raises ["You must define either a
    model_class or" ... "get_table_data" ...] with the name of the
    class. *)
Theorem shadowed_get_table_data_raises_NotImplementedError (w : world)
    (model : Model) (actions : Column) (f : pyobj) :
  model_class (_meta (world_class w)) = OModel model ->
  class_attribute (world_class w) "model_class" = None ->
  getitem "actions" (_columns (world_class w)) = Some actions ->
  class_attribute (world_class w) "get_table_data" = Some f ->
  callable f = false ->
  fst (ModelTable_init get_class fields_for_model dict_order w)
  = inl (must_define "get_table_data" ("or" ++ spaces 38)%string
           (cls_name (world_class w))).
Proof.
  intros Hmodel Hnone Hactions Hattr Hcallable.
  assert (Hmc : _model_class get_class
                  (mkModelTable (_columns (world_class w)) None) w
                = (inr (OModel model, mkModelTable (_columns (world_class w)) None),
                   w)).
  { unfold _model_class, mbind, mget, mret, mraise, find_model_class.
    cbv beta iota. rewrite Hmodel. cbn [self_model_class]. rewrite Hnone.
    reflexivity. }
  destruct (ModelTable_init_run get_class fields_for_model dict_order
              w model _ Hmc) as (synthesized & w1 & _ & _ & Hrun).
  rewrite Hrun. unfold pop. rewrite Hactions. cbv beta iota zeta delta [ok].
  rewrite Hattr, Hcallable. unfold find_model_class. cbn [self_model_class].
  rewrite Hnone. reflexivity.
Qed.

End TableProperties.

(** X24. A model named in the body of the class. The class has no
    [Meta.model_class] and the string [s] as its attribute [model_class].
    The name is never looked up: whatever [get_class] would answer, the
    construction of the table fails with an [AttributeError], for the
    string has no [_meta], and the class is left as it was. Only
    [Meta.model_class] may hold a name. *)
Theorem model_name_in_class_body_is_not_resolved
    (get_class : string -> result Model)
    (fields_for_model : Model -> option (list string) -> SortedDict Field)
    (dict_order : list string -> list string) (w : world) (s : string) :
  model_class (_meta (world_class w)) = ONone ->
  class_attribute (world_class w) "model_class" = Some (OStr s) ->
  s <> ""%string ->
  exists msg,
    ModelTable_init get_class fields_for_model dict_order w
    = (inl (AttributeError msg), w).
Proof.
  intros Hmeta Hattr Hs. eexists.
  apply ModelTable_init_no_model
    with (o := OStr s) (self1 := mkModelTable (_columns (world_class w)) None);
    [|reflexivity].
  unfold _model_class, mbind, mget, mret, mraise, find_model_class.
  cbv beta iota. rewrite Hmeta. cbn [self_model_class]. rewrite Hattr.
  cbn [getattr obj_truthy].
  destruct (String.eqb_spec s "") as [->|_]; [contradiction|reflexivity].
Qed.

(** The witness of X15: the class [Bare], whose [Meta] names the model and
    no actions. *)
Lemma table_without_row_actions_raises_KeyError_witness :
  getitem "actions" (_columns (world_class MoreExamples.Bare)) = None
  /\ exists w',
       ModelTable_init Examples.get_class Examples.fields_for_model Py27Dict.order
         MoreExamples.Bare
       = (inl (KeyError "actions"), w')
       /\ world_class w' = world_class MoreExamples.Bare.
Proof.
  refine (table_without_row_actions_raises_KeyError Examples.get_class
            Examples.fields_for_model Py27Dict.order Examples.first_seen
            "Bare" [Examples.ModelTable_base] []
            (Some (mkMeta (Some (OStr "blog.article")) None None None None None
                     None None))
            Examples.fresh_runtime (world_runtime MoreExamples.Bare)
            (world_runtime MoreExamples.Bare) (world_class MoreExamples.Bare)
            Examples.Article _ _ _ _ _ _).
  - vm_compute. reflexivity.
  - reflexivity.
  - reflexivity.
  - vm_compute. tauto.
  - vm_compute. reflexivity.
Defined.

(** The witness of X16: no model is named ["blog.ghost"], and the model
    named ["blog.article"] is [Article]. *)
Lemma model_name_is_resolved_witness :
  ModelTable_init Examples.get_class Examples.fields_for_model Py27Dict.order
    MoreExamples.Ghosts
  = (inl (Exception "no such content type"), MoreExamples.Ghosts)
  /\ exists t w',
       ModelTable_init Examples.get_class Examples.fields_for_model Py27Dict.order
         Examples.Articles = (inr t, w')
       /\ self_model_class t = Some (OModel Examples.Article).
Proof.
  split.
  - apply (proj1 (model_name_is_resolved Examples.get_class
                    Examples.fields_for_model Py27Dict.order MoreExamples.Ghosts
                    "blog.ghost" eq_refl)).
    reflexivity.
  - eexists _, _. split; [vm_compute; reflexivity|].
    eapply (proj2 (model_name_is_resolved Examples.get_class
                    Examples.fields_for_model Py27Dict.order Examples.Articles
                    "blog.article" eq_refl) Examples.Article _ _ eq_refl).
    vm_compute. reflexivity.
Defined.

(** The witness of X17: the model of [Articles]. *)
Lemma model_class_is_never_false_witness :
  obj_truthy (OModel Examples.Article) = true
  /\ OModel Examples.Article <> ONone
  /\ OModel Examples.Article <> OStr ""
  /\ Examples.Articles = Examples.Articles.
Proof.
  apply (model_class_is_never_false Examples.get_class (mkModelTable [] None)
           (mkModelTable [] (Some (OModel Examples.Article)))
           Examples.Articles Examples.Articles (OModel Examples.Article)).
  vm_compute. reflexivity.
Defined.

(** The witness of X18: the articles of [Articles], whose [Meta] names no
    order, come by ["-id"]; on a table of [ByAttribute], whose model is a
    string, the method raises; the order key of [ByClass] is ["name"]. *)
Lemma get_table_data_is_the_ordered_query_witness :
  fst (get_table_data Examples.get_class MoreExamples.all_articles
         (mkModelTable [] None) Examples.Articles)
  = inr ([3; 2; 1], mkModelTable [] (Some (OModel Examples.Article)))
  /\ (exists msg,
        get_table_data Examples.get_class MoreExamples.all_articles
          (mkModelTable [] None) MoreExamples.ByAttribute
        = (inl (AttributeError msg), MoreExamples.ByAttribute))
  /\ order_by (_meta (world_class MoreExamples.ByClass)) = "name"%string.
Proof.
  split; [|split].
  - destruct (get_table_data_is_the_ordered_query Examples.get_class
                MoreExamples.all_articles (mkModelTable [] None)
                (mkModelTable [] (Some (OModel Examples.Article)))
                Examples.Articles (OModel Examples.Article))
      as [Hquery _].
    + vm_compute. reflexivity.
    + rewrite (Hquery Examples.Article eq_refl). reflexivity.
  - destruct (get_table_data_is_the_ordered_query Examples.get_class
                MoreExamples.all_articles (mkModelTable [] None)
                (mkModelTable [] None)
                MoreExamples.ByAttribute (OStr "blog.article"))
      as (_ & Hother & _).
    + vm_compute. reflexivity.
    + apply Hother. discriminate.
  - destruct (get_table_data_is_the_ordered_query Examples.get_class
                MoreExamples.all_articles (mkModelTable [] None)
                (mkModelTable [] (Some (OModel Examples.Article)))
                Examples.Articles (OModel Examples.Article))
      as (_ & _ & Horder).
    + vm_compute. reflexivity.
    + apply (Horder (Some MoreExamples.ByClass_Meta)). vm_compute. reflexivity.
Defined.

(** The witness of X19: the first table of [Articles]. *)
Lemma construction_rewrites_class_registry_witness :
  exists t w',
    ModelTable_init Examples.get_class Examples.fields_for_model Py27Dict.order
      Examples.Articles = (inr t, w')
    /\ _columns (world_class w') = columns t
    /\ (exists added,
          keys (columns t)
          = (keys (delitem "actions" (_columns (world_class Examples.Articles)))
             ++ added)%list)
    /\ NoDup (keys (columns t))
    /\ cls_name (world_class w') = "Articles"%string.
Proof.
  eexists _, _.
  match goal with
  | |- ?I /\ _ => assert (Hinit : I) by (vm_compute; reflexivity)
  end.
  split; [exact Hinit|].
  destruct (construction_rewrites_class_registry Examples.get_class
              Examples.fields_for_model Py27Dict.order _ _ _ Hinit)
    as (Hregistry & Hhead & Hnodup & Hname & _).
  - vm_compute. repeat constructor. simpl. tauto.
  - split; [exact Hregistry|]. split; [exact Hhead|].
    split; [exact Hnodup|exact Hname].
Defined.

(** The witness of X20: two tables of [Articles]. The first has the columns
    [name], [actions] and [tags] in that order, the second [name], [tags]
    and [actions]. *)
Lemma second_table_has_actions_last_witness :
  exists t1 w1 t2 w2,
    ModelTable_init Examples.get_class Examples.fields_for_model Py27Dict.order
      Examples.Articles = (inr t1, w1)
    /\ ModelTable_init Examples.get_class Examples.fields_for_model Py27Dict.order
         w1 = (inr t2, w2)
    /\ keys (columns t1) = ["name"; "actions"; "tags"]%string
    /\ keys (columns t2) = ["name"; "tags"; "actions"]%string
    /\ last (keys (columns t2)) ""%string = "actions"%string.
Proof.
  eexists _, _, _, _.
  match goal with
  | |- ?I /\ _ => assert (Hfirst : I) by (vm_compute; reflexivity)
  end.
  split; [exact Hfirst|].
  match goal with
  | |- ?I /\ _ => assert (Hsecond : I) by (vm_compute; reflexivity)
  end.
  split; [exact Hsecond|].
  split; [reflexivity|].
  refine (second_table_has_actions_last Examples.get_class
            Examples.fields_for_model Py27Dict.order Examples.Articles _ _ _ _ _
            Examples.Article _ Hfirst Hsecond _ _ _).
  - vm_compute. reflexivity.
  - vm_compute. repeat constructor. simpl. tauto.
  - vm_compute. repeat constructor; simpl; intuition discriminate.
  - vm_compute. tauto.
Defined.

(** The witness of X21: the class [ByClass], whose [Meta] holds the model
    class itself. *)
Lemma construction_succeeds_witness :
  exists t w',
    ModelTable_init Examples.get_class Examples.fields_for_model Py27Dict.order
      MoreExamples.ByClass = (inr t, w')
    /\ self_model_class t = None.
Proof.
  edestruct (construction_succeeds Examples.get_class Examples.fields_for_model
               Py27Dict.order MoreExamples.ByClass Examples.Article
               (mkModelTable (_columns (world_class MoreExamples.ByClass)) None)
               (actions_column_of 4) OCallable)
    as (t & w' & Hinit & Hself).
  - vm_compute. reflexivity.
  - vm_compute. reflexivity.
  - reflexivity.
  - reflexivity.
  - exists t, w'. split; [exact Hinit|exact Hself].
Defined.

(** The witness of X22: the class [Shadowed]. *)
Lemma shadowed_get_table_data_raises_NotImplementedError_witness :
  fst (ModelTable_init Examples.get_class Examples.fields_for_model Py27Dict.order
         MoreExamples.Shadowed)
  = inl (must_define "get_table_data" ("or" ++ spaces 38)%string "Shadowed").
Proof.
  refine (shadowed_get_table_data_raises_NotImplementedError Examples.get_class
            Examples.fields_for_model Py27Dict.order MoreExamples.Shadowed
            Examples.Article (actions_column_of 4) ONone _ _ _ _ _).
  - reflexivity.
  - reflexivity.
  - vm_compute. reflexivity.
  - reflexivity.
  - reflexivity.
Defined.


(** The witness of X24: the class [ByAttribute]. *)
Lemma model_name_in_class_body_is_not_resolved_witness :
  exists msg,
    ModelTable_init Examples.get_class Examples.fields_for_model Py27Dict.order
      MoreExamples.ByAttribute
    = (inl (AttributeError msg), MoreExamples.ByAttribute).
Proof.
  apply (model_name_in_class_body_is_not_resolved Examples.get_class
           Examples.fields_for_model Py27Dict.order MoreExamples.ByAttribute
           "blog.article").
  - reflexivity.
  - reflexivity.
  - discriminate.
Defined.
